(** * AI4I 2020 curation pipeline: validation, transformation, export, provenance

    A shallow embedding of the four pipeline classes of the repository
    ([DataLoader], [DataTransformer], [DataExporter], [ProvenanceLogger]) and of
    the validation gate of [main], followed by the properties the design
    document states about them; then the documentation exports, the saved
    logs and the whole workflow of [main], with properties read off the code.

    Conventions of the embedding.
    - A pandas [DataFrame] is an ordered list of named, typed columns over a
      [RangeIndex]; a column is one of the four dtypes that the schema and the
      transformer produce.
    - A float64 cell is an exact rational ([Q]) or NaN ([None]); rounding of
      float arithmetic is not modelled, and cells are never infinite.  The one
      infinite number of the source, the last bin edge of [pd.cut], is an
      [edge].  The binary64 evaluation of the power estimate is given beside
      the rational one.
    - An int64 cell is an integer, and int64 arithmetic wraps around modulo
      [2^64] as numpy's does ([wrap64]).
    - An object column holds strings and missing cells.  An operation on its
      cells raises as pandas, numpy and scikit-learn do on a string; on an
      object column without cells there is nothing to raise on, and the
      operation returns an empty result.
    - A method of a class is a function from the object's state to the new
      state paired with [Ok v] or [Raise e]; the state is returned on both
      paths, so that what a failed call leaves behind can be stated.
    - The frame a method returns is the value of [self.df_transformed] at the
      return; what a later method assigns to that same object is seen in the
      transformer's state.
    - [datetime.now().isoformat()] is the argument [now] of each method.
    - What pandas, scikit-learn, hashlib and the operating system compute
      (column statistics, the scalers, serializers, digests) is a field of the
      classes [Engine], [IOEngine] and [DocEngine].
    - The file system is a finite map from paths to the bytes of the files;
      directories and failures of the disk are not modelled. *)

From Stdlib Require Import ZArith QArith Qabs Qround Lqa Lia List Bool.
From Stdlib Require Import String Ascii Strings.Byte PrimFloat FloatOps SpecFloat.
From Stdlib Require Reals Lra Machin Qreals.
From Equations Require Import Equations.
From stdpp Require Import gmap strings list sorting.

Local Open Scope string_scope.
Local Open Scope list_scope.

(* ===================================================================== *)
(** * Part I: the model                                                   *)
(* ===================================================================== *)

(** ** Python outcomes *)

Inductive exn :=
| KeyError (key : string)
| TypeError
| ValueError (msg : string)
| ZeroDivisionError
| UnboundLocalError (var : string)
| FileNotFoundError (path : string)
| ImportError (msg : string)
| InvalidConfiguration (msg : string).

Inductive result (A : Type) :=
| Ok (a : A)
| Raise (e : exn).
Arguments Ok {A} a.
Arguments Raise {A} e.

Definition is_ok {A} (r : result A) : bool :=
  match r with Ok _ => true | Raise _ => false end.

#[global] Instance result_ret : MRet result := fun A a => Ok a.
#[global] Instance result_bind : MBind result := fun A B k r =>
  match r with Ok a => k a | Raise e => Raise e end.

(** ** Float cells: exact rationals and NaN *)

Definition num := option Q.

Definition Qlt_bool (a b : Q) : bool := negb (Qle_bool b a).

Definition fbin (op : Q -> Q -> Q) (a b : num) : num :=
  match a, b with
  | Some x, Some y => Some (op x y)
  | _, _ => None
  end.

Definition fadd := fbin Qplus.
Definition fsub := fbin Qminus.
Definition fmul := fbin Qmult.

(** [a < b] and [a > b] on cells: false as soon as one side is NaN. *)
Definition flt (a b : num) : bool :=
  match a, b with
  | Some x, Some y => Qlt_bool x y
  | _, _ => false
  end.
Definition fgt (a b : num) : bool := flt b a.

Definition of_Z (z : Z) : num := Some (inject_Z z).

(** The int64 that numpy stores for the integer [z]: [z] modulo [2^64], taken
    in [-2^63, 2^63). *)
Definition wrap64 (z : Z) : Z := ((z + 2 ^ 63) mod 2 ^ 64 - 2 ^ 63)%Z.

(** ** Series and DataFrame *)

Module Frame.

Inductive Series :=
| IntCol (xs : list Z)                  (* int64 *)
| FloatCol (xs : list num)              (* float64 *)
| ObjCol (xs : list (option string))    (* object *)
| CatCol (xs : list (option string)).   (* category *)

(** [str(series.dtype)] *)
Definition dtype (s : Series) : string :=
  match s with
  | IntCol _ => "int64"
  | FloatCol _ => "float64"
  | ObjCol _ => "object"
  | CatCol _ => "category"
  end.

Inductive cell :=
| CInt (z : Z)
| CFloat (q : Q)
| CStr (s : string)
| CNull.

Definition cells (s : Series) : list cell :=
  match s with
  | IntCol xs => map CInt xs
  | FloatCol xs => map (fun x => match x with Some q => CFloat q | None => CNull end) xs
  | ObjCol xs => map (fun x => match x with Some v => CStr v | None => CNull end) xs
  | CatCol xs => map (fun x => match x with Some v => CStr v | None => CNull end) xs
  end.

Definition isnull (c : cell) : bool :=
  match c with CNull => true | _ => false end.

(** Equality of cells as [duplicated] sees it: two missing cells are equal. *)
Definition cell_eqb (a b : cell) : bool :=
  match a, b with
  | CInt x, CInt y => Z.eqb x y
  | CFloat x, CFloat y => Qeq_bool x y
  | CStr x, CStr y => String.eqb x y
  | CNull, CNull => true
  | _, _ => false
  end.

(** The numeric view of a column: its cells as float64 for the two numeric
    dtypes, [None] for object and category columns. *)
Definition numeric (s : Series) : option (list num) :=
  match s with
  | IntCol xs => Some (map of_Z xs)
  | FloatCol xs => Some xs
  | _ => None
  end.

Definition is_object (s : Series) : bool :=
  match s with ObjCol _ => true | _ => false end.

(** The cells of a column as an elementwise operation reads them.  On an
    object column pandas applies the operation cell by cell and raises at a
    string; an object column without cells passes, with no cell to read.  A
    category column supports no arithmetic and no binning. *)
Definition operand (s : Series) : option (list num) :=
  match s with
  | ObjCol [] => Some []
  | _ => numeric s
  end.

(** [index_len] is the length of the [RangeIndex], that is [len(df)]. *)
Record DataFrame := mkDataFrame {
  index_len : nat;
  columns : list (string * Series)
}.

Fixpoint assoc {A} (k : string) (l : list (string * A)) : option A :=
  match l with
  | [] => None
  | (k', v) :: rest => if String.eqb k k' then Some v else assoc k rest
  end.

(** The numeric view of the column [name], if there is one. *)
Definition numeric_col (d : DataFrame) (name : string) : option (list num) :=
  match assoc name (columns d) with
  | Some s => numeric s
  | None => None
  end.

(** The cells of column [s] of the frame [d] as a column statistic or a
    comparison reads them: the numeric view, and no cell at all for an object
    column of a frame without rows. *)
Definition column_values (d : DataFrame) (s : Series) : result (list num) :=
  match numeric s with
  | Some col => Ok col
  | None => if is_object s && Nat.eqb (index_len d) 0 then Ok [] else Raise TypeError
  end.

(** [df.columns] *)
Definition column_names (d : DataFrame) : list string := map fst (columns d).

(** [df[name]], raising [KeyError] for an absent column. *)
Definition getitem (d : DataFrame) (name : string) : result Series :=
  match assoc name (columns d) with
  | Some s => Ok s
  | None => Raise (KeyError name)
  end.

Fixpoint assoc_set {A} (k : string) (v : A) (l : list (string * A)) : list (string * A) :=
  match l with
  | [] => [(k, v)]
  | (k', v') :: rest =>
      if String.eqb k k' then (k', v) :: rest else (k', v') :: assoc_set k v rest
  end.

(** [df[name] = s]: replaces the column in place, or appends a new last one. *)
Definition setitem (d : DataFrame) (name : string) (s : Series) : DataFrame :=
  {| index_len := index_len d; columns := assoc_set name s (columns d) |}.

(** [df.copy()]: a value of the model is its own deep copy. *)
Definition copy (d : DataFrame) : DataFrame := d.

(** Row [i] of the frame, one cell per column. *)
Definition row (d : DataFrame) (i : nat) : list cell :=
  map (fun c => nth i (cells (snd c)) CNull) (columns d).

Definition rows (d : DataFrame) : list (list cell) :=
  map (row d) (seq 0 (index_len d)).

Fixpoint row_eqb (r1 r2 : list cell) : bool :=
  match r1, r2 with
  | [], [] => true
  | a :: r1', b :: r2' => cell_eqb a b && row_eqb r1' r2'
  | _, _ => false
  end.

(** [df.duplicated()]: a row is flagged when an earlier row equals it. *)
Fixpoint duplicated_from (seen rest : list (list cell)) : list bool :=
  match rest with
  | [] => []
  | r :: rest' => existsb (row_eqb r) seen :: duplicated_from (r :: seen) rest'
  end.

Definition duplicated (d : DataFrame) : list bool := duplicated_from [] (rows d).

Definition count_true (m : list bool) : nat := length (List.filter id m).

(** [df.isnull().sum().sum()] *)
Definition isnull_sum_sum (d : DataFrame) : nat :=
  list_sum (map (fun c => length (List.filter isnull (cells (snd c)))) (columns d)).

End Frame.

(** ** DataLoader (load_data.py) *)

Module Loader.
Import Frame.

Definition EXPECTED_COLUMNS : list string :=
  [ "UDI"; "Product ID"; "Type"; "Air temperature [K]";
    "Process temperature [K]"; "Rotational speed [rpm]";
    "Torque [Nm]"; "Tool wear [min]"; "Machine failure";
    "TWF"; "HDF"; "PWF"; "OSF"; "RNF" ].

Definition EXPECTED_DTYPES : list (string * string) :=
  [ ("UDI", "int64");
    ("Product ID", "object");
    ("Type", "object");
    ("Air temperature [K]", "float64");
    ("Process temperature [K]", "float64");
    ("Rotational speed [rpm]", "int64");
    ("Torque [Nm]", "float64");
    ("Tool wear [min]", "int64");
    ("Machine failure", "int64");
    ("TWF", "int64");
    ("HDF", "int64");
    ("PWF", "int64");
    ("OSF", "int64");
    ("RNF", "int64") ].

Definition EXPECTED_ROWS : nat := Z.to_nat 10000.

Inductive Status := PASS | WARN | FAIL.

Record Mismatch := mkMismatch {
  column : string;
  expected : string;
  actual : string
}.

(** The value stored under each key of [results]. *)
Inductive Check :=
| RowCountCheck (expected actual : nat) (status : Status)
| ColumnsCheck (expected actual : nat) (missing extra : gset string) (status : Status)
| DataTypesCheck (mismatches : list Mismatch) (status : Status)
| TotalCheck (total : nat) (status : Status).

Definition status (c : Check) : Status :=
  match c with
  | RowCountCheck _ _ s => s
  | ColumnsCheck _ _ _ _ s => s
  | DataTypesCheck _ s => s
  | TotalCheck _ s => s
  end.

Definition Results := list (string * Check).

Record DataLoader := mkDataLoader {
  data_path : string;
  df : option DataFrame;
  validation_results : Results
}.

Definition init (path : string) : DataLoader :=
  {| data_path := path; df := None; validation_results := [] |}.

(** [load]: [path_exists] is [self.data_path.exists()], [read_csv] the outcome
    of [pd.read_csv(self.data_path)]. *)
Definition load (path_exists : bool) (read_csv : result DataFrame) (L : DataLoader)
  : DataLoader * result DataFrame :=
  if negb path_exists then
    (L, Raise (FileNotFoundError (data_path L)))
  else
    match read_csv with
    | Ok d =>
        ({| data_path := data_path L; df := Some d;
            validation_results := validation_results L |}, Ok d)
    | Raise e => (L, Raise e)
    end.

Definition missing_cols (d : DataFrame) : gset string :=
  list_to_set EXPECTED_COLUMNS ∖ list_to_set (column_names d).

Definition extra_cols (d : DataFrame) : gset string :=
  list_to_set (column_names d) ∖ list_to_set EXPECTED_COLUMNS.

Definition dtype_mismatches (d : DataFrame) : list Mismatch :=
  flat_map (fun ce : string * string =>
    let (col, expected_dtype) := ce in
    match assoc col (columns d) with
    | Some s =>
        let actual_dtype := dtype s in
        if String.eqb actual_dtype expected_dtype then []
        else [ {| column := col; expected := expected_dtype; actual := actual_dtype |} ]
    | None => []
    end) EXPECTED_DTYPES.

Definition validate_structure (L : DataLoader) : DataLoader * result Results :=
  match df L with
  | None => (L, Raise (ValueError "Dataset not loaded. Call load() first."))
  | Some d =>
      let row_count :=
        RowCountCheck EXPECTED_ROWS (index_len d)
          (if Nat.eqb (index_len d) EXPECTED_ROWS then PASS else WARN) in
      let missing := missing_cols d in
      let extra := extra_cols d in
      let cols :=
        ColumnsCheck (length EXPECTED_COLUMNS) (length (column_names d)) missing extra
          (if decide (missing = ∅) then PASS else FAIL) in
      let mismatches := dtype_mismatches d in
      let data_types :=
        DataTypesCheck mismatches
          (match mismatches with [] => PASS | _ => WARN end) in
      let missing_values := isnull_sum_sum d in
      let missing_values_check :=
        TotalCheck missing_values (if Nat.eqb missing_values 0 then PASS else WARN) in
      let duplicates := count_true (duplicated d) in
      let duplicates_check :=
        TotalCheck duplicates (if Nat.eqb duplicates 0 then PASS else WARN) in
      let results :=
        [ ("row_count", row_count);
          ("columns", cols);
          ("data_types", data_types);
          ("missing_values", missing_values_check);
          ("duplicates", duplicates_check) ] in
      ({| data_path := data_path L; df := Some d; validation_results := results |},
       Ok results)
  end.

End Loader.

(** ** The validation gate of main.py *)

Module Orchestrator.
Import Frame Loader.

(** [all(v.get('status') in ['PASS', 'WARN'] for v in validation_results.values())] *)
Definition all_passed (validation_results : Results) : bool :=
  forallb (fun kv : string * Check =>
             match status (snd kv) with
             | PASS | WARN => true
             | FAIL => false
             end) validation_results.

(** What step 1 of [main] hands on: the exit code of an aborted run, or the
    loaded frame and its report for step 2. *)
Inductive Step1 :=
| Return (exit_code : Z)
| Proceed (d : DataFrame) (validation_results : Results).

Definition main_step1 (path_exists : bool) (read_csv : result DataFrame) : Step1 :=
  let loader := Loader.init "data/AI4I_2020.csv" in
  match load path_exists read_csv loader with
  | (_, Raise _) => Return 1
  | (loader, Ok d) =>
      match validate_structure loader with
      | (_, Raise _) => Return 1
      | (_, Ok validation_results) =>
          if negb (all_passed validation_results) then Return 1
          else Proceed d validation_results
      end
  end.

End Orchestrator.

(** ** Column statistics and scalers (pandas, scikit-learn) *)

(** The per-feature dictionary stored under ['parameters']: its two keys
    depend on the method. *)
Inductive ScalingParams :=
| MeanStd (mean std : num)
| MinMax (min max : num)
| CenterScale (center scale : num).

(** A scikit-learn scaler works column by column: [fit] computes the two
    fitted attributes of one column, [transform] maps one cell. *)
Record Scaler := mkScaler {
  fit : list num -> num * num;
  transform : num * num -> num -> num
}.

Class Engine := mkEngine {
  series_mean : list num -> num;       (* Series.mean() *)
  series_std : list num -> num;        (* Series.std(), ddof = 1 *)
  StandardScaler : Scaler;             (* mean_, scale_ *)
  MinMaxScaler : Scaler;               (* data_min_, data_max_ *)
  RobustScaler : Scaler                (* center_, scale_ *)
}.

#[global] Instance Qle_decision (x y : Q) : Decision (x <= y)%Q :=
  match Qle_bool x y as b return Qle_bool x y = b -> Decision (x <= y)%Q with
  | true => fun H => left (proj1 (Qle_bool_iff x y) H)
  | false => fun H => right (fun H' =>
      eq_ind true (fun b => if b then True else False) I false
             (eq_trans (eq_sym (proj2 (Qle_bool_iff x y) H')) H))
  end eq_refl.

(** The value at the fractional position [h] of the sorted values [v],
    interpolated linearly between the two neighbours of [h]. *)
Definition interp (v : list Q) (x0 : Q) (h : Q) : Q :=
  let lo := Z.to_nat (Qfloor h) in
  let hi := Nat.min (lo + 1) (length v - 1) in
  (nth lo v x0 + (nth hi v x0 - nth lo v x0) * (h - inject_Z (Qfloor h)))%Q.

(** [Series.quantile(q)] for [0 <= q <= 1], with pandas' default linear
    interpolation: missing cells are dropped, the rest sorted, and the value
    read at the fractional position [(n - 1) * q].  NaN for a column without
    values. *)
Definition quantile (xs : list num) (q : Q) : num :=
  let v := merge_sort Qle (omap id xs) in
  match v with
  | [] => None
  | x0 :: _ => Some (interp v x0 (inject_Z (Z.of_nat (length v - 1)) * q))
  end.

(** [np.pi], the binary64 number nearest to pi, as the rational it denotes
    and as the float itself. *)
Definition np_pi : Q := 7074237752028440 # 2251799813685248.
Definition np_pi_f64 : float := 0x1.921fb54442d18p+1%float.

(** The rational that a finite binary64 number denotes. *)
Definition f64_to_Q (f : float) : option Q :=
  match Prim2SF f with
  | S754_zero _ => Some 0%Q
  | S754_finite s m e =>
      let mag := (inject_Z (Z.pos m) * (2 ^ e))%Q in
      Some (if s then Qopp mag else mag)
  | _ => None
  end.

(** The quantities of the design document, over the real numbers. *)
Module Ideal.
Import Rdefinitions Raxioms RIneq Rbasic_fun Rtrigo1 Qreals.
Local Open Scope R_scope.

(** Torque times angular speed, the speed converted from revolutions per
    minute to radians per second with the real number pi. *)
Definition power (torque speed : R) : R := torque * speed * (2 * PI / 60).

(** [x] and [y] differ by less than [eps]. *)
Definition within (eps : Q) (x y : R) : Prop := Rabs (x - y) < Q2R eps.

Definition pi : R := PI.
Definition of_Q (q : Q) : R := Q2R q.

End Ideal.

(** ** DataTransformer (transform_data.py) *)

Module Transformer.
Import Frame.

Definition CONTINUOUS_FEATURES : list string :=
  [ "Air temperature [K]";
    "Process temperature [K]";
    "Rotational speed [rpm]";
    "Torque [Nm]";
    "Tool wear [min]" ].

Inductive Indices :=
| IndexList (l : list nat)
| too_many_to_list.

Record OutlierInfo := mkOutlierInfo {
  count : nat;
  percentage : Q;
  indices : Indices
}.

(** One dictionary of [transformation_log]; the constructor is the value of
    its ['operation'] key. *)
Inductive LogEntry :=
| outlier_detection (timestamp method : string) (threshold : Q)
    (results : list (string * nat))
| normalization (timestamp method : string) (features : list string)
    (parameters : list (string * ScalingParams))
| feature_engineering (timestamp : string) (derived_features : list string)
    (description : string).

Definition operation (e : LogEntry) : string :=
  match e with
  | outlier_detection _ _ _ _ => "outlier_detection"
  | normalization _ _ _ _ => "normalization"
  | feature_engineering _ _ _ => "feature_engineering"
  end.

Definition timestamp_of (e : LogEntry) : string :=
  match e with
  | outlier_detection t _ _ _ => t
  | normalization t _ _ _ => t
  | feature_engineering t _ _ => t
  end.

(** [scaler] holds the fitted attributes of [self.scaler], [None] before the
    first fit. *)
Record DataTransformer := mkDataTransformer {
  df : DataFrame;
  df_transformed : option DataFrame;
  scaler : option (list (num * num));
  transformation_log : list LogEntry
}.

Definition init (d : DataFrame) : DataTransformer :=
  {| df := copy d; df_transformed := None; scaler := None; transformation_log := [] |}.

Definition set_df_transformed (T : DataTransformer) (d : DataFrame) : DataTransformer :=
  {| df := df T; df_transformed := Some d; scaler := scaler T;
     transformation_log := transformation_log T |}.

Definition log_append (T : DataTransformer) (e : LogEntry) : DataTransformer :=
  {| df := df T; df_transformed := df_transformed T; scaler := scaler T;
     transformation_log := transformation_log T ++ [e] |}.

(** [StandardScaler._reset]: the fitted attributes are deleted. *)
Definition reset_scaler (T : DataTransformer) : DataTransformer :=
  {| df := df T; df_transformed := df_transformed T; scaler := None;
     transformation_log := transformation_log T |}.

(** *** detect_outliers *)

Definition iqr_mask (col : list num) (threshold : Q) : list bool :=
  let Q1 := quantile col 0.25 in
  let Q3 := quantile col 0.75 in
  let IQR := fsub Q3 Q1 in
  let lower_bound := fsub Q1 (fmul (Some threshold) IQR) in
  let upper_bound := fadd Q3 (fmul (Some threshold) IQR) in
  map (fun x => flt x lower_bound || fgt x upper_bound) col.

(** [np.abs((x - mean) / std) > threshold] for one cell.  Dividing by a zero
    [std] gives NaN for a zero numerator, which is above no threshold, and an
    infinity otherwise, which is above every one. *)
Definition zscore_gt (x mean std : num) (threshold : Q) : bool :=
  match x, mean, std with
  | Some x, Some m, Some s =>
      if Qeq_bool s 0 then negb (Qeq_bool (x - m) 0)
      else Qlt_bool threshold (Qabs ((x - m) / s))
  | _, _, _ => false
  end.

Definition zscore_mask `{Engine} (col : list num) (threshold : Q) : list bool :=
  let mean := series_mean col in
  let std := series_std col in
  map (fun x => zscore_gt x mean std threshold) col.

(** The boolean mask that selects [outliers] for one feature.  With a method
    other than the two, the name [outliers] is never bound and its first use
    raises.  The quantiles, the mean and the comparisons raise [TypeError] on
    a column that is not numeric, unless the frame has no rows: the mask is
    then empty, and the percentage that follows divides by zero. *)
Definition outlier_mask `{Engine} (d : DataFrame) (method : string) (threshold : Q)
  (feature : string) : result (list bool) :=
  if String.eqb method "iqr" then
    s ← getitem d feature;
    col ← column_values d s;
    Ok (iqr_mask col threshold)
  else if String.eqb method "zscore" then
    s ← getitem d feature;
    col ← column_values d s;
    Ok (zscore_mask col threshold)
  else Raise (UnboundLocalError "outliers").

(** Positions of the [true] cells: [outliers.index.tolist()]. *)
Fixpoint flagged_from (i : nat) (mask : list bool) : list nat :=
  match mask with
  | [] => []
  | b :: rest => if b then i :: flagged_from (S i) rest else flagged_from (S i) rest
  end.

Definition outlier_entry (d : DataFrame) (mask : list bool) : result OutlierInfo :=
  let n := count_true mask in
  if Nat.eqb (index_len d) 0 then Raise ZeroDivisionError
  else Ok {| count := n;
             percentage := (inject_Z (Z.of_nat n) / inject_Z (Z.of_nat (index_len d)) * 100)%Q;
             indices := if Nat.ltb n 100 then IndexList (flagged_from 0 mask)
                        else too_many_to_list |}.

Fixpoint outlier_loop `{Engine} (d : DataFrame) (method : string) (threshold : Q)
  (features : list string) : result (list (string * OutlierInfo)) :=
  match features with
  | [] => Ok []
  | feature :: rest =>
      mask ← outlier_mask d method threshold feature;
      info ← outlier_entry d mask;
      tail ← outlier_loop d method threshold rest;
      Ok ((feature, info) :: tail)
  end.

Definition detect_outliers `{Engine} (method : string) (threshold : Q) (now : string)
  (T : DataTransformer) : DataTransformer * result (list (string * OutlierInfo)) :=
  match outlier_loop (df T) method threshold CONTINUOUS_FEATURES with
  | Raise e => (T, Raise e)
  | Ok outlier_info =>
      (log_append T
         (outlier_detection now method threshold
            (map (fun kv : string * OutlierInfo => (fst kv, count (snd kv))) outlier_info)),
       Ok outlier_info)
  end.

(** *** normalize_features *)

Fixpoint getitems (d : DataFrame) (names : list string) : result (list Series) :=
  match names with
  | [] => Ok []
  | n :: rest => s ← getitem d n; tail ← getitems d rest; Ok (s :: tail)
  end.

(** The first string of a column that is not numeric. *)
Definition first_string (s : Series) : option string :=
  match s with
  | ObjCol xs | CatCol xs => head (omap id xs)
  | _ => None
  end.

(** What numpy raises when it converts the selected columns to float64 and
    meets a string: the message ends with the offending cell.  The columns
    are converted one after the other, so the cell is the first string of
    the first column that is not numeric.  A string is taken not to spell a
    number: [read_csv] reads a column of numerals as a numeric column. *)
Definition conversion_error (s : Series) : exn :=
  ValueError (String.append "could not convert string to float: '"
                (String.append (default "" (first_string s)) "'")).

Fixpoint as_float_matrix (cols : list Series) : result (list (list num)) :=
  match cols with
  | [] => Ok []
  | s :: rest =>
      match numeric s with
      | Some c => tail ← as_float_matrix rest; Ok (c :: tail)
      | None => Raise (conversion_error s)
      end
  end.

(** What [check_array] of scikit-learn raises for an array without rows; the
    message names the estimator that asked. *)
Definition min_samples_error (estimator : string) : exn :=
  ValueError
    (String.append
       "Found array with 0 sample(s) (shape=(0, 5)) while a minimum of 1 is required by "
       (String.append estimator ".")).

(** [self.df[self.CONTINUOUS_FEATURES]] as the scaler [estimator] reads it: a
    missing column is a [KeyError] of the selection; the scaler's input check
    then converts the selection to float64 and requires one row at least,
    each a [ValueError].  Without rows there is no cell to convert. *)
Definition select_features (estimator : string) (d : DataFrame)
  : result (list (list num)) :=
  cols ← getitems d CONTINUOUS_FEATURES;
  if Nat.eqb (index_len d) 0 then Raise (min_samples_error estimator)
  else as_float_matrix cols.

Definition fit_transform (S : Scaler) (X : list (list num))
  : list (num * num) * list (list num) :=
  let fitted := map (fit S) X in
  (fitted, zip_with (fun p col => map (transform S p) col) fitted X).

(** [d[fs] = Y]: one column assignment per name, left to right. *)
Definition assign_cols (fs : list string) (Y : list (list num)) (d : DataFrame) : DataFrame :=
  fold_left (fun acc fc => setitem acc (fst fc) (FloatCol (snd fc))) (zip fs Y) d.

(** [d[CONTINUOUS_FEATURES] = Y] *)
Definition assign_features (d : DataFrame) (Y : list (list num)) : DataFrame :=
  assign_cols CONTINUOUS_FEATURES Y d.

Definition scaling_params (mk : num -> num -> ScalingParams) (fitted : list (num * num))
  : list (string * ScalingParams) :=
  zip_with (fun feature p => (feature, mk (fst p) (snd p))) CONTINUOUS_FEATURES fitted.

Definition normalize_features `{Engine} (method now : string) (T : DataTransformer)
  : DataTransformer * result DataFrame :=
  let T1 := set_df_transformed T (copy (df T)) in
  let finish (T2 : DataTransformer) (d : DataFrame) (params : list (string * ScalingParams)) :=
    (log_append (set_df_transformed T2 d)
       (normalization now method CONTINUOUS_FEATURES params), Ok d) in
  if String.eqb method "standard" then
    match select_features "StandardScaler" (df T) with
    | Raise (KeyError key) => (T1, Raise (KeyError key))
    | Raise e =>
        (* [fit] resets [self.scaler] before it checks its input; a missing
           column is raised by the selection, before [fit] is called *)
        (reset_scaler T1, Raise e)
    | Ok X =>
        let (fitted, Y) := fit_transform StandardScaler X in
        let T2 := {| df := df T; df_transformed := df_transformed T1;
                     scaler := Some fitted;
                     transformation_log := transformation_log T |} in
        finish T2 (assign_features (copy (df T)) Y) (scaling_params MeanStd fitted)
    end
  else if String.eqb method "minmax" then
    match select_features "MinMaxScaler" (df T) with
    | Raise e => (T1, Raise e)
    | Ok X =>
        let (fitted, Y) := fit_transform MinMaxScaler X in
        finish T1 (assign_features (copy (df T)) Y) (scaling_params MinMax fitted)
    end
  else if String.eqb method "robust" then
    match select_features "RobustScaler" (df T) with
    | Raise e => (T1, Raise e)
    | Ok X =>
        let (fitted, Y) := fit_transform RobustScaler X in
        finish T1 (assign_features (copy (df T)) Y) (scaling_params CenterScale fitted)
    end
  else
    (* no branch bound [scaling_params]: building the log record raises *)
    (T1, Raise (UnboundLocalError "scaling_params")).

(** The scaler and the shape of the logged parameters that each supported
    method name selects. *)
Definition method_scaler `{Engine} (method : string)
  : option (Scaler * (num -> num -> ScalingParams)) :=
  if String.eqb method "standard" then Some (StandardScaler, MeanStd)
  else if String.eqb method "minmax" then Some (MinMaxScaler, MinMax)
  else if String.eqb method "robust" then Some (RobustScaler, CenterScale)
  else None.


(** *** compute_derived_features *)

(** [a - b]: int64 when both columns are, the difference wrapping around;
    float64 when both are numeric and one is float64; an empty object column
    when both can be read and one is an object column. *)
Definition series_sub (a b : Series) : result Series :=
  match a, b with
  | IntCol x, IntCol y => Ok (IntCol (zip_with (fun u v => wrap64 (u - v)) x y))
  | _, _ =>
      match operand a, operand b with
      | Some x, Some y =>
          if is_object a || is_object b then Ok (ObjCol [])
          else Ok (FloatCol (zip_with fsub x y))
      | _, _ => Raise TypeError
      end
  end.

(** [torque * speed * 2 * np.pi / 60], evaluated left to right, on float64
    cells. *)
Definition power_estimate (torque speed : num) : num :=
  fbin Qdiv (fmul (fmul (fmul torque speed) (of_Z 2)) (Some np_pi)) (of_Z 60).

(** The same expression on binary64 numbers. *)
Definition power_estimate_f64 (torque speed : float) : float :=
  (torque * speed * 2 * np_pi_f64 / 60)%float.

(** The same expression on two int64 cells: the product and its double are
    int64, each wrapping around, and the multiplication by [np.pi] is the
    first float operation. *)
Definition power_estimate_int64 (torque speed : Z) : num :=
  fbin Qdiv (fmul (of_Z (wrap64 (wrap64 (torque * speed) * 2))) (Some np_pi)) (of_Z 60).

Definition series_power (torque speed : Series) : result Series :=
  match torque, speed with
  | IntCol t, IntCol s => Ok (FloatCol (zip_with power_estimate_int64 t s))
  | _, _ =>
      match operand torque, operand speed with
      | Some t, Some s =>
          if is_object torque || is_object speed then Ok (ObjCol [])
          else Ok (FloatCol (zip_with power_estimate t s))
      | _, _ => Raise TypeError
      end
  end.

(** The cells of [series_power] on two numeric columns: the int64 expression
    when both are int64, the float64 one otherwise. *)
Definition power_column (torque speed : Series) : list num :=
  match torque, speed with
  | IntCol t, IntCol s => zip_with power_estimate_int64 t s
  | _, _ => zip_with power_estimate (default [] (numeric torque)) (default [] (numeric speed))
  end.

(** A bin edge of [pd.cut]: a number or [float('inf')]. *)
Inductive edge :=
| Finite (q : Q)
| inf.

Definition edge_lt (e : edge) (x : Q) : bool :=
  match e with
  | Finite b => Qlt_bool b x
  | inf => false
  end.

(** [bins.searchsorted(x, side='left')] for increasing [bins]: the number of
    edges strictly below [x]. *)
Definition searchsorted_left (bins : list edge) (x : Q) : nat :=
  length (List.filter (fun b => edge_lt b x) bins).

(** [pd.cut(x, bins, labels)] for one cell, with the defaults [right=True] and
    [include_lowest=False]: the cell is in bin [i - 1] for [i] its insertion
    index, and has no category when the index is [0] or [len(bins)], or when
    the cell is missing. *)
Definition cut (bins : list edge) (labels : list string) (x : num) : option string :=
  match x with
  | None => None
  | Some v =>
      let i := searchsorted_left bins v in
      if Nat.eqb i 0 || Nat.eqb i (length bins) then None
      else nth_error labels (i - 1)
  end.

Definition wear_bins : list edge := [Finite 0; Finite 100; Finite 200; inf].
Definition wear_labels : list string := ["Low"; "Medium"; "High"].

Definition tool_wear_category (w : num) : option string := cut wear_bins wear_labels w.

(** [pd.cut] of a column with the bins and labels of the source. *)
Definition series_cut (s : Series) : result Series :=
  match operand s with
  | Some ws => Ok (CatCol (map tool_wear_category ws))
  | None => Raise TypeError
  end.

Definition derived_feature_names : list string :=
  ["Temp_Difference"; "Power_Estimate"; "Tool_Wear_Category"].

Definition compute_derived_features (now : string) (T : DataTransformer)
  : DataTransformer * result DataFrame :=
  let d0 := match df_transformed T with
            | None => copy (df T)
            | Some d => d
            end in
  match (p ← getitem (df T) "Process temperature [K]";
         a ← getitem (df T) "Air temperature [K]";
         series_sub p a) with
  | Raise e => (set_df_transformed T d0, Raise e)
  | Ok temp_difference =>
      let d1 := setitem d0 "Temp_Difference" temp_difference in
      match (t ← getitem (df T) "Torque [Nm]";
             s ← getitem (df T) "Rotational speed [rpm]";
             series_power t s) with
      | Raise e => (set_df_transformed T d1, Raise e)
      | Ok power =>
          let d2 := setitem d1 "Power_Estimate" power in
          match (w ← getitem (df T) "Tool wear [min]"; series_cut w) with
          | Raise e => (set_df_transformed T d2, Raise e)
          | Ok category =>
              let d3 := setitem d2 "Tool_Wear_Category" category in
              (log_append (set_df_transformed T d3)
                 (feature_engineering now derived_feature_names
                    "Added temperature difference, power estimate, and tool wear category"),
               Ok d3)
          end
      end
  end.

(** A call of one of the three transformation methods, with the clock
    reading at the call. *)
Inductive Call :=
| call_detect_outliers (method : string) (threshold : Q) (now : string)
| call_normalize_features (method : string) (now : string)
| call_compute_derived_features (now : string).

Definition run_call `{Engine} (c : Call) (T : DataTransformer) : DataTransformer * bool :=
  match c with
  | call_detect_outliers m t now =>
      let (T', r) := detect_outliers m t now T in (T', is_ok r)
  | call_normalize_features m now =>
      let (T', r) := normalize_features m now T in (T', is_ok r)
  | call_compute_derived_features now =>
      let (T', r) := compute_derived_features now T in (T', is_ok r)
  end.

Definition call_now (c : Call) : string :=
  match c with
  | call_detect_outliers _ _ now => now
  | call_normalize_features _ now => now
  | call_compute_derived_features now => now
  end.

Definition call_operation (c : Call) : string :=
  match c with
  | call_detect_outliers _ _ _ => "outlier_detection"
  | call_normalize_features _ _ => "normalization"
  | call_compute_derived_features _ => "feature_engineering"
  end.

(** A sequence of calls on one transformer, a failed call being caught by the
    caller; returns the final state and the calls that succeeded. *)
Fixpoint run_calls `{Engine} (cs : list Call) (T : DataTransformer)
  : DataTransformer * list Call :=
  match cs with
  | [] => (T, [])
  | c :: rest =>
      let (T', ok) := run_call c T in
      let (T'', done) := run_calls rest T' in
      (T'', if ok then c :: done else done)
  end.

End Transformer.

(** ** Serializers, digests and paths (pandas, hashlib, pathlib) *)

Class IOEngine := mkIOEngine {
  (* the bytes df.to_csv(path, index=include_index) writes *)
  to_csv : Frame.DataFrame -> bool -> list byte;
  (* the bytes df.to_json(path, orient=orient, indent=2) writes *)
  to_json : Frame.DataFrame -> string -> list byte;
  (* df.to_parquet(path, compression=..., index=False); ImportError without an encoder *)
  to_parquet : Frame.DataFrame -> string -> result (list byte);
  (* hashlib: the hex digest of a whole message *)
  sha256 : list byte -> string;
  md5 : list byte -> string;
  (* output_dir / filename *)
  path_join : string -> string -> string
}.

(** ** DataExporter (export_data.py) *)

Module Exporter.
Import Frame.

Inductive Algorithm := SHA256 | MD5.

(** A hashlib object: the algorithm and the bytes fed to it so far.  hashlib
    documents [update(a); update(b)] as [update(a + b)]. *)
Record hash_obj := mkHash {
  algo : Algorithm;
  absorbed : list byte
}.

Definition hash_new (algorithm : string) : hash_obj :=
  {| algo := if String.eqb algorithm "sha256" then SHA256 else MD5; absorbed := [] |}.

Definition update (h : hash_obj) (chunk : list byte) : hash_obj :=
  {| algo := algo h; absorbed := absorbed h ++ chunk |}.

Definition hexdigest `{IOEngine} (h : hash_obj) : string :=
  match algo h with
  | SHA256 => sha256 (absorbed h)
  | MD5 => md5 (absorbed h)
  end.

(** A file opened for reading: its bytes and the read position. *)
Record file := mkFile {
  content : list byte;
  pos : nat
}.

Definition open_rb (bytes : list byte) : file := {| content := bytes; pos := 0 |}.

(** [f.read(n)]: at most [n] bytes from the position, which moves past them. *)
Definition read (n : nat) (f : file) : list byte * file :=
  let chunk := take n (drop (pos f) (content f)) in
  (chunk, {| content := content f; pos := pos f + length chunk |}).

Definition chunk_size : nat := 4096.

Definition inspect {A} (a : A) : {b | a = b} := exist _ a eq_refl.

(** [for chunk in iter(lambda: f.read(4096), b''): hash_func.update(chunk)] *)
Equations? read_chunks (f : file) (h : hash_obj) : hash_obj
  by wf (length (content f) - pos f) lt :=
read_chunks f h with inspect (fst (read chunk_size f)) := {
  | exist _ [] _ => h
  | exist _ (b :: chunk) E =>
      read_chunks (snd (read chunk_size f)) (update h (b :: chunk)) }.
Proof.
  unfold read in *. cbn [fst snd pos content] in *.
  assert (length (take chunk_size (drop (pos f) (content f))) = S (length chunk)) as Hl
    by (by rewrite E).
  rewrite Hl. rewrite length_take, length_drop in Hl. lia.
Qed.

Definition calculate_checksum `{IOEngine} (fs : gmap string (list byte))
  (file_path : string) (algorithm : string) : result string :=
  let hash_func := hash_new algorithm in
  match fs !! file_path with
  | None => Raise (FileNotFoundError file_path)
  | Some bytes => Ok (hexdigest (read_chunks (open_rb bytes) hash_func))
  end.

(** One dictionary of [export_log]; the constructor is its ['format']. *)
Inductive ExportEntry :=
| CSV (timestamp filename path : string) (rows columns : nat) (size_mb : Q)
    (checksum_sha256 : string)
| JSON (timestamp filename path orient : string) (rows : nat) (size_mb : Q)
    (checksum_sha256 : string)
| Parquet (timestamp filename path compression : string) (rows : nat) (size_mb : Q)
    (checksum_sha256 : string).

Definition entry_path (e : ExportEntry) : string :=
  match e with
  | CSV _ _ p _ _ _ _ => p
  | JSON _ _ p _ _ _ _ => p
  | Parquet _ _ p _ _ _ _ => p
  end.

Definition entry_checksum (e : ExportEntry) : string :=
  match e with
  | CSV _ _ _ _ _ _ c => c
  | JSON _ _ _ _ _ _ c => c
  | Parquet _ _ _ _ _ _ c => c
  end.

Record DataExporter := mkDataExporter {
  df : DataFrame;
  output_dir : string;
  export_log : list ExportEntry
}.

Definition init (d : DataFrame) (dir : string) : DataExporter :=
  {| df := d; output_dir := dir; export_log := [] |}.

Definition log_append (X : DataExporter) (e : ExportEntry) : DataExporter :=
  {| df := df X; output_dir := output_dir X; export_log := export_log X ++ [e] |}.

(** [round(x, 2)]: to the nearest hundredth, a tie going to the even one. *)
Definition round2 (x : Q) : Q :=
  let s := (x * 100)%Q in
  let fl := Qfloor s in
  let r := (s - inject_Z fl)%Q in
  let up := if Qlt_bool (1 # 2) r then true
            else if Qeq_bool r (1 # 2) then Z.odd fl
            else false in
  ((if up then inject_Z (fl + 1) else inject_Z fl) / 100)%Q.

(** [output_path.stat().st_size / (1024 ** 2)] *)
Definition file_size_mb (bytes : list byte) : Q :=
  (inject_Z (Z.of_nat (length bytes)) / inject_Z (1024 ^ 2))%Q.

(** The exporter's methods act on the file system and on the exporter. *)
Definition export_csv `{IOEngine} (filename : string) (include_index : bool) (now : string)
  (fs : gmap string (list byte)) (X : DataExporter)
  : gmap string (list byte) * DataExporter * result string :=
  let output_path := path_join (output_dir X) filename in
  let fs' := <[output_path := to_csv (df X) include_index]> fs in
  match calculate_checksum fs' output_path "sha256" with
  | Raise e => (fs', X, Raise e)
  | Ok checksum =>
      let size := file_size_mb (default [] (fs' !! output_path)) in
      (fs',
       log_append X (CSV now filename output_path (index_len (df X))
                       (length (column_names (df X))) (round2 size) checksum),
       Ok output_path)
  end.

Definition export_json `{IOEngine} (filename orient : string) (now : string)
  (fs : gmap string (list byte)) (X : DataExporter)
  : gmap string (list byte) * DataExporter * result string :=
  let output_path := path_join (output_dir X) filename in
  let fs' := <[output_path := to_json (df X) orient]> fs in
  match calculate_checksum fs' output_path "sha256" with
  | Raise e => (fs', X, Raise e)
  | Ok checksum =>
      let size := file_size_mb (default [] (fs' !! output_path)) in
      (fs',
       log_append X (JSON now filename output_path orient (index_len (df X))
                       (round2 size) checksum),
       Ok output_path)
  end.

(** [export_parquet] returns [None] when the encoder is missing: the
    [ImportError] is caught and nothing is written or logged. *)
Definition export_parquet `{IOEngine} (filename compression : string) (now : string)
  (fs : gmap string (list byte)) (X : DataExporter)
  : gmap string (list byte) * DataExporter * result (option string) :=
  let output_path := path_join (output_dir X) filename in
  match to_parquet (df X) compression with
  | Raise (ImportError _) => (fs, X, Ok None)
  | Raise e => (fs, X, Raise e)
  | Ok bytes =>
      let fs' := <[output_path := bytes]> fs in
      match calculate_checksum fs' output_path "sha256" with
      | Raise e => (fs', X, Raise e)
      | Ok checksum =>
          let size := file_size_mb (default [] (fs' !! output_path)) in
          (fs',
           log_append X (Parquet now filename output_path compression (index_len (df X))
                           (round2 size) checksum),
           Ok (Some output_path))
      end
  end.

(** Every record of the export log carries the checksum that recomputation
    from the file at the record's path gives. *)
Definition log_consistent `{IOEngine} (fs : gmap string (list byte)) (X : DataExporter)
  : Prop :=
  Forall (fun e => calculate_checksum fs (entry_path e) "sha256" = Ok (entry_checksum e))
         (export_log X).

End Exporter.

(** ** ProvenanceLogger (log_provenance.py) *)

Module Provenance.

(** Values of the dictionaries handed to the logger. *)
#[local] Unset Elimination Schemes.
Inductive json :=
| JNull
| JBool (b : bool)
| JNum (q : Q)
| JStr (s : string)
| JList (l : list json)
| JDict (l : list (string * json)).
#[local] Set Elimination Schemes.

Record StepRecord := mkStep {
  step_name : string;
  description : string;
  step_timestamp : string;
  status : string;
  parameters : gmap string json
}.

Record TransformationRecord := mkTransformation {
  type : string;
  transformation_timestamp : string;
  details : gmap string json
}.

Record QualityRecord := mkQuality {
  check_name : string;
  check_timestamp : string;
  passed : bool;
  results : gmap string json
}.

Record Curator := mkCurator {
  name : string;
  institution : string;
  contact : option string;
  added_at : string
}.

Record Note := mkNote {
  note_timestamp : string;
  category : string;
  text : string
}.

(** What [capture_system_environment] reads from the interpreter and the
    platform. *)
Record SystemInfo := mkSystemInfo {
  python_version : string;
  platform : string;
  machine : string;
  processor : string;
  python_implementation : string;
  packages : gmap string json
}.

(** [self.provenance_record].  The keys ['curator'] and ['notes'] are absent
    until first written; ['system_environment'] starts as the empty
    dictionary, here [None]. *)
Record ProvenanceLogger := mkLogger {
  project_name : string;
  creation_timestamp : string;
  dataset_source : gmap string json;
  curation_workflow : list StepRecord;
  system_environment : option (string * SystemInfo);
  data_transformations : list TransformationRecord;
  quality_checks : list QualityRecord;
  exports : list (gmap string json);
  curator : option Curator;
  notes : option (list Note)
}.

Definition init (project : string) (now : string) : ProvenanceLogger :=
  {| project_name := project;
     creation_timestamp := now;
     dataset_source := ∅;
     curation_workflow := [];
     system_environment := None;
     data_transformations := [];
     quality_checks := [];
     exports := [];
     curator := None;
     notes := None |}.

(** [{**source_info, 'logged_at': now}] replaces the stored dictionary. *)
Definition log_dataset_source (source_info : gmap string json) (now : string)
  (P : ProvenanceLogger) : ProvenanceLogger :=
  {| project_name := project_name P;
     creation_timestamp := creation_timestamp P;
     dataset_source := <["logged_at" := JStr now]> source_info;
     curation_workflow := curation_workflow P;
     system_environment := system_environment P;
     data_transformations := data_transformations P;
     quality_checks := quality_checks P;
     exports := exports P;
     curator := curator P;
     notes := notes P |}.

Definition log_workflow_step (step description : string)
  (params : option (gmap string json)) (st : string) (now : string)
  (P : ProvenanceLogger) : ProvenanceLogger :=
  let step_record :=
    {| step_name := step; description := description; step_timestamp := now;
       status := st;
       parameters := default ∅ params          (* parameters or {} *) |} in
  {| project_name := project_name P;
     creation_timestamp := creation_timestamp P;
     dataset_source := dataset_source P;
     curation_workflow := curation_workflow P ++ [step_record];
     system_environment := system_environment P;
     data_transformations := data_transformations P;
     quality_checks := quality_checks P;
     exports := exports P;
     curator := curator P;
     notes := notes P |}.

Definition log_transformation (transformation_type : string) (d : gmap string json)
  (now : string) (P : ProvenanceLogger) : ProvenanceLogger :=
  let transformation_record :=
    {| type := transformation_type; transformation_timestamp := now; details := d |} in
  {| project_name := project_name P;
     creation_timestamp := creation_timestamp P;
     dataset_source := dataset_source P;
     curation_workflow := curation_workflow P;
     system_environment := system_environment P;
     data_transformations := data_transformations P ++ [transformation_record];
     quality_checks := quality_checks P;
     exports := exports P;
     curator := curator P;
     notes := notes P |}.

Definition log_quality_check (check : string) (res : gmap string json) (ok : bool)
  (now : string) (P : ProvenanceLogger) : ProvenanceLogger :=
  let quality_record :=
    {| check_name := check; check_timestamp := now; passed := ok; results := res |} in
  {| project_name := project_name P;
     creation_timestamp := creation_timestamp P;
     dataset_source := dataset_source P;
     curation_workflow := curation_workflow P;
     system_environment := system_environment P;
     data_transformations := data_transformations P;
     quality_checks := quality_checks P ++ [quality_record];
     exports := exports P;
     curator := curator P;
     notes := notes P |}.

Definition log_export (export_info : gmap string json) (now : string)
  (P : ProvenanceLogger) : ProvenanceLogger :=
  let export_record := <["logged_at" := JStr now]> export_info in
  {| project_name := project_name P;
     creation_timestamp := creation_timestamp P;
     dataset_source := dataset_source P;
     curation_workflow := curation_workflow P;
     system_environment := system_environment P;
     data_transformations := data_transformations P;
     quality_checks := quality_checks P;
     exports := exports P ++ [export_record];
     curator := curator P;
     notes := notes P |}.

(** [probe] is what reading the interpreter and platform gives; when it
    raises, the error is logged and the record is left as it was. *)
Definition capture_system_environment (probe : result SystemInfo) (now : string)
  (P : ProvenanceLogger) : ProvenanceLogger :=
  match probe with
  | Raise _ => P
  | Ok info =>
      {| project_name := project_name P;
         creation_timestamp := creation_timestamp P;
         dataset_source := dataset_source P;
         curation_workflow := curation_workflow P;
         system_environment := Some (now, info);
         data_transformations := data_transformations P;
         quality_checks := quality_checks P;
         exports := exports P;
         curator := curator P;
         notes := notes P |}
  end.

Definition add_curator_info (curator_name inst : string) (c : option string)
  (now : string) (P : ProvenanceLogger) : ProvenanceLogger :=
  {| project_name := project_name P;
     creation_timestamp := creation_timestamp P;
     dataset_source := dataset_source P;
     curation_workflow := curation_workflow P;
     system_environment := system_environment P;
     data_transformations := data_transformations P;
     quality_checks := quality_checks P;
     exports := exports P;
     curator := Some {| name := curator_name; institution := inst; contact := c;
                        added_at := now |};
     notes := notes P |}.

Definition add_notes (note_text cat : string) (now : string)
  (P : ProvenanceLogger) : ProvenanceLogger :=
  let existing := match notes P with
                  | None => []            (* the key is created on first use *)
                  | Some l => l
                  end in
  let note := {| note_timestamp := now; category := cat; text := note_text |} in
  {| project_name := project_name P;
     creation_timestamp := creation_timestamp P;
     dataset_source := dataset_source P;
     curation_workflow := curation_workflow P;
     system_environment := system_environment P;
     data_transformations := data_transformations P;
     quality_checks := quality_checks P;
     exports := exports P;
     curator := curator P;
     notes := Some (existing ++ [note]) |}.

(** A recording call with its arguments. *)
Inductive Recording :=
| rec_dataset_source (source_info : gmap string json)
| rec_workflow_step (step description : string) (params : option (gmap string json))
    (st : string)
| rec_transformation (transformation_type : string) (d : gmap string json)
| rec_quality_check (check : string) (res : gmap string json) (ok : bool)
| rec_export (export_info : gmap string json)
| rec_system_environment (probe : result SystemInfo)
| rec_curator_info (curator_name inst : string) (c : option string)
| rec_notes (note_text cat : string).

Definition record (c : Recording) (now : string) (P : ProvenanceLogger) : ProvenanceLogger :=
  match c with
  | rec_dataset_source s => log_dataset_source s now P
  | rec_workflow_step n d p st => log_workflow_step n d p st now P
  | rec_transformation t d => log_transformation t d now P
  | rec_quality_check n r ok => log_quality_check n r ok now P
  | rec_export e => log_export e now P
  | rec_system_environment probe => capture_system_environment probe now P
  | rec_curator_info n i c => add_curator_info n i c now P
  | rec_notes t c => add_notes t c now P
  end.

(** A run of recording calls, each with the clock reading at its call. *)
Definition record_all (cs : list (Recording * string)) (P : ProvenanceLogger)
  : ProvenanceLogger :=
  fold_left (fun acc c => record (fst c) (snd c) acc) cs P.

Definition notes_list (P : ProvenanceLogger) : list Note :=
  match notes P with
  | None => []
  | Some l => l
  end.

(** Every earlier entry of every list-valued section is still in place. *)
Definition extends (P P' : ProvenanceLogger) : Prop :=
  curation_workflow P `prefix_of` curation_workflow P'
  /\ data_transformations P `prefix_of` data_transformations P'
  /\ quality_checks P `prefix_of` quality_checks P'
  /\ exports P `prefix_of` exports P'
  /\ notes_list P `prefix_of` notes_list P'
  /\ project_name P' = project_name P
  /\ creation_timestamp P' = creation_timestamp P.

End Provenance.

(** ** An engine and a dataset for the worked examples *)

Module Fixture.
Import Frame.

Definition dropna (xs : list num) : list Q := omap id xs.

Definition Qsum (v : list Q) : Q := fold_right Qplus 0%Q v.

Definition mean (xs : list num) : num :=
  match dropna xs with
  | [] => None
  | v => Some (Qsum v / inject_Z (Z.of_nat (length v)))%Q
  end.

(** Variance with [ddof] delta degrees of freedom. *)
Definition variance (ddof : nat) (xs : list num) : num :=
  let v := dropna xs in
  match mean xs with
  | None => None
  | Some m =>
      if Nat.leb (length v) ddof then None
      else Some (Qsum (map (fun x => (x - m) * (x - m))%Q v)
                 / inject_Z (Z.of_nat (length v - ddof)))%Q
  end.

(** Square root, truncated to six decimals. *)
Definition sqrt6 (q : Q) : Q :=
  Z.sqrt (Qfloor (q * inject_Z (10 ^ 12))) # 1000000.

Definition nonzero (s : Q) : Q := if Qeq_bool s 0 then 1%Q else s.

Definition scale_by (p : num * num) (x : num) : num :=
  match fst p, snd p, x with
  | Some c, Some s, Some v => Some (Qred ((v - c) / nonzero s))
  | _, _, _ => None
  end.

Definition standard : Scaler :=
  {| fit := fun col => (mean col, option_map sqrt6 (variance 0 col));
     transform := scale_by |}.

Definition Qmin_list (v : list Q) : num :=
  match v with
  | [] => None
  | x :: rest => Some (fold_right (fun a b => if Qle_bool a b then a else b) x rest)
  end.

Definition Qmax_list (v : list Q) : num :=
  match v with
  | [] => None
  | x :: rest => Some (fold_right (fun a b => if Qle_bool a b then b else a) x rest)
  end.

Definition minmax : Scaler :=
  {| fit := fun col => (Qmin_list (dropna col), Qmax_list (dropna col));
     transform := fun p x =>
       match fst p, snd p, x with
       | Some lo, Some hi, Some v => Some (Qred ((v - lo) / nonzero (hi - lo)))
       | _, _, _ => None
       end |}.

Definition robust : Scaler :=
  {| fit := fun col => (quantile col 0.5, fsub (quantile col 0.75) (quantile col 0.25));
     transform := scale_by |}.

Definition engine : Engine :=
  {| series_mean := mean;
     series_std := fun col => option_map sqrt6 (variance 1 col);
     StandardScaler := standard;
     MinMaxScaler := minmax;
     RobustScaler := robust |}.

(** Five rows in the shape of the AI4I 2020 table. *)
Definition ai4i : DataFrame :=
  {| index_len := 5;
     columns :=
       [ ("UDI", IntCol [1; 2; 3; 4; 5]%Z);
         ("Product ID", ObjCol [Some "M14860"; Some "L47181"; Some "L47182";
                                Some "L47183"; Some "L47184"]);
         ("Type", ObjCol [Some "M"; Some "L"; Some "L"; Some "L"; Some "L"]);
         ("Air temperature [K]",
            FloatCol [Some 298.1; Some 298.2; Some 298.1; Some 298.2; Some 298.2]%Q);
         ("Process temperature [K]",
            FloatCol [Some 308.6; Some 308.7; Some 308.5; Some 308.6; Some 308.7]%Q);
         ("Rotational speed [rpm]", IntCol [1551; 1408; 1498; 1433; 2861]%Z);
         ("Torque [Nm]", FloatCol [Some 42.8; Some 46.3; Some 49.4; Some 39.5; Some 4.6]%Q);
         ("Tool wear [min]", IntCol [0; 3; 100; 200; 143]%Z);
         ("Machine failure", IntCol [0; 0; 0; 0; 1]%Z);
         ("TWF", IntCol [0; 0; 0; 0; 0]%Z);
         ("HDF", IntCol [0; 0; 0; 0; 0]%Z);
         ("PWF", IntCol [0; 0; 0; 0; 1]%Z);
         ("OSF", IntCol [0; 0; 0; 0; 0]%Z);
         ("RNF", IntCol [0; 0; 0; 0; 0]%Z) ] |}.

(** The fixture with torque and speed both read as int64, the first row
    holding [2^32] in each. *)
Definition int64_overflow : DataFrame :=
  setitem
    (setitem ai4i "Torque [Nm]" (IntCol [4294967296; 46; 49; 39; 5]%Z))
    "Rotational speed [rpm]" (IntCol [4294967296; 1408; 1498; 1433; 2861]%Z).

(** What [read_csv] gives for a file that holds the header line alone: the
    columns of the frame [d], each an object column without cells. *)
Definition header_only (d : DataFrame) : DataFrame :=
  {| index_len := 0; columns := map (fun c => (fst c, ObjCol [])) (columns d) |}.

(** The frame without the column [name]. *)
Definition drop_column (name : string) (d : DataFrame) : DataFrame :=
  {| index_len := index_len d;
     columns := List.filter (fun c => negb (String.eqb (fst c) name)) (columns d) |}.

(** The status of each check of a validation report. *)
Definition statuses (r : result Loader.Results) : list (string * Loader.Status) :=
  match r with
  | Ok results => map (fun kv => (fst kv, Loader.status (snd kv))) results
  | Raise _ => []
  end.

End Fixture.

(** ** The data dictionary (export_data.py) *)

Module DataDictionary.
Import Frame.

(** The keys a column's entry has beyond the four counts: the five summary
    numbers of a numeric column, or the ten most frequent values of an
    object or category column. *)
Inductive ColumnStats :=
| NumericStats (mean std min max median : num)
| TopValues (top_values : list (string * nat)).

Record ColumnDoc := mkColumnDoc {
  doc_dtype : string;
  non_null_count : nat;
  null_count : nat;
  unique_values : nat;
  stats : ColumnStats
}.

(** [Series.count()] *)
Definition count (s : Series) : nat :=
  length (List.filter (fun c => negb (isnull c)) (cells s)).

(** [Series.isnull().sum()] *)
Definition isnull_sum (s : Series) : nat := length (List.filter isnull (cells s)).

(** [Series.nunique()]: the distinct values, missing cells left out. *)
Fixpoint nunique_from (seen : list cell) (cs : list cell) : nat :=
  match cs with
  | [] => 0
  | c :: rest =>
      if isnull c || existsb (cell_eqb c) seen then nunique_from seen rest
      else S (nunique_from (c :: seen) rest)
  end.

Definition nunique (s : Series) : nat := nunique_from [] (cells s).

(** [Series.min()] and [Series.max()]: over the values present, NaN when
    there is none. *)
Definition series_min (xs : list num) : num :=
  match omap id xs with
  | [] => None
  | x :: v => Some (fold_left (fun a b => if Qle_bool b a then b else a) v x)
  end.

Definition series_max (xs : list num) : num :=
  match omap id xs with
  | [] => None
  | x :: v => Some (fold_left (fun a b => if Qle_bool a b then b else a) v x)
  end.

(** [Series.median()] *)
Definition median (xs : list num) : num := quantile xs 0.5.

End DataDictionary.

(** ** Writers of the documentation files (json, pandas) *)

Class DocEngine := mkDocEngine {
  (* Series.value_counts() of an object or category column, as the pairs
     (str(value), count) in the order of the result *)
  value_counts : list (option string) -> list (string * nat);
  (* json.dump(data_dict, f, indent=2) *)
  json_dump_data_dictionary : list (string * DataDictionary.ColumnDoc) -> list byte;
  (* df[numeric_cols].describe().to_csv(path) *)
  describe_to_csv : Frame.DataFrame -> list byte;
  (* json.dump(self.export_log, f, indent=2) *)
  json_dump_export_log : list Exporter.ExportEntry -> list byte;
  (* json.dump(self.transformation_log, f, indent=2) *)
  json_dump_transformation_log : list Transformer.LogEntry -> list byte;
  (* json.dump(self.provenance_record, f, indent=2) *)
  json_dump_provenance : Provenance.ProvenanceLogger -> list byte;
  (* f.write(self.generate_provenance_summary()) *)
  provenance_summary_text : Provenance.ProvenanceLogger -> list byte
}.

(** ** DataExporter: the documentation exports and the export log *)

Module ExporterDocs.
Import Frame Exporter DataDictionary.

Definition entry_size_mb (e : ExportEntry) : Q :=
  match e with
  | CSV _ _ _ _ _ s _ => s
  | JSON _ _ _ _ _ s _ => s
  | Parquet _ _ _ _ _ s _ => s
  end.

Definition entry_rows (e : ExportEntry) : nat :=
  match e with
  | CSV _ _ _ r _ _ _ => r
  | JSON _ _ _ _ r _ _ => r
  | Parquet _ _ _ _ r _ _ => r
  end.

(** The entry of one column: the counts, then the branch the dtype takes. *)
Definition column_doc `{Engine} `{DocEngine} (s : Series) : ColumnDoc :=
  {| doc_dtype := dtype s;
     non_null_count := count s;
     null_count := isnull_sum s;
     unique_values := nunique s;
     stats :=
       match s with
       | IntCol _ | FloatCol _ =>                       (* is_numeric_dtype *)
           let xs := default [] (numeric s) in
           NumericStats (series_mean xs) (series_std xs) (series_min xs) (series_max xs)
             (median xs)
       | ObjCol xs | CatCol xs =>                       (* categorical or object *)
           TopValues (take 10 (value_counts xs))
       end |}.

Definition data_dict `{Engine} `{DocEngine} (d : DataFrame) : list (string * ColumnDoc) :=
  map (fun c => (fst c, column_doc (snd c))) (columns d).

Definition export_data_dictionary `{Engine} `{IOEngine} `{DocEngine} (filename : string)
  (fs : gmap string (list byte)) (X : DataExporter)
  : gmap string (list byte) * DataExporter * result string :=
  let output_path := path_join (output_dir X) filename in
  (<[output_path := json_dump_data_dictionary (data_dict (df X))]> fs, X, Ok output_path).

(** [self.df.select_dtypes(include=[np.number])] *)
Definition select_numeric (d : DataFrame) : DataFrame :=
  {| index_len := index_len d;
     columns := List.filter (fun c => match numeric (snd c) with
                                      | Some _ => true
                                      | None => false
                                      end) (columns d) |}.

(** [describe] refuses a frame without columns. *)
Definition export_summary_statistics `{IOEngine} `{DocEngine} (filename : string)
  (fs : gmap string (list byte)) (X : DataExporter)
  : gmap string (list byte) * DataExporter * result string :=
  let output_path := path_join (output_dir X) filename in
  let numeric_frame := select_numeric (df X) in
  match columns numeric_frame with
  | [] => (fs, X, Raise (ValueError "Cannot describe a DataFrame without columns"))
  | _ => (<[output_path := describe_to_csv numeric_frame]> fs, X, Ok output_path)
  end.

Definition save_export_log `{IOEngine} `{DocEngine} (filename : string)
  (fs : gmap string (list byte)) (X : DataExporter) : gmap string (list byte) :=
  <[path_join (output_dir X) filename := json_dump_export_log (export_log X)]> fs.

End ExporterDocs.

(** ** Saving the transformation log and the provenance record *)

Module Saving.

Definition save_transformation_log `{DocEngine} (output_path : string)
  (fs : gmap string (list byte)) (T : Transformer.DataTransformer)
  : gmap string (list byte) :=
  <[output_path := json_dump_transformation_log (Transformer.transformation_log T)]> fs.

Definition save_provenance_record `{DocEngine} (output_path : string)
  (fs : gmap string (list byte)) (P : Provenance.ProvenanceLogger)
  : gmap string (list byte) :=
  <[output_path := json_dump_provenance P]> fs.

Definition save_provenance_text `{DocEngine} (output_path : string)
  (fs : gmap string (list byte)) (P : Provenance.ProvenanceLogger)
  : gmap string (list byte) :=
  <[output_path := provenance_summary_text P]> fs.

End Saving.

(** ** The whole workflow (main.py) *)

Module Pipeline.
Import Frame Provenance.

Definition status_str (s : Loader.Status) : string :=
  match s with
  | Loader.PASS => "PASS"
  | Loader.WARN => "WARN"
  | Loader.FAIL => "FAIL"
  end.

Definition JNat (n : nat) : json := JNum (inject_Z (Z.of_nat n)).

(** One value of [validation_results] as the dictionary it is.  The order of
    [list(missing_cols)] is that of the set's elements. *)
Definition check_json (c : Loader.Check) : json :=
  match c with
  | Loader.RowCountCheck e a s =>
      JDict [("expected", JNat e); ("actual", JNat a); ("status", JStr (status_str s))]
  | Loader.ColumnsCheck e a missing extra s =>
      JDict [("expected", JNat e); ("actual", JNat a);
             ("missing", JList (map JStr (elements missing)));
             ("extra", JList (map JStr (elements extra)));
             ("status", JStr (status_str s))]
  | Loader.DataTypesCheck mismatches s =>
      JDict [("mismatches",
              JList (map (fun m => JDict [("column", JStr (Loader.column m));
                                          ("expected", JStr (Loader.expected m));
                                          ("actual", JStr (Loader.actual m))]) mismatches));
             ("status", JStr (status_str s))]
  | Loader.TotalCheck total s =>
      JDict [("total", JNat total); ("status", JStr (status_str s))]
  end.

Definition results_json (validation_results : Loader.Results) : gmap string json :=
  list_to_map (map (fun kv => (fst kv, check_json (snd kv))) validation_results).

(** [validation_results['missing_values']['total']] *)
Definition missing_values_total (validation_results : Loader.Results) : result nat :=
  match assoc "missing_values" validation_results with
  | Some (Loader.TotalCheck total _) => Ok total
  | Some _ => Raise (KeyError "total")
  | None => Raise (KeyError "missing_values")
  end.

Definition source_info : gmap string json :=
  list_to_map
    [ ("title", JStr "AI4I 2020 Predictive Maintenance Dataset");
      ("source_url", JStr "https://archive.ics.uci.edu/dataset/601");
      ("doi", JStr "10.24432/C5HS5C");
      ("acquisition_date", JStr "2025-09-28");
      ("license", JStr "CC BY 4.0");
      ("original_authors", JStr "Stephan Matzka") ].

(** The recording calls of step 4, in the order of the script, each with the
    reading of the clock at its call.  [clock k] is the reading at the [k]-th
    place of the script that asks for the time. *)
Definition recordings (clock : nat -> string) (probe : result SystemInfo)
  (missing_total total_records : nat) (validation_results : Loader.Results)
  (all_passed : bool) : list (Recording * string) :=
  [ (rec_dataset_source source_info, clock 7);
    (rec_curator_info "Hard Shah" "University of Illinois Urbana-Champaign"
       (Some "hardshah@example.edu"), clock 8);
    (rec_system_environment probe, clock 9);
    (rec_workflow_step "data_acquisition" "Downloaded dataset from UCI ML Repository"
       (Some (list_to_map [("source", JStr "UCI"); ("date", JStr "2025-09-28")]))
       "completed", clock 10);
    (rec_workflow_step "quality_assessment" "Performed comprehensive EDA and quality checks"
       (Some (list_to_map [("missing_values", JNat missing_total)])) "completed", clock 11);
    (rec_workflow_step "transformation" "Normalized features using StandardScaler"
       (Some (list_to_map [("method", JStr "standard"); ("features_count", JNat 5)]))
       "completed", clock 12);
    (rec_transformation "normalization"
       (list_to_map [("method", JStr "StandardScaler");
                     ("features", JList (map JStr Transformer.CONTINUOUS_FEATURES))]),
     clock 13);
    (rec_quality_check "completeness_check"
       (list_to_map [("missing_values", JNat 0); ("total_records", JNat total_records)])
       true, clock 14);
    (rec_quality_check "structural_validation" (results_json validation_results)
       all_passed, clock 15);
    (rec_notes
       "Dataset exhibits severe class imbalance (3.39% failure rate). Users should apply appropriate techniques for imbalanced classification."
       "data_quality", clock 16) ].

(** Step 4: the provenance record that is saved. *)
Definition step4 (clock : nat -> string) (probe : result SystemInfo) (d : DataFrame)
  (validation_results : Loader.Results) (all_passed : bool) : result ProvenanceLogger :=
  missing_total ← missing_values_total validation_results;
  let provenance := Provenance.init "AI4I_2020_Curation" (clock 6) in
  Ok (record_all
        (recordings clock probe missing_total (index_len d) validation_results all_passed)
        provenance).

(** Steps 3 to 5 once the data files are exported. *)
Definition finish `{Engine} `{IOEngine} `{DocEngine} (clock : nat -> string)
  (probe : result SystemInfo) (d : DataFrame) (validation_results : Loader.Results)
  (all_passed : bool) (fs : gmap string (list byte)) (exporter : Exporter.DataExporter)
  : gmap string (list byte) * Z :=
  let '(fs, exporter, _) :=
    ExporterDocs.export_data_dictionary "data_dictionary.json" fs exporter in
  match ExporterDocs.export_summary_statistics "summary_statistics.csv" fs exporter with
  | (fs, _, Raise _) => (fs, 1%Z)
  | (fs, exporter, Ok _) =>
      let fs := ExporterDocs.save_export_log "export_log.json" fs exporter in
      match step4 clock probe d validation_results all_passed with
      | Raise _ => (fs, 1%Z)
      | Ok provenance =>
          let fs := Saving.save_provenance_record
                      (path_join "metadata" "provenance_record.json") fs provenance in
          let fs := Saving.save_provenance_text
                      (path_join "docs" "provenance.txt") fs provenance in
          (fs, 0%Z)
      end
  end.

(** Writing files one after the other, a later one replacing an earlier one
    of the same path. *)
Definition write_all (files : list (string * list byte)) (fs : gmap string (list byte))
  : gmap string (list byte) :=
  fold_left (fun acc f => <[fst f := snd f]> acc) files fs.

(** Step 2: the three transformations, in the order of the script. *)
Definition step2 `{Engine} (clock : nat -> string) (d : DataFrame)
  : result (Transformer.DataTransformer * DataFrame) :=
  let transformer := Transformer.init d in
  match Transformer.detect_outliers "iqr" 1.5 (clock 0) transformer with
  | (_, Raise e) => Raise e
  | (transformer, Ok outlier_info) =>
      match Transformer.normalize_features "standard" (clock 1) transformer with
      | (_, Raise e) => Raise e
      | (transformer, Ok df_normalized) =>
          match Transformer.compute_derived_features (clock 2) transformer with
          | (_, Raise e) => Raise e
          | (transformer, Ok df_enhanced) => Ok (transformer, df_enhanced)
          end
      end
  end.

(** The end of step 2 and step 3 up to the Parquet export, which the script
    wraps in its own handler for [ImportError]. *)
Definition step3 `{Engine} `{IOEngine} `{DocEngine} (clock : nat -> string)
  (probe : result SystemInfo) (d : DataFrame) (validation_results : Loader.Results)
  (all_passed : bool) (transformer : Transformer.DataTransformer) (df_enhanced : DataFrame)
  (fs : gmap string (list byte)) : gmap string (list byte) * Z :=
  let fs := Saving.save_transformation_log
              (path_join "metadata" "transformation_log.json") fs transformer in
  let exporter := Exporter.init df_enhanced "output" in
  match Exporter.export_csv "AI4I_2020_curated.csv" false (clock 3) fs exporter with
  | (fs, _, Raise _) => (fs, 1%Z)
  | (fs, exporter, Ok _) =>
      match Exporter.export_json "AI4I_2020_curated.json" "records" (clock 4) fs exporter with
      | (fs, _, Raise _) => (fs, 1%Z)
      | (fs, exporter, Ok _) =>
          match Exporter.export_parquet "AI4I_2020_curated.parquet" "snappy" (clock 5) fs
                  exporter with
          | (fs, exporter, Raise (ImportError _)) =>
              finish clock probe d validation_results all_passed fs exporter
          | (fs, _, Raise _) => (fs, 1%Z)
          | (fs, exporter, Ok _) =>
              finish clock probe d validation_results all_passed fs exporter
          end
      end
  end.

(** [main]: the exit code and the files it leaves.  Every exception is
    caught by the two handlers of the script, which return 1; the files
    written before it stay. *)
Definition main `{Engine} `{IOEngine} `{DocEngine} (path_exists : bool)
  (read_csv : result DataFrame) (clock : nat -> string) (probe : result SystemInfo)
  (fs : gmap string (list byte)) : gmap string (list byte) * Z :=
  match Orchestrator.main_step1 path_exists read_csv with
  | Orchestrator.Return exit_code => (fs, exit_code)
  | Orchestrator.Proceed d validation_results =>
      let all_passed := Orchestrator.all_passed validation_results in
      match step2 clock d with
      | Raise _ => (fs, 1%Z)
      | Ok (transformer, df_enhanced) =>
          step3 clock probe d validation_results all_passed transformer df_enhanced fs
      end
  end.

End Pipeline.

(** ** Serializers for the worked examples *)

Module FixtureIO.
Import Frame.

Definition header (d : DataFrame) : string := String.concat "," (column_names d).

(** Writers that keep only the header line, and digests that spell out the
    bytes: enough to tell apart files with different content. *)
Definition io : IOEngine :=
  {| to_csv := fun d include_index =>
       list_byte_of_string (String.append (if include_index then "," else "") (header d));
     to_json := fun d orient =>
       list_byte_of_string (String.append orient (String.append ":" (header d)));
     to_parquet := fun _ _ => Raise (ImportError "pyarrow");
     sha256 := fun bytes => String.append "sha256:" (string_of_list_byte bytes);
     md5 := fun bytes => String.append "md5:" (string_of_list_byte bytes);
     path_join := fun dir filename => String.append dir (String.append "/" filename) |}.

Definition docs : DocEngine :=
  {| value_counts := fun xs => map (fun x => (x, 1)) (omap id xs);
     json_dump_data_dictionary := fun dd =>
       list_byte_of_string (String.concat "," (map fst dd));
     describe_to_csv := fun d => list_byte_of_string (header d);
     json_dump_export_log := fun l =>
       list_byte_of_string (String.concat "," (map Exporter.entry_path l));
     json_dump_transformation_log := fun l =>
       list_byte_of_string (String.concat "," (map Transformer.operation l));
     json_dump_provenance := fun P => list_byte_of_string (Provenance.project_name P);
     provenance_summary_text := fun P => list_byte_of_string (Provenance.project_name P) |}.

Definition probe : result Provenance.SystemInfo :=
  Ok {| Provenance.python_version := "3.11";
        Provenance.platform := "Linux";
        Provenance.machine := "x86_64";
        Provenance.processor := "";
        Provenance.python_implementation := "CPython";
        Provenance.packages := ∅ |}.

Definition clock (k : nat) : string := String.concat "" ("t" :: repeat "'" k).

End FixtureIO.

(* ===================================================================== *)
(** * Part II: the properties                                             *)
(* ===================================================================== *)

Section LoaderFacts.
Import Frame Loader Orchestrator.

Lemma missing_cols_empty_iff (d : DataFrame) :
  missing_cols d = ∅ <-> (forall c, In c EXPECTED_COLUMNS -> In c (column_names d)).
Proof.
  unfold missing_cols. split.
  - intros H c Hc.
    destruct (decide (c ∈ column_names d)) as [Hin|Hnin].
    + by apply list_elem_of_In.
    + exfalso. assert (c ∈ (∅ : gset string)) as Habs; [| set_solver].
      rewrite <- H. apply elem_of_difference. split.
      * apply elem_of_list_to_set. by apply list_elem_of_In.
      * rewrite elem_of_list_to_set. exact Hnin.
  - intros H. apply set_eq. intros c. split; [| set_solver].
    rewrite elem_of_difference, !elem_of_list_to_set. intros [Hc Hn].
    exfalso. apply Hn. apply list_elem_of_In, H. by apply list_elem_of_In.
Qed.

Lemma missing_cols_spec (d : DataFrame) :
  missing_cols d <> ∅ <-> (exists c, In c EXPECTED_COLUMNS /\ ~ In c (column_names d)).
Proof.
  split.
  - intros Hne.
    destruct (set_choose_or_empty (missing_cols d)) as [[c Hc]|He].
    + exists c. unfold missing_cols in Hc.
      apply elem_of_difference in Hc as [H1 H2].
      rewrite elem_of_list_to_set in H1, H2.
      rewrite <- !list_elem_of_In. by split.
    + exfalso. apply Hne. by apply leibniz_equiv.
  - intros [c [Hc Hn]] He.
    apply Hn, (proj1 (missing_cols_empty_iff d) He), Hc.
Qed.

(** C2.  For a loaded dataset [validate_structure] does not raise and returns
    the five checks, in the order row count, columns, data types, missing
    values, duplicates, each with a status decided by its own condition.  The
    column check is [FAIL] exactly when an expected column is absent from the
    dataset; the four other checks are [PASS] or [WARN], never [FAIL]; the
    report is also stored in the loader.  Step 1 of [main] therefore returns
    exit code 1 after a successful load exactly when an expected column is
    absent. *)
Theorem validate_structure_fail_iff_missing_column
  (path : string) (d : DataFrame) (old : Results) :
  let L := {| data_path := path; df := Some d; validation_results := old |} in
  let absent := exists c, In c EXPECTED_COLUMNS /\ ~ In c (column_names d) in
  exists rc cc dt mv du,
    let results := [ ("row_count", rc); ("columns", cc); ("data_types", dt);
                     ("missing_values", mv); ("duplicates", du) ] in
    snd (validate_structure L) = Ok results
    /\ validation_results (fst (validate_structure L)) = results
    /\ (status cc = FAIL <-> absent)
    /\ (status cc = PASS <-> ~ absent)
    /\ status rc = (if Nat.eqb (index_len d) EXPECTED_ROWS then PASS else WARN)
    /\ status dt = (match dtype_mismatches d with [] => PASS | _ => WARN end)
    /\ status mv = (if Nat.eqb (isnull_sum_sum d) 0 then PASS else WARN)
    /\ status du = (if Nat.eqb (count_true (duplicated d)) 0 then PASS else WARN)
    /\ status rc <> FAIL /\ status dt <> FAIL /\ status mv <> FAIL /\ status du <> FAIL
    /\ (main_step1 true (Ok d) = Return 1 <-> absent).
Proof.
  intros L absent. unfold main_step1, load, Loader.init. cbn [negb data_path validation_results].
  subst L. unfold validate_structure. cbn [df data_path snd fst].
  do 5 eexists. cbn zeta.
  split; [reflexivity|]. split; [reflexivity|].
  cbn [status all_passed forallb snd].
  pose proof (missing_cols_spec d) as Hm. fold absent in Hm.
  destruct (decide (missing_cols d = ∅)) as [He|Hne].
  - assert (~ absent) as Hna by (intros Ha; apply (proj2 Hm) in Ha; contradiction).
    repeat split; try discriminate; try tauto;
      try (by destruct (Nat.eqb _ _)); try (by destruct (dtype_mismatches d)).
    destruct (Nat.eqb (index_len d) EXPECTED_ROWS), (dtype_mismatches d),
      (Nat.eqb (isnull_sum_sum d) 0), (Nat.eqb (count_true (duplicated d)) 0);
      cbn; discriminate.
  - assert absent as Ha by (by apply (proj1 Hm)).
    repeat split; try discriminate; try tauto;
      try (by destruct (Nat.eqb _ _)); try (by destruct (dtype_mismatches d)).
Qed.

End LoaderFacts.

(** ** Frames: association lists of columns *)

Section FrameFacts.
Import Frame.
Context {A : Type}.
Implicit Types (l : list (string * A)) (k : string) (v : A).

Lemma assoc_None_iff k l : assoc k l = None <-> ~ In k (map fst l).
Proof.
  induction l as [|[k' v'] l IH]; cbn; [tauto|].
  destruct (String.eqb_spec k k') as [->|Hne].
  - split; [discriminate|]. intros H. exfalso. apply H. by left.
  - rewrite IH. split; [intros H [?|?]; [congruence|tauto] | tauto].
Qed.

Lemma assoc_set_same k v l : assoc k (assoc_set k v l) = Some v.
Proof.
  induction l as [|[k' v'] l IH]; cbn.
  - by rewrite String.eqb_refl.
  - destruct (String.eqb_spec k k') as [->|Hne]; cbn.
    + by rewrite String.eqb_refl.
    + destruct (String.eqb_spec k k'); [done|]. exact IH.
Qed.

Lemma assoc_set_other k k' v l : k <> k' -> assoc k' (assoc_set k v l) = assoc k' l.
Proof.
  intros Hne. induction l as [|[k0 v0] l IH]; cbn.
  - destruct (String.eqb_spec k' k); [congruence|done].
  - destruct (String.eqb_spec k k0) as [->|Hk]; cbn.
    + destruct (String.eqb_spec k' k0); [congruence|done].
    + destruct (String.eqb_spec k' k0); [done|exact IH].
Qed.

Lemma assoc_set_names_present k v l :
  assoc k l <> None -> map fst (assoc_set k v l) = map fst l.
Proof.
  induction l as [|[k' v'] l IH]; cbn; [done|].
  destruct (String.eqb_spec k k') as [->|Hne]; cbn; [done|].
  intros H. by rewrite IH.
Qed.

Lemma assoc_set_names_absent k v l :
  assoc k l = None -> map fst (assoc_set k v l) = map fst l ++ [k].
Proof.
  induction l as [|[k' v'] l IH]; cbn; [done|].
  destruct (String.eqb_spec k k') as [->|Hne]; cbn; [done|].
  intros H. by rewrite IH.
Qed.

End FrameFacts.

(** ** Quantiles and the IQR fences *)

Section QuantileFacts.
Import Frame Transformer.

#[local] Instance Qle_total : Total Qle.
Proof. intros x y. destruct (Qlt_le_dec x y) as [H|H]; [left; by apply Qlt_le_weak | by right]. Qed.

#[local] Instance Qle_transitive : Transitive Qle.
Proof. intros x y z. apply Qle_trans. Qed.

Lemma StronglySorted_nth (v : list Q) (d : Q) :
  StronglySorted Qle v ->
  forall i j, (i <= j)%nat -> (j < length v)%nat -> (nth i v d <= nth j v d)%Q.
Proof.
  induction 1 as [|a l Hs IH Hall]; intros i j Hij Hj; [cbn in Hj; lia|].
  destruct i as [|i], j as [|j]; cbn in *; try lia.
  - apply Qle_refl.
  - rewrite Forall_forall in Hall. apply Hall, list_elem_of_In, nth_In. lia.
  - apply IH; lia.
Qed.

Lemma interp_mono (v : list Q) (x0 h1 h2 : Q) :
  StronglySorted Qle v -> v <> [] ->
  (0 <= h1)%Q -> (h1 <= h2)%Q -> (h2 <= inject_Z (Z.of_nat (length v - 1)))%Q ->
  (interp v x0 h1 <= interp v x0 h2)%Q.
Proof.
  intros Hs Hne H0 H12 Hm. unfold interp.
  assert (length v > 0)%nat as Hlen by (destruct v; cbn; [congruence|lia]).
  pose proof (Qfloor_le h1) as Hf1. pose proof (Qlt_floor h1) as Hc1.
  pose proof (Qfloor_le h2) as Hf2. pose proof (Qlt_floor h2) as Hc2.
  pose proof (Qfloor_resp_le _ _ H12) as Hfl.
  pose proof (Qfloor_resp_le _ _ H0) as Hfl0. change (Qfloor 0) with 0%Z in Hfl0.
  pose proof (Qfloor_resp_le _ _ Hm) as Hflm. rewrite Qfloor_Z in Hflm.
  rewrite inject_Z_plus in Hc1, Hc2. change (inject_Z 1) with 1%Q in Hc1, Hc2.
  set (z1 := Qfloor h1) in *. set (z2 := Qfloor h2) in *.
  set (l1 := Z.to_nat z1). set (l2 := Z.to_nat z2).
  assert (l1 <= l2)%nat as Hl by lia.
  assert (l2 <= length v - 1)%nat as Hl2 by lia.
  set (u1 := Nat.min (l1 + 1) (length v - 1)).
  set (u2 := Nat.min (l2 + 1) (length v - 1)).
  assert (nth l1 v x0 <= nth u1 v x0)%Q as Ha1 by (apply StronglySorted_nth; [done|lia|lia]).
  assert (nth l2 v x0 <= nth u2 v x0)%Q as Ha2 by (apply StronglySorted_nth; [done|lia|lia]).
  destruct (decide (l1 = l2)) as [Heq|Hneq].
  - assert (z1 = z2) as Hz by lia.
    subst u1 u2. rewrite <- Heq. rewrite <- Hz.
    rewrite <- Heq in Ha2.
    set (a := nth l1 v x0) in *. set (b := nth _ v x0) in *.
    nra.
  - assert (nth u1 v x0 <= nth l2 v x0)%Q as Hmid by (apply StronglySorted_nth; [done|lia|lia]).
    set (a1 := nth l1 v x0) in *. set (b1 := nth u1 v x0) in *.
    set (a2 := nth l2 v x0) in *. set (b2 := nth u2 v x0) in *.
    set (f1 := (h1 - inject_Z z1)%Q). set (f2 := (h2 - inject_Z z2)%Q).
    assert (0 <= f1 /\ f1 <= 1)%Q as [? ?] by (subst f1; split; lra).
    assert (0 <= f2 /\ f2 <= 1)%Q as [? ?] by (subst f2; split; lra).
    apply Qle_trans with b1; [nra|]. apply Qle_trans with a2; [done|nra].
Qed.

Lemma quantile_mono (xs : list num) (q1 q2 a b : Q) :
  (0 <= q1)%Q -> (q1 <= q2)%Q -> (q2 <= 1)%Q ->
  quantile xs q1 = Some a -> quantile xs q2 = Some b -> (a <= b)%Q.
Proof.
  intros H0 H12 H1. unfold quantile.
  destruct (merge_sort Qle (omap id xs)) as [|x0 v'] eqn:Hv; [discriminate|].
  intros [= <-] [= <-].
  assert (0 <= inject_Z (Z.of_nat (length (x0 :: v') - 1)))%Q as Hn.
  { change 0%Q with (inject_Z 0). rewrite <- Zle_Qle. lia. }
  set (m := inject_Z (Z.of_nat (length (x0 :: v') - 1))) in *.
  assert (0 <= m * q1)%Q as Ha by nra.
  assert (m * q1 <= m * q2)%Q as Hb by nra.
  assert (m * q2 <= m)%Q as Hc by nra.
  apply interp_mono; [| discriminate | exact Ha | exact Hb | exact Hc].
  rewrite <- Hv. apply StronglySorted_merge_sort; apply _.
Qed.

Lemma quantile_None_iff (xs : list num) (q1 q2 : Q) :
  quantile xs q1 = None <-> quantile xs q2 = None.
Proof. unfold quantile. destruct (merge_sort Qle (omap id xs)); split; congruence. Qed.

Lemma Qlt_bool_iff (a b : Q) : Qlt_bool a b = true <-> (a < b)%Q.
Proof.
  unfold Qlt_bool. rewrite negb_true_iff. split.
  - intros H. apply Qnot_le_lt. intros Hle. apply Qle_bool_iff in Hle. congruence.
  - intros H. destruct (Qle_bool b a) eqn:E; [|done].
    apply Qle_bool_iff in E. exfalso. by apply (Qlt_not_le a b).
Qed.

Lemma flagged_antitone (Q1 Q3 x : num) (t1 t2 : Q) :
  (t1 <= t2)%Q ->
  (forall a b, Q1 = Some a -> Q3 = Some b -> (a <= b)%Q) ->
  let lower t := fsub Q1 (fmul (Some t) (fsub Q3 Q1)) in
  let upper t := fadd Q3 (fmul (Some t) (fsub Q3 Q1)) in
  flt x (lower t2) || fgt x (upper t2) = true ->
  flt x (lower t1) || fgt x (upper t1) = true.
Proof.
  intros Ht Hq lower upper. subst lower upper.
  destruct Q1 as [a|], Q3 as [b|], x as [x|]; cbn; try done.
  specialize (Hq a b eq_refl eq_refl).
  rewrite !orb_true_iff, !Qlt_bool_iff. intros [H|H]; [left|right]; nra.
Qed.

Lemma iqr_mask_antitone (col : list num) (t1 t2 : Q) :
  (t1 <= t2)%Q ->
  Forall2 (fun hi lo : bool => hi = true -> lo = true) (iqr_mask col t2) (iqr_mask col t1).
Proof.
  intros Ht. unfold iqr_mask.
  apply Forall2_fmap, Forall_Forall2_diag, Forall_forall. intros x _.
  apply flagged_antitone; [done|].
  intros a b Ha Hb. eapply (quantile_mono col 0.25 0.75); try done; lra.
Qed.

Lemma count_true_mono (hi lo : list bool) :
  Forall2 (fun h l : bool => h = true -> l = true) hi lo -> count_true hi <= count_true lo.
Proof.
  unfold count_true. induction 1 as [|h l hi lo Hhl _ IH]; [done|].
  destruct h, l; cbn in *; try lia.
Qed.

Lemma iqr_count_antitone (col : list num) (t1 t2 : Q) :
  (t1 <= t2)%Q -> count_true (iqr_mask col t2) <= count_true (iqr_mask col t1).
Proof. intros. by apply count_true_mono, iqr_mask_antitone. Qed.

End QuantileFacts.

(** ** The constant [np.pi] and the real number pi *)

Section IdealFacts.
Import Rdefinitions Raxioms RIneq Rbasic_fun Rfunctions Rtrigo1 Ratan SeqSeries Machin.
Import Qreals Lra.

(** Sixteen decimals of pi, from the series of
    [pi / 4 = 2 * atan (1 / 3) + atan (1 / 7)]. *)
Lemma PI_bounds : (3.1415926535897932 < PI < 3.1415926535897933)%R.
Proof.
  pose proof (PI_2_3_7_ineq 9) as [Hlo Hhi].
  unfold sum_f_R0, tg_alt, PI_2_3_7_tg, Ratan_seq in Hlo, Hhi.
  cbn [Nat.mul Nat.add pow] in Hlo, Hhi. simpl INR in Hlo, Hhi.
  split; lra.
Qed.

Lemma np_pi_is_the_float : f64_to_Q np_pi_f64 = Some np_pi.
Proof. vm_compute. reflexivity. Qed.

Lemma np_pi_near_PI : Ideal.within (2 # 10000000000000000) (Q2R np_pi) PI.
Proof.
  pose proof PI_bounds as [Hlo Hhi].
  unfold Ideal.within, np_pi, Q2R. cbn [Qnum Qden].
  apply Rabs_def1; lra.
Qed.

Lemma ideal_power_42_1500 :
  Ideal.within (5 # 100) (Ideal.power (Q2R 42) (Q2R 1500)) (Q2R 6597.3).
Proof.
  pose proof PI_bounds as [Hlo Hhi].
  unfold Ideal.within, Ideal.power, Q2R. cbn [Qnum Qden].
  apply Rabs_def1; lra.
Qed.

(** The binary64 result for torque 42.0 and speed 1500, roundings included,
    is within [1e-11] of the ideal value. *)
Lemma power_estimate_f64_42_1500 :
  exists r, f64_to_Q (Transformer.power_estimate_f64 42 1500) = Some r
            /\ Ideal.within (1 # 100000000000) (Q2R r) (Ideal.power (Q2R 42) (Q2R 1500)).
Proof.
  pose proof PI_bounds as [Hlo Hhi].
  eexists. split; [vm_compute; reflexivity|].
  unfold Ideal.within, Ideal.power, Q2R. cbn [Qnum Qden].
  apply Rabs_def1; lra.
Qed.

End IdealFacts.

(** ** DataTransformer *)

Section TransformerFacts.
Import Frame Transformer.
Context `{Engine}.

(** *** What the three methods leave alone *)

Lemma detect_outliers_frame (m : string) (t : Q) (now : string) (T : DataTransformer) :
  let T' := fst (detect_outliers m t now T) in
  df T' = df T /\ df_transformed T' = df_transformed T /\ scaler T' = scaler T.
Proof.
  unfold detect_outliers.
  destruct (outlier_loop (df T) m t CONTINUOUS_FEATURES); cbn; auto.
Qed.

Lemma normalize_features_df (m now : string) (T : DataTransformer) :
  df (fst (normalize_features m now T)) = df T.
Proof.
  unfold normalize_features.
  repeat match goal with
         | |- context [if ?b then _ else _] => destruct b
         | |- context [match select_features ?est ?d with _ => _ end] =>
             destruct (select_features est d) as [?|[]]
         | |- context [let (_, _) := ?p in _] => destruct p
         end; reflexivity.
Qed.

Lemma compute_derived_features_df (now : string) (T : DataTransformer) :
  df (fst (compute_derived_features now T)) = df T.
Proof.
  unfold compute_derived_features.
  repeat match goal with
         | |- context [match ?r with Ok _ => _ | Raise _ => _ end] => destruct r
         end; reflexivity.
Qed.

Lemma run_call_df (c : Call) (T : DataTransformer) : df (fst (run_call c T)) = df T.
Proof.
  destruct c as [m t now|m now|now]; cbn.
  - pose proof (detect_outliers_frame m t now T) as [Hd _].
    by destruct (detect_outliers m t now T).
  - pose proof (normalize_features_df m now T). by destruct (normalize_features m now T).
  - pose proof (compute_derived_features_df now T).
    by destruct (compute_derived_features now T).
Qed.

Lemma run_calls_df (cs : list Call) (T : DataTransformer) : df (fst (run_calls cs T)) = df T.
Proof.
  revert T. induction cs as [|c cs IH]; intros T; [done|].
  cbn. pose proof (run_call_df c T) as Hc. destruct (run_call c T) as [T' ok].
  pose proof (IH T') as Hr. destruct (run_calls cs T') as [T'' done']. cbn in *. congruence.
Qed.

(** *** Selecting and assigning the feature columns *)

Lemma getitems_Ok (d : DataFrame) (names : list string) (cols : list Series) :
  getitems d names = Ok cols <->
  Forall2 (fun n s => assoc n (columns d) = Some s) names cols.
Proof.
  revert cols. induction names as [|n names IH]; intros cols; cbn.
  - split; [intros [= <-]; constructor | by inversion 1].
  - unfold getitem, mbind, result_bind.
    destruct (assoc n (columns d)) as [s|] eqn:Hs.
    + destruct (getitems d names) as [tl|e] eqn:Htl.
      * split.
        -- intros [= <-]. constructor; [done|]. by apply IH.
        -- inversion 1 as [|? s' ? tl' Hs' Htl']; subst.
           apply IH in Htl'. congruence.
      * split; [done|]. inversion 1 as [|? s' ? tl' Hs' Htl']; subst.
        apply IH in Htl'. congruence.
    + split; [done|]. inversion 1; subst. congruence.
Qed.

Lemma as_float_matrix_Ok (cols : list Series) (X : list (list num)) :
  as_float_matrix cols = Ok X <-> Forall2 (fun s c => numeric s = Some c) cols X.
Proof.
  revert X. induction cols as [|s cols IH]; intros X; cbn.
  - split; [intros [= <-]; constructor | by inversion 1].
  - unfold mbind, result_bind. destruct (numeric s) as [c|] eqn:Hc.
    + destruct (as_float_matrix cols) as [tl|e] eqn:Htl.
      * split.
        -- intros [= <-]. constructor; [done|]. by apply IH.
        -- inversion 1 as [|? c' ? tl' Hc' Htl']; subst.
           apply IH in Htl'. congruence.
      * split; [done|]. inversion 1 as [|? c' ? tl' Hc' Htl']; subst.
        apply IH in Htl'. congruence.
    + split; [done|]. inversion 1; subst. congruence.
Qed.

(** [select_features] succeeds exactly when every feature is a numeric column
    of the frame and the frame has a row, and then returns these columns in
    the order of the scale set. *)
Lemma select_features_Ok (est : string) (d : DataFrame) (X : list (list num)) :
  select_features est d = Ok X <->
  Forall2 (fun f col => numeric_col d f = Some col) CONTINUOUS_FEATURES X
  /\ index_len d <> 0.
Proof.
  unfold select_features, mbind, result_bind. split.
  - destruct (getitems d CONTINUOUS_FEATURES) as [cols|e] eqn:Hg; [|done].
    destruct (Nat.eqb_spec (index_len d) 0) as [|Hrows]; [done|].
    intros Hm. split; [|done]. apply getitems_Ok in Hg. apply as_float_matrix_Ok in Hm.
    revert X Hm. induction Hg as [|f s fs cols Hs _ IH]; intros X Hm;
      inversion Hm; subst; constructor; [|by apply IH].
    unfold numeric_col. by rewrite Hs.
  - intros [HX Hrows].
    assert (exists cols, Forall2 (fun n s => assoc n (columns d) = Some s)
                           CONTINUOUS_FEATURES cols
                         /\ Forall2 (fun s c => numeric s = Some c) cols X)
      as (cols & Hg & Hm).
    { induction HX as [|f col fs X' Hf _ IH].
      - exists []. split; constructor.
      - destruct IH as (cols & Hg & Hm). unfold numeric_col in Hf.
        destruct (assoc f (columns d)) as [s|] eqn:Hs; [|done].
        exists (s :: cols). split; by constructor. }
    apply getitems_Ok in Hg. rewrite Hg.
    destruct (Nat.eqb_spec (index_len d) 0) as [|_]; [done|]. by apply as_float_matrix_Ok.
Qed.

(** Whether the selection fails does not depend on the scaler that asks. *)
Lemma select_features_Raise_any (est est' : string) (d : DataFrame) (e : exn) :
  select_features est d = Raise e -> exists e', select_features est' d = Raise e'.
Proof.
  unfold select_features, mbind, result_bind.
  destruct (getitems d CONTINUOUS_FEATURES) as [cols|e0]; [|by eexists].
  destruct (Nat.eqb (index_len d) 0); by eexists.
Qed.

(** Assigning columns under names the frame already has changes neither the
    set nor the order of the columns, and none of the other columns. *)
Lemma assign_cols_other (fs : list string) (Y : list (list num)) (d : DataFrame) (c : string) :
  ~ In c fs -> assoc c (columns (assign_cols fs Y d)) = assoc c (columns d).
Proof.
  revert Y d. induction fs as [|f fs IH]; intros Y d Hc; [done|].
  destruct Y as [|y Y]; [done|]. cbn in *.
  unfold assign_cols in IH. rewrite IH by tauto. cbn.
  apply assoc_set_other. intros ->. tauto.
Qed.

Lemma assign_cols_names (fs : list string) (Y : list (list num)) (d : DataFrame) :
  Forall (fun f => assoc f (columns d) <> None) fs ->
  column_names (assign_cols fs Y d) = column_names d
  /\ index_len (assign_cols fs Y d) = index_len d.
Proof.
  revert Y d. induction fs as [|f fs IH]; intros Y d Hfs; [done|].
  destruct Y as [|y Y]; [done|]. cbn.
  inversion Hfs as [|? ? Hf Hrest]; subst.
  unfold assign_cols in IH.
  assert (Forall (fun g => assoc g (columns (setitem d f (FloatCol y))) <> None) fs) as Hfs'.
  { eapply Forall_impl; [exact Hrest|]. intros g Hg. cbn [columns setitem].
    destruct (String.eqb_spec f g) as [->|Hne].
    - by rewrite assoc_set_same.
    - by rewrite assoc_set_other. }
  destruct (IH Y (setitem d f (FloatCol y)) Hfs') as [Hn Hi].
  rewrite Hn, Hi. split; [|done].
  unfold column_names. cbn. by apply assoc_set_names_present.
Qed.

Lemma assign_cols_feature (fs : list string) (X Y : list (list num)) (d : DataFrame)
  (g : list num -> list num) :
  NoDup fs -> length fs = length X -> Y = map g X ->
  Forall2 (fun f col => assoc f (columns (assign_cols fs Y d)) = Some (FloatCol (g col))) fs X.
Proof.
  intros Hnd Hlen ->. revert X d Hlen.
  induction fs as [|f fs IH]; intros X d Hlen; destruct X as [|x X]; try done.
  cbn in Hlen. apply NoDup_cons in Hnd as [Hf Hnd]. constructor.
  - cbn. change (fold_left _ (zip fs (map g X)) ?a) with (assign_cols fs (map g X) a).
    rewrite assign_cols_other by (by rewrite <- list_elem_of_In).
    cbn. apply assoc_set_same.
  - apply IH; [done|lia].
Qed.

(** *** The outcome of normalize_features *)

Lemma normalize_features_supported (m now : string) (T : DataTransformer)
  (S : Scaler) (mk : num -> num -> ScalingParams) (X : list (list num)) :
  method_scaler m = Some (S, mk) ->
  Forall2 (fun f col => numeric_col (df T) f = Some col) CONTINUOUS_FEATURES X ->
  index_len (df T) <> 0 ->
  let d := assign_features (df T) (snd (fit_transform S X)) in
  let T' := fst (normalize_features m now T) in
  snd (normalize_features m now T) = Ok d
  /\ df T' = df T
  /\ df_transformed T' = Some d
  /\ transformation_log T' =
       transformation_log T ++
       [normalization now m CONTINUOUS_FEATURES (scaling_params mk (map (fit S) X))].
Proof.
  unfold method_scaler, normalize_features. intros Hm HX Hrows.
  rewrite !(proj2 (select_features_Ok _ (df T) X) (conj HX Hrows)).
  destruct (String.eqb m "standard"); [injection Hm as <- <-; by cbn|].
  destruct (String.eqb m "minmax"); [injection Hm as <- <-; by cbn|].
  destruct (String.eqb m "robust"); [injection Hm as <- <-; by cbn|].
  discriminate.
Qed.

Lemma normalize_features_unsupported (m now : string) (T : DataTransformer) :
  method_scaler m = None ->
  normalize_features m now T =
  (set_df_transformed T (copy (df T)), Raise (UnboundLocalError "scaling_params")).
Proof.
  unfold method_scaler, normalize_features. intros Hm.
  destruct (String.eqb m "standard"); [discriminate|].
  destruct (String.eqb m "minmax"); [discriminate|].
  destruct (String.eqb m "robust"); [discriminate|]. reflexivity.
Qed.

Lemma normalize_features_log (m now : string) (T : DataTransformer) :
  match normalize_features m now T with
  | (T', Ok d) =>
      exists S mk X,
        method_scaler m = Some (S, mk)
        /\ Forall2 (fun f col => numeric_col (df T) f = Some col) CONTINUOUS_FEATURES X
        /\ transformation_log T' =
          transformation_log T ++
          [normalization now m CONTINUOUS_FEATURES (scaling_params mk (map (fit S) X))]
  | (T', Raise _) => transformation_log T' = transformation_log T
  end.
Proof.
  destruct (method_scaler m) as [[S mk]|] eqn:Hm.
  - destruct (select_features "StandardScaler" (df T)) as [X|e] eqn:HX.
    + apply select_features_Ok in HX as [HX Hrows].
      pose proof (normalize_features_supported m now T S mk X Hm HX Hrows)
        as (H1 & _ & _ & H4).
      destruct (normalize_features m now T) as [T' r]. cbn in *. subst r.
      exists S, mk, X. auto.
    + unfold method_scaler in Hm. unfold normalize_features.
      destruct (select_features_Raise_any _ "MinMaxScaler" _ _ HX) as [e1 ->].
      destruct (select_features_Raise_any _ "RobustScaler" _ _ HX) as [e2 ->].
      rewrite HX.
      repeat (match goal with |- context [if ?b then _ else _] => destruct b end;
              try reflexivity); by destruct e.
  - by rewrite normalize_features_unsupported.
Qed.

(** *** The outcome of compute_derived_features *)

Lemma operand_numeric (s : Series) (xs : list num) :
  numeric s = Some xs -> operand s = Some xs /\ is_object s = false.
Proof. by destruct s as [?|?|[|??]|?]. Qed.

Lemma series_power_numeric (st ss : Series) (t s : list num) :
  numeric st = Some t -> numeric ss = Some s ->
  series_power st ss = Ok (FloatCol (power_column st ss)).
Proof.
  intros Ht Hs. unfold series_power, power_column.
  destruct (operand_numeric st t Ht) as [Ht1 Ht2].
  destruct (operand_numeric ss s Hs) as [Hs1 Hs2].
  rewrite Ht1, Hs1, Ht2, Hs2, Ht, Hs.
  destruct st, ss; reflexivity.
Qed.

Lemma compute_derived_features_ok (now : string) (T : DataTransformer)
  (sp sa st ss : Series) (t s w : list num) (temp : Series) :
  assoc "Process temperature [K]" (columns (df T)) = Some sp ->
  assoc "Air temperature [K]" (columns (df T)) = Some sa ->
  series_sub sp sa = Ok temp ->
  assoc "Torque [Nm]" (columns (df T)) = Some st -> numeric st = Some t ->
  assoc "Rotational speed [rpm]" (columns (df T)) = Some ss -> numeric ss = Some s ->
  numeric_col (df T) "Tool wear [min]" = Some w ->
  let d0 := match df_transformed T with None => copy (df T) | Some d => d end in
  let d3 := setitem
              (setitem (setitem d0 "Temp_Difference" temp)
                 "Power_Estimate" (FloatCol (power_column st ss)))
              "Tool_Wear_Category" (CatCol (map tool_wear_category w)) in
  compute_derived_features now T =
  (log_append (set_df_transformed T d3)
     (feature_engineering now derived_feature_names
        "Added temperature difference, power estimate, and tool wear category"),
   Ok d3).
Proof.
  unfold numeric_col, compute_derived_features, getitem, mbind, result_bind.
  intros -> -> -> -> Ht -> Hs Hw.
  destruct (assoc "Tool wear [min]" (columns (df T))) as [cw|]; [|done].
  rewrite (series_power_numeric st ss t s Ht Hs).
  unfold series_cut. by rewrite (proj1 (operand_numeric cw w Hw)).
Qed.

Lemma compute_derived_features_log (now : string) (T : DataTransformer) :
  match compute_derived_features now T with
  | (T', Ok d) =>
      transformation_log T' =
        transformation_log T ++
        [feature_engineering now derived_feature_names
           "Added temperature difference, power estimate, and tool wear category"]
  | (T', Raise _) => transformation_log T' = transformation_log T
  end.
Proof.
  unfold compute_derived_features.
  repeat match goal with
         | |- context [match ?r with Ok _ => _ | Raise _ => _ end] => destruct r
         end; reflexivity.
Qed.

Lemma detect_outliers_log (m : string) (t : Q) (now : string) (T : DataTransformer) :
  match detect_outliers m t now T with
  | (T', Ok info) =>
      transformation_log T' =
        transformation_log T ++
        [outlier_detection now m t
           (map (fun kv : string * OutlierInfo => (fst kv, count (snd kv))) info)]
  | (T', Raise _) => T' = T
  end.
Proof.
  unfold detect_outliers.
  by destruct (outlier_loop (df T) m t CONTINUOUS_FEATURES).
Qed.

(** *** Claims about the transformation log and the frame *)

Lemma scaling_params_spec (d : DataFrame) (S : Scaler) (mk : num -> num -> ScalingParams)
  (X : list (list num)) :
  Forall2 (fun f col => numeric_col d f = Some col) CONTINUOUS_FEATURES X ->
  Forall2 (fun f p => fst p = f /\
             exists col, numeric_col d f = Some col /\
                         snd p = mk (fst (fit S col)) (snd (fit S col)))
          CONTINUOUS_FEATURES (scaling_params mk (map (fit S) X)).
Proof.
  unfold scaling_params. generalize CONTINUOUS_FEATURES.
  induction 1 as [|f col fs X' Hf _ IH]; cbn; constructor; [|exact IH].
  split; [done|]. by exists col.
Qed.

Lemma run_calls_log (cs : list Call) (T : DataTransformer) :
  exists es,
    transformation_log (fst (run_calls cs T)) = transformation_log T ++ es
    /\ map timestamp_of es = map call_now (snd (run_calls cs T))
    /\ map operation es = map call_operation (snd (run_calls cs T))
    /\ sublist (snd (run_calls cs T)) cs.
Proof.
  revert T. induction cs as [|c cs IH]; intros T.
  - exists []. cbn. rewrite app_nil_r. repeat split; constructor.
  - cbn [run_calls].
    assert (exists T' ok, run_call c T = (T', ok) /\
              if ok then exists e, transformation_log T' = transformation_log T ++ [e]
                                   /\ timestamp_of e = call_now c
                                   /\ operation e = call_operation c
              else transformation_log T' = transformation_log T) as (T' & ok & Hrun & Hlog).
    { destruct c as [m t now|m now|now]; cbn.
      - pose proof (detect_outliers_log m t now T) as Hl.
        destruct (detect_outliers m t now T) as [T' [info|e]]; do 2 eexists;
          (split; [reflexivity|]); cbn; [eauto | by subst].
      - pose proof (normalize_features_log m now T) as Hl.
        destruct (normalize_features m now T) as [T' [d|e]]; do 2 eexists;
          (split; [reflexivity|]); cbn; [|done].
        destruct Hl as (S & mk & X & _ & _ & Hl). eauto.
      - pose proof (compute_derived_features_log now T) as Hl.
        destruct (compute_derived_features now T) as [T' [d|e]]; do 2 eexists;
          (split; [reflexivity|]); cbn; [eauto | done]. }
    rewrite Hrun. destruct (IH T') as (es & H1 & H2 & H3 & H4).
    destruct (run_calls cs T') as [T'' done']. cbn [fst snd] in *.
    destruct ok.
    + destruct Hlog as (e & He & Ht & Ho). exists (e :: es).
      rewrite H1, He, <- app_assoc. cbn. repeat split; [by f_equal ..|].
      by constructor.
    + exists es. rewrite H1, Hlog. repeat split; try done. by constructor.
Qed.

(** C5.  Each of the three methods, when it returns, has appended exactly one
    record to [transformation_log]: the record carries the clock reading of
    the call, the operation kind and the parameters of the operation (for a
    normalization the method name, the scale set and, per feature, the two
    attributes fitted by the chosen scaler on that column of the original
    dataset); a call that raises leaves the log as it was.  Over any sequence
    of calls the log therefore only grows, by one record per successful call,
    in the order of the calls. *)
Theorem transformation_log_one_record_per_call (T : DataTransformer) :
  (forall m t now,
      match detect_outliers m t now T with
      | (T', Ok info) =>
          transformation_log T' =
            transformation_log T ++
            [outlier_detection now m t
               (map (fun kv : string * OutlierInfo => (fst kv, count (snd kv))) info)]
      | (T', Raise _) => transformation_log T' = transformation_log T
      end)
  /\ (forall m now,
      match normalize_features m now T with
      | (T', Ok d) =>
          exists S mk params,
            method_scaler m = Some (S, mk)
            /\ transformation_log T' =
                 transformation_log T ++ [normalization now m CONTINUOUS_FEATURES params]
            /\ Forall2 (fun f p => fst p = f /\
                          exists col, numeric_col (df T) f = Some col /\
                                      snd p = mk (fst (fit S col)) (snd (fit S col)))
                       CONTINUOUS_FEATURES params
      | (T', Raise _) => transformation_log T' = transformation_log T
      end)
  /\ (forall now,
      match compute_derived_features now T with
      | (T', Ok d) =>
          transformation_log T' =
            transformation_log T ++
            [feature_engineering now derived_feature_names
               "Added temperature difference, power estimate, and tool wear category"]
      | (T', Raise _) => transformation_log T' = transformation_log T
      end)
  /\ (forall cs,
      exists es,
        transformation_log (fst (run_calls cs T)) = transformation_log T ++ es
        /\ map timestamp_of es = map call_now (snd (run_calls cs T))
        /\ map operation es = map call_operation (snd (run_calls cs T))
        /\ sublist (snd (run_calls cs T)) cs).
Proof.
  split; [|split; [|split]].
  - intros m t now. pose proof (detect_outliers_log m t now T) as Hl.
    destruct (detect_outliers m t now T) as [T' [info|e]]; [done | by subst].
  - intros m now. pose proof (normalize_features_log m now T) as Hl.
    destruct (normalize_features m now T) as [T' [d|e]]; [|done].
    destruct Hl as (S & mk & X & Hm & HX & Hl).
    exists S, mk, (scaling_params mk (map (fit S) X)). repeat split; [done..|].
    by apply scaling_params_spec.
  - intros now. apply compute_derived_features_log.
  - intros cs. apply run_calls_log.
Qed.

(** C7.  [detect_outliers] changes no data, whatever the method and the
    threshold and whether it returns or raises: the dataset, the transformed
    dataset and the fitted scaler of the transformer are those of before the
    call.  When it returns, the one change of state is the record appended to
    the log; when it raises, the transformer is unchanged. *)
Theorem detect_outliers_alters_no_data (m : string) (t : Q) (now : string)
  (T : DataTransformer) :
  let T' := fst (detect_outliers m t now T) in
  df T' = df T
  /\ df_transformed T' = df_transformed T
  /\ scaler T' = scaler T
  /\ match snd (detect_outliers m t now T) with
     | Ok info =>
         transformation_log T' =
           transformation_log T ++
           [outlier_detection now m t
              (map (fun kv : string * OutlierInfo => (fst kv, count (snd kv))) info)]
     | Raise _ => T' = T
     end.
Proof.
  pose proof (detect_outliers_frame m t now T) as (H1 & H2 & H3).
  pose proof (detect_outliers_log m t now T) as H4.
  cbn zeta in *. repeat split; try done.
  by destruct (detect_outliers m t now T) as [T' [info|e]].
Qed.

Lemma outlier_loop_iqr_antitone (d : DataFrame) (t1 t2 : Q) (fs : list string) :
  (t1 <= t2)%Q ->
  match outlier_loop d "iqr" t1 fs, outlier_loop d "iqr" t2 fs with
  | Ok low, Ok high =>
      map fst low = fs /\ map fst high = fs /\
      Forall2 (fun a b : string * OutlierInfo => count (snd b) <= count (snd a)) low high
  | Raise e1, Raise e2 => e1 = e2
  | _, _ => False
  end.
Proof.
  intros Ht. induction fs as [|f fs IH]; [cbn; auto|].
  cbn [outlier_loop]. unfold outlier_mask. cbn [String.eqb Ascii.eqb Bool.eqb andb].
  unfold getitem. destruct (assoc f (columns d)) as [s|]; cbn; [|done].
  destruct (column_values d s) as [col|]; cbn; [|done].
  unfold outlier_entry. destruct (Nat.eqb (index_len d) 0); cbn; [done|].
  destruct (outlier_loop d "iqr" t1 fs) as [low|e1], (outlier_loop d "iqr" t2 fs) as [high|e2];
    cbn; try done.
  destruct IH as (H1 & H2 & H3). repeat split; [by f_equal | by f_equal |].
  constructor; [|done]. cbn. by apply iqr_count_antitone.
Qed.

(** C6.  Under the IQR method the flagged-row count of every feature of the
    scale set is antitone in the threshold: for thresholds [t1 <= t2] on the
    same dataset, the two calls either both raise the same error or both
    return a report over the scale set in which each feature's count at [t2]
    is at most its count at [t1].  Thresholds 1.5 and 3.0 are one instance. *)
Theorem iqr_flagged_count_antitone (T : DataTransformer) (now1 now2 : string) (t1 t2 : Q) :
  (t1 <= t2)%Q ->
  match snd (detect_outliers "iqr" t1 now1 T), snd (detect_outliers "iqr" t2 now2 T) with
  | Ok low, Ok high =>
      map fst low = CONTINUOUS_FEATURES /\ map fst high = CONTINUOUS_FEATURES /\
      Forall2 (fun a b : string * OutlierInfo => count (snd b) <= count (snd a)) low high
  | Raise e1, Raise e2 => e1 = e2
  | _, _ => False
  end.
Proof.
  intros Ht. unfold detect_outliers.
  pose proof (outlier_loop_iqr_antitone (df T) t1 t2 CONTINUOUS_FEATURES Ht) as Hl.
  destruct (outlier_loop (df T) "iqr" t1 CONTINUOUS_FEATURES),
           (outlier_loop (df T) "iqr" t2 CONTINUOUS_FEATURES); exact Hl.
Qed.

(** C3 (the code departs from it).  For a method name outside the three,
    [normalize_features] raises no [InvalidConfiguration]: it first replaces
    [df_transformed] by a copy of the original dataset and then raises
    [UnboundLocalError] for [scaling_params]; only the log is as before.  On a
    transformer that already holds derived features, the call with the name
    [l2] thereby drops the derived columns from [df_transformed]. *)
Theorem normalize_features_unsupported_touches_state :
  (forall (m now : string) (T : DataTransformer),
      method_scaler m = None ->
      normalize_features m now T =
      (set_df_transformed T (copy (df T)), Raise (UnboundLocalError "scaling_params")))
  /\ let T1 := fst (compute_derived_features "t1" (Transformer.init Fixture.ai4i)) in
     let T2 := fst (normalize_features "l2" "t2" T1) in
     snd (normalize_features "l2" "t2" T1) = Raise (UnboundLocalError "scaling_params")
     /\ (forall msg, snd (normalize_features "l2" "t2" T1) <> Raise (InvalidConfiguration msg))
     /\ option_map column_names (df_transformed T1) =
          Some (column_names Fixture.ai4i ++ derived_feature_names)
     /\ df_transformed T2 = Some Fixture.ai4i
     /\ df_transformed T2 <> df_transformed T1
     /\ transformation_log T2 = transformation_log T1.
Proof.
  split; [apply normalize_features_unsupported|].
  cbn zeta. rewrite normalize_features_unsupported by reflexivity.
  cbn [fst snd]. repeat split; [discriminate|].
  intros Heq. apply (f_equal (option_map (fun d => length (columns d)))) in Heq.
  vm_compute in Heq. discriminate.
Qed.

(** *** Normalization restarts from the original dataset *)

Lemma fit_transform_columns (S : Scaler) (X : list (list num)) :
  snd (fit_transform S X) = map (fun col => map (transform S (fit S col)) col) X.
Proof.
  unfold fit_transform. cbn [snd]. induction X as [|x X IH]; [done|].
  cbn. by rewrite IH.
Qed.

Lemma normalize_features_snd (m now : string) (T T' : DataTransformer) :
  df T = df T' -> snd (normalize_features m now T) = snd (normalize_features m now T').
Proof.
  unfold normalize_features. intros ->.
  repeat match goal with
         | |- context [if ?b then _ else _] => destruct b
         | |- context [match select_features ?est ?d with _ => _ end] =>
             destruct (select_features est d) as [?|[]]
         | |- context [let (_, _) := ?p in _] => destruct p
         end; reflexivity.
Qed.

Lemma normalize_features_Raise (m now : string) (T : DataTransformer) (e : exn) :
  snd (normalize_features m now T) = Raise e ->
  df_transformed (fst (normalize_features m now T)) = Some (copy (df T))
  /\ transformation_log (fst (normalize_features m now T)) = transformation_log T.
Proof.
  unfold normalize_features.
  repeat match goal with
         | |- context [if ?b then _ else _] => destruct b
         | |- context [match select_features ?est ?d with _ => _ end] =>
             destruct (select_features est d) as [?|[]]
         | |- context [let (_, _) := ?p in _] => destruct p
         end; cbn; done.
Qed.

(** C10.  After any sequence of earlier calls on the transformer, a supported
    [normalize_features] has the outcome that it has on a fresh transformer
    on the same input.  When every feature of the scale set is a numeric
    column of the input and the input has a row, it returns the original
    dataset with each feature replaced by the chosen scaler fitted on, and
    applied to, the original column: its columns are the columns of the
    input, every column outside the scale set is the input's, and the logged
    parameters are those fitted on the original columns; so a derived-feature
    name that is not a column of the input is not a column of the result,
    even when [compute_derived_features] ran before.  When it raises, the
    transformed dataset it leaves behind is the copy of the original that it
    started from, and the log is as before. *)
Theorem normalize_features_restarts_from_original
  (cs : list Call) (T0 : DataTransformer) (m now : string)
  (S : Scaler) (mk : num -> num -> ScalingParams) :
  method_scaler m = Some (S, mk) ->
  let T := fst (run_calls cs T0) in
  (forall X : list (list num),
      Forall2 (fun f col => numeric_col (df T0) f = Some col) CONTINUOUS_FEATURES X ->
      index_len (df T0) <> 0 ->
      let d := assign_features (df T0) (snd (fit_transform S X)) in
      snd (normalize_features m now T) = Ok d
      /\ df_transformed (fst (normalize_features m now T)) = Some d
      /\ column_names d = column_names (df T0)
      /\ Forall2 (fun f col =>
                    numeric_col (df T0) f = Some col /\
                    assoc f (columns d) = Some (FloatCol (map (transform S (fit S col)) col)))
                 CONTINUOUS_FEATURES X
      /\ (forall c, ~ In c CONTINUOUS_FEATURES ->
                    assoc c (columns d) = assoc c (columns (df T0)))
      /\ (forall c, In c derived_feature_names -> ~ In c (column_names (df T0)) ->
                    ~ In c (column_names d))
      /\ transformation_log (fst (normalize_features m now T)) =
           transformation_log T ++
           [normalization now m CONTINUOUS_FEATURES (scaling_params mk (map (fit S) X))])
  /\ snd (normalize_features m now T) =
     snd (normalize_features m now (Transformer.init (df T0)))
  /\ (forall e, snd (normalize_features m now T) = Raise e ->
        df_transformed (fst (normalize_features m now T)) = Some (copy (df T0))
        /\ transformation_log (fst (normalize_features m now T)) = transformation_log T).
Proof.
  intros Hm T.
  assert (df T = df T0) as HT by apply run_calls_df.
  split; [|split].
  2:{ apply normalize_features_snd. by rewrite HT. }
  2:{ intros e He. destruct (normalize_features_Raise m now T e He) as [-> ->].
      by rewrite HT. }
  intros X HF Hrows d.
  assert (Forall2 (fun f col => numeric_col (df T) f = Some col) CONTINUOUS_FEATURES X)
    as HF' by (by rewrite HT).
  assert (index_len (df T) <> 0) as Hrows' by (by rewrite HT).
  pose proof (normalize_features_supported m now T S mk X Hm HF' Hrows') as (H1 & _ & H3 & H4).
  cbn zeta in *. rewrite HT in H1, H3.
  assert (column_names d = column_names (df T0)) as Hnames.
  { apply assign_cols_names. eapply Forall2_Forall_l; [exact HF|].
    apply Forall_forall. intros col _ f Hf. unfold numeric_col in Hf.
    by destruct (assoc f (columns (df T0))). }
  repeat split; try done.
  - subst d. unfold assign_features. rewrite fit_transform_columns.
    pose proof (assign_cols_feature CONTINUOUS_FEATURES X
                  (map (fun col => map (transform S (fit S col)) col) X) (df T0)
                  (fun col => map (transform S (fit S col)) col)) as Hf.
    assert (NoDup CONTINUOUS_FEATURES) as Hnd by compute_done.
    specialize (Hf Hnd (Forall2_length _ _ _ HF) eq_refl).
    clear -HF Hf. revert Hf. generalize (assign_cols CONTINUOUS_FEATURES
      (map (fun col => map (transform S (fit S col)) col) X) (df T0)). intros d' Hf.
    induction HF as [|f col fs X' Hc _ IH]; inversion Hf; subst; constructor; auto.
  - intros c Hc. by apply assign_cols_other.
  - intros c _ Hc. by rewrite Hnames.
Qed.

(** *** Derived features *)

Lemma power_estimate_value (x y : Q) :
  exists v, power_estimate (Some x) (Some y) = Some v /\ (v == x * y * (2 * np_pi / 60))%Q.
Proof.
  eexists. split; [reflexivity|]. change (inject_Z 2) with 2%Q.
  change (inject_Z 60) with 60%Q. field.
Qed.

Lemma wrap64_id (z : Z) : (- 2 ^ 63 <= z < 2 ^ 63)%Z -> wrap64 z = z.
Proof. intros Hz. unfold wrap64. rewrite Z.mod_small; lia. Qed.

Lemma power_estimate_int64_exact (a b : Z) :
  (- 2 ^ 63 <= a * b < 2 ^ 63)%Z -> (- 2 ^ 63 <= a * b * 2 < 2 ^ 63)%Z ->
  power_estimate_int64 a b = power_estimate (of_Z a) (of_Z b).
Proof.
  intros H1 H2. unfold power_estimate_int64. by rewrite (wrap64_id _ H1), (wrap64_id _ H2).
Qed.

(** C8 (the code departs from it where int64 overflows).  When
    [compute_derived_features] returns on numeric torque and speed columns,
    whatever calls came before on the transformer, the column
    [Power_Estimate] is computed row by row from the torque and the
    rotational speed of the original dataset.  When one of the two columns is
    float64, every row holds [torque * speed * 2 * np.pi / 60], which is the
    torque times the speed times [2 * np.pi / 60].  When both are int64, the
    product and its double are int64 and wrap around: a row holds that value
    only when neither leaves the int64 range.  In the fixture with both
    columns int64 and [2^32] in each on the first row, the first row of
    [Power_Estimate] is zero, where the formula gives more than [10^18].
    [np_pi] is the number that the binary64 constant [np.pi] denotes, within
    [2e-16] of the real number pi.  For torque 42.0 and speed 1500 the value
    is within 0.05 of 6597.3 in exact arithmetic with [np_pi] and with the
    real pi, and the binary64 number that the expression evaluates to,
    roundings included, is within [1e-11] of the real-number value. *)
Theorem power_estimate_from_original_columns :
  (forall (cs : list Call) (T0 : DataTransformer) (now : string)
          (sp sa temp st ss : Series) (t s w : list num),
      assoc "Process temperature [K]" (columns (df T0)) = Some sp ->
      assoc "Air temperature [K]" (columns (df T0)) = Some sa ->
      series_sub sp sa = Ok temp ->
      assoc "Torque [Nm]" (columns (df T0)) = Some st -> numeric st = Some t ->
      assoc "Rotational speed [rpm]" (columns (df T0)) = Some ss -> numeric ss = Some s ->
      numeric_col (df T0) "Tool wear [min]" = Some w ->
      let T := fst (run_calls cs T0) in
      exists d power,
        snd (compute_derived_features now T) = Ok d
        /\ assoc "Power_Estimate" (columns d) = Some (FloatCol power)
        /\ (dtype st = "float64" \/ dtype ss = "float64" ->
            power = zip_with power_estimate t s
            /\ forall (i : nat) (torque speed : num),
                 t !! i = Some torque -> s !! i = Some speed ->
                 power !! i = Some (power_estimate torque speed))
        /\ (forall ti si : list Z, st = IntCol ti -> ss = IntCol si ->
            power = zip_with power_estimate_int64 ti si
            /\ forall (i : nat) (a b : Z),
                 ti !! i = Some a -> si !! i = Some b ->
                 (- 2 ^ 63 <= a * b < 2 ^ 63)%Z -> (- 2 ^ 63 <= a * b * 2 < 2 ^ 63)%Z ->
                 power !! i = Some (power_estimate (of_Z a) (of_Z b))))
  /\ (let T := Transformer.init Fixture.int64_overflow in
      exists d power v0 v,
        assoc "Torque [Nm]" (columns (df T)) = Some (IntCol [4294967296; 46; 49; 39; 5]%Z)
        /\ assoc "Rotational speed [rpm]" (columns (df T)) =
             Some (IntCol [4294967296; 1408; 1498; 1433; 2861]%Z)
        /\ snd (compute_derived_features "t" T) = Ok d
        /\ assoc "Power_Estimate" (columns d) = Some (FloatCol power)
        /\ power !! 0 = Some (Some v0) /\ (v0 == 0)%Q
        /\ power_estimate (of_Z 4294967296) (of_Z 4294967296) = Some v
        /\ (1000000000000000000 < v)%Q)
  /\ (forall x y : Q,
        exists v, power_estimate (Some x) (Some y) = Some v
                  /\ (v == x * y * (2 * np_pi / 60))%Q)
  /\ (exists v, power_estimate (Some 42%Q) (of_Z 1500) = Some v
                /\ (6597.25 < v)%Q /\ (v < 6597.35)%Q)
  /\ f64_to_Q np_pi_f64 = Some np_pi
  /\ Ideal.within (2 # 10000000000000000) (Ideal.of_Q np_pi) Ideal.pi
  /\ Ideal.within (5 # 100) (Ideal.power (Ideal.of_Q 42) (Ideal.of_Q 1500))
       (Ideal.of_Q 6597.3)
  /\ power_estimate_f64 42 1500 = 0x1.9c55835e7e83dp+12%float
  /\ (exists r, f64_to_Q (power_estimate_f64 42 1500) = Some r
                /\ Ideal.within (1 # 100000000000) (Ideal.of_Q r)
                     (Ideal.power (Ideal.of_Q 42) (Ideal.of_Q 1500))).
Proof.
  split; [|split; [|split; [|split; [|split; [|split; [|split; [|split]]]]]]].
  - intros cs T0 now sp sa temp st ss t s w Hp Ha Hsub Hst Ht Hss Hs Hw T.
    assert (df T = df T0) as HT by apply run_calls_df.
    rewrite <- HT in Hp, Ha, Hst, Hss, Hw.
    rewrite (compute_derived_features_ok now T sp sa st ss t s w temp
               Hp Ha Hsub Hst Ht Hss Hs Hw).
    exists (setitem
              (setitem (setitem match df_transformed T with
                                | Some d => d
                                | None => copy (df T)
                                end "Temp_Difference" temp)
                 "Power_Estimate" (FloatCol (power_column st ss)))
              "Tool_Wear_Category" (CatCol (map tool_wear_category w))),
           (power_column st ss).
    split; [reflexivity|]. split; [|split].
    + cbn [columns setitem].
      rewrite assoc_set_other by discriminate. apply assoc_set_same.
    + intros Hfloat.
      assert (power_column st ss = zip_with power_estimate t s) as ->.
      { unfold power_column. rewrite Ht, Hs.
        destruct st, ss; try reflexivity; destruct Hfloat; discriminate. }
      split; [reflexivity|].
      intros i torque speed Hi Hj. rewrite lookup_zip_with, Hi. cbn. by rewrite Hj.
    + intros ti si -> ->. split; [reflexivity|].
      intros i a b Hi Hj H1 H2. cbn [power_column].
      rewrite <- (power_estimate_int64_exact a b H1 H2), lookup_zip_with, Hi.
      cbn. by rewrite Hj.
  - cbn zeta. do 4 eexists.
    split; [vm_compute; reflexivity|]. split; [vm_compute; reflexivity|].
    split; [vm_compute; reflexivity|]. split; [vm_compute; reflexivity|].
    split; [reflexivity|]. split; [reflexivity|]. split; reflexivity.
  - apply power_estimate_value.
  - eexists. split; [reflexivity|]. split; reflexivity.
  - apply np_pi_is_the_float.
  - apply np_pi_near_PI.
  - apply ideal_power_42_1500.
  - reflexivity.
  - apply power_estimate_f64_42_1500.
Qed.

Lemma Qlt_bool_false_iff (a b : Q) : Qlt_bool a b = false <-> (b <= a)%Q.
Proof.
  unfold Qlt_bool. rewrite negb_false_iff. apply Qle_bool_iff.
Qed.

(** The category of a wear value, for every value. *)
Lemma tool_wear_category_spec (x : Q) :
  (tool_wear_category (Some x) = Some "Low" <-> (0 < x /\ x <= 100)%Q)
  /\ (tool_wear_category (Some x) = Some "Medium" <-> (100 < x /\ x <= 200)%Q)
  /\ (tool_wear_category (Some x) = Some "High" <-> (200 < x)%Q)
  /\ (tool_wear_category (Some x) = None <-> (x <= 0)%Q).
Proof.
  unfold tool_wear_category, cut, searchsorted_left, wear_bins, wear_labels.
  cbn [List.filter edge_lt].
  destruct (Qlt_bool 0 x) eqn:H0, (Qlt_bool 100 x) eqn:H1, (Qlt_bool 200 x) eqn:H2;
    cbn;
    repeat match goal with
           | H : Qlt_bool _ _ = true |- _ => apply Qlt_bool_iff in H
           | H : Qlt_bool _ _ = false |- _ => apply Qlt_bool_false_iff in H
           end;
    repeat split; intros; try discriminate; try lra;
    try (exfalso; lra); try (destruct_and?; exfalso; lra).
Qed.

(** C4, as the code has it.  When [compute_derived_features] returns, the
    column [Tool_Wear_Category] holds for every row the category of that
    row's tool wear in the original dataset, and for a positive wear value
    the category is [Low] exactly up to and including 100, [Medium] exactly
    above 100 up to and including 200, and [High] exactly above 200: the bins
    are open on the left and closed on the right, the top one unbounded. *)
Theorem tool_wear_category_right_closed
  (now : string) (T : DataTransformer) (sp sa temp : Series) (t s w : list num) :
  assoc "Process temperature [K]" (columns (df T)) = Some sp ->
  assoc "Air temperature [K]" (columns (df T)) = Some sa ->
  series_sub sp sa = Ok temp ->
  numeric_col (df T) "Torque [Nm]" = Some t ->
  numeric_col (df T) "Rotational speed [rpm]" = Some s ->
  numeric_col (df T) "Tool wear [min]" = Some w ->
  (exists d,
      snd (compute_derived_features now T) = Ok d
      /\ assoc "Tool_Wear_Category" (columns d) = Some (CatCol (map tool_wear_category w)))
  /\ forall x : Q, (0 < x)%Q ->
       (tool_wear_category (Some x) = Some "Low" <-> (x <= 100)%Q)
       /\ (tool_wear_category (Some x) = Some "Medium" <-> (100 < x /\ x <= 200)%Q)
       /\ (tool_wear_category (Some x) = Some "High" <-> (200 < x)%Q).
Proof.
  intros Hp Ha Hsub Ht Hs Hw. split.
  - unfold numeric_col in Ht, Hs.
    destruct (assoc "Torque [Nm]" (columns (df T))) as [st|] eqn:Hst; [|done].
    destruct (assoc "Rotational speed [rpm]" (columns (df T))) as [ss|] eqn:Hss; [|done].
    rewrite (compute_derived_features_ok now T sp sa st ss t s w temp
               Hp Ha Hsub Hst Ht Hss Hs Hw).
    eexists. split; [reflexivity|]. cbn [columns setitem]. apply assoc_set_same.
  - intros x Hx. destruct (tool_wear_category_spec x) as (HL & HM & HH & _).
    repeat split; try tauto.
Qed.

End TransformerFacts.

(** The claim as the design document words it, bins closed on the left, fails
    at the edge 100: the code puts a wear of 100 in [Low]. *)
Lemma tool_wear_category_closed_open_fails :
  ~ (forall w : Q,
        (Transformer.tool_wear_category (Some w) = Some "Low" <-> (0 <= w /\ w < 100)%Q)
        /\ (Transformer.tool_wear_category (Some w) = Some "Medium" <-> (100 <= w /\ w < 200)%Q)
        /\ (Transformer.tool_wear_category (Some w) = Some "High" <-> (200 <= w)%Q)).
Proof.
  intros H. destruct (H 100%Q) as (_ & HM & _).
  assert (Transformer.tool_wear_category (Some 100%Q) = Some "Medium") as Habs.
  { apply HM. split; [apply Qle_refl | reflexivity]. }
  vm_compute in Habs. discriminate.
Qed.

(** ** DataExporter *)

Section ExporterFacts.
Import Frame Exporter.
Context `{IOEngine}.

Lemma take_drop_length {A} (n : nat) (l : list A) :
  take n l ++ drop (length (take n l)) l = l.
Proof.
  rewrite length_take. destruct (Nat.le_gt_cases n (length l)) as [Hle|Hgt].
  - rewrite Nat.min_l by done. apply take_drop.
  - rewrite Nat.min_r by lia. rewrite take_ge, drop_all by lia. apply app_nil_r.
Qed.

(** The loop feeds the hash object every byte from the read position to the
    end of the file, in order, whatever the chunking. *)
Lemma read_chunks_absorbs (f : file) (h : hash_obj) :
  read_chunks f h =
  {| algo := algo h; absorbed := absorbed h ++ drop (pos f) (content f) |}.
Proof.
  funelim (read_chunks f h).
  - clear Heqcall.
    match goal with Hs : sigmaI _ _ _ = sigmaI _ _ _ |- _ => clear Hs end.
    unfold read in e. cbn [fst] in e.
    assert (drop (pos f) (content f) = []) as ->.
    { destruct (drop (pos f) (content f)); [done|]. discriminate e. }
    rewrite app_nil_r. by destruct h.
  - match goal with IH : read_chunks _ _ = mkHash _ _ |- _ => rewrite IH; clear IH end.
    clear Heqcall.
    match goal with Hs : sigmaI _ _ _ = sigmaI _ _ _ |- _ => clear Hs end.
    unfold read, update in *. cbn [fst snd pos content algo absorbed] in *.
    f_equal. rewrite <- app_assoc. f_equal.
    rewrite <- E at 1. rewrite <- drop_drop. apply take_drop_length.
Qed.

Lemma hexdigest_read_chunks (bytes : list byte) (algorithm : string) :
  hexdigest (read_chunks (open_rb bytes) (hash_new algorithm)) =
  if String.eqb algorithm "sha256" then sha256 bytes else md5 bytes.
Proof.
  rewrite read_chunks_absorbs. unfold hexdigest, hash_new, open_rb. cbn.
  by destruct (String.eqb algorithm "sha256").
Qed.

Lemma calculate_checksum_written (fs : gmap string (list byte)) (path : string)
  (bytes : list byte) :
  calculate_checksum (<[path := bytes]> fs) path "sha256" = Ok (sha256 bytes).
Proof.
  unfold calculate_checksum. rewrite lookup_insert_eq. by rewrite hexdigest_read_chunks.
Qed.

Lemma calculate_checksum_other (fs : gmap string (list byte)) (p q : string)
  (bytes : list byte) (algorithm : string) :
  p <> q ->
  calculate_checksum (<[p := bytes]> fs) q algorithm = calculate_checksum fs q algorithm.
Proof. intros Hne. unfold calculate_checksum. by rewrite lookup_insert_ne. Qed.

(** Writing a file under a path that no record of the log names, and logging
    its digest, keeps the log consistent with the file system. *)
Lemma log_consistent_write (fs : gmap string (list byte)) (X : DataExporter)
  (e : ExportEntry) (bytes : list byte) :
  log_consistent fs X ->
  Forall (fun e' => entry_path e' <> entry_path e) (export_log X) ->
  entry_checksum e = sha256 bytes ->
  log_consistent (<[entry_path e := bytes]> fs) (log_append X e).
Proof.
  unfold log_consistent. intros Hc Hp He. cbn [export_log log_append].
  apply Forall_app. split.
  - rewrite Forall_forall in Hc, Hp. apply Forall_forall. intros e' Hin.
    rewrite calculate_checksum_other by (intros Heq; by apply (Hp e' Hin)).
    by apply Hc.
  - constructor; [|constructor]. rewrite He. apply calculate_checksum_written.
Qed.

(** C1.  [calculate_checksum] is a function of the bytes of the file alone:
    reading them in chunks of 4096 and feeding each chunk to the hash object
    gives the SHA-256 digest of the whole content, so two files with the same
    bytes have the same checksum.  Each of [export_csv], [export_json] and
    [export_parquet] that writes a file appends one record to the export log:
    the log after the call is the log before it followed by that record.  The
    checksum of the record is the digest of the bytes written, and
    recomputing the checksum from the file just written gives the recorded
    value; as long as exports go to paths that no earlier record names, this
    holds of every record of the log.  An [export_parquet] that writes no
    file leaves the log as it was. *)
Theorem export_checksum_recomputable :
  (forall (fs : gmap string (list byte)) (path : string) (bytes : list byte),
      fs !! path = Some bytes ->
      calculate_checksum fs path "sha256" = Ok (sha256 bytes))
  /\ (forall (fs1 fs2 : gmap string (list byte)) (p1 p2 algorithm : string)
             (bytes : list byte),
      fs1 !! p1 = Some bytes -> fs2 !! p2 = Some bytes ->
      calculate_checksum fs1 p1 algorithm = calculate_checksum fs2 p2 algorithm)
  /\ (forall filename include_index now fs X,
      let r := export_csv filename include_index now fs X in
      exists e,
        fst (fst r) = <[entry_path e := to_csv (df X) include_index]> fs
        /\ snd r = Ok (entry_path e)
        /\ export_log (snd (fst r)) = export_log X ++ [e]
        /\ df (snd (fst r)) = df X /\ output_dir (snd (fst r)) = output_dir X
        /\ entry_path e = path_join (output_dir X) filename
        /\ entry_checksum e = sha256 (to_csv (df X) include_index)
        /\ calculate_checksum (fst (fst r)) (entry_path e) "sha256" = Ok (entry_checksum e)
        /\ (log_consistent fs X ->
            Forall (fun e' => entry_path e' <> entry_path e) (export_log X) ->
            log_consistent (fst (fst r)) (snd (fst r))))
  /\ (forall filename orient now fs X,
      let r := export_json filename orient now fs X in
      exists e,
        fst (fst r) = <[entry_path e := to_json (df X) orient]> fs
        /\ snd r = Ok (entry_path e)
        /\ export_log (snd (fst r)) = export_log X ++ [e]
        /\ df (snd (fst r)) = df X /\ output_dir (snd (fst r)) = output_dir X
        /\ entry_path e = path_join (output_dir X) filename
        /\ entry_checksum e = sha256 (to_json (df X) orient)
        /\ calculate_checksum (fst (fst r)) (entry_path e) "sha256" = Ok (entry_checksum e)
        /\ (log_consistent fs X ->
            Forall (fun e' => entry_path e' <> entry_path e) (export_log X) ->
            log_consistent (fst (fst r)) (snd (fst r))))
  /\ (forall filename compression now fs X,
      let r := export_parquet filename compression now fs X in
      match to_parquet (df X) compression with
      | Ok bytes =>
          exists e,
            fst (fst r) = <[entry_path e := bytes]> fs
            /\ snd r = Ok (Some (entry_path e))
            /\ export_log (snd (fst r)) = export_log X ++ [e]
            /\ df (snd (fst r)) = df X /\ output_dir (snd (fst r)) = output_dir X
            /\ entry_path e = path_join (output_dir X) filename
            /\ entry_checksum e = sha256 bytes
            /\ calculate_checksum (fst (fst r)) (entry_path e) "sha256" =
                 Ok (entry_checksum e)
            /\ (log_consistent fs X ->
                Forall (fun e' => entry_path e' <> entry_path e) (export_log X) ->
                log_consistent (fst (fst r)) (snd (fst r)))
      | Raise (ImportError _) => r = (fs, X, Ok None)
      | Raise e => r = (fs, X, Raise e)
      end).
Proof.
  split; [|split; [|split; [|split]]].
  - intros fs path bytes Hf. unfold calculate_checksum. rewrite Hf.
    by rewrite hexdigest_read_chunks.
  - intros fs1 fs2 p1 p2 algorithm bytes H1 H2. unfold calculate_checksum.
    by rewrite H1, H2.
  - intros filename include_index now fs X. cbv zeta. unfold export_csv.
    rewrite calculate_checksum_written. eexists (CSV _ _ _ _ _ _ _).
    cbn [fst snd entry_path entry_checksum export_log df output_dir log_append].
    repeat split; [apply calculate_checksum_written|].
    intros Hc Hp. by apply (log_consistent_write fs X (CSV _ _ _ _ _ _ _)).
  - intros filename orient now fs X. cbv zeta. unfold export_json.
    rewrite calculate_checksum_written. eexists (JSON _ _ _ _ _ _ _).
    cbn [fst snd entry_path entry_checksum export_log df output_dir log_append].
    repeat split; [apply calculate_checksum_written|].
    intros Hc Hp. by apply (log_consistent_write fs X (JSON _ _ _ _ _ _ _)).
  - intros filename compression now fs X. cbv zeta. unfold export_parquet.
    destruct (to_parquet (df X) compression) as [bytes|e].
    + rewrite calculate_checksum_written. eexists (Parquet _ _ _ _ _ _ _).
      cbn [fst snd entry_path entry_checksum export_log df output_dir log_append].
      repeat split; [apply calculate_checksum_written|].
      intros Hc Hp. by apply (log_consistent_write fs X (Parquet _ _ _ _ _ _ _)).
    + by destruct e.
Qed.

(** A file of two full chunks and one more byte is absorbed whole, in three
    updates. *)
Example read_chunks_three_chunks :
  absorbed (read_chunks (open_rb (repeat x2a (4096 + 4096 + 1))) (hash_new "sha256")) =
  repeat x2a (4096 + 4096 + 1).
Proof. vm_compute. reflexivity. Qed.

End ExporterFacts.

(** ** ProvenanceLogger *)

Section ProvenanceFacts.
Import Provenance.

Lemma extends_refl (P : ProvenanceLogger) : extends P P.
Proof. by repeat split. Qed.

Lemma extends_trans (P1 P2 P3 : ProvenanceLogger) :
  extends P1 P2 -> extends P2 P3 -> extends P1 P3.
Proof.
  intros (a1 & a2 & a3 & a4 & a5 & a6 & a7) (b1 & b2 & b3 & b4 & b5 & b6 & b7).
  repeat split; try (etrans; eassumption); congruence.
Qed.

Lemma record_extends (c : Recording) (now : string) (P : ProvenanceLogger) :
  extends P (record c now P).
Proof.
  destruct c as [s|n d p st|t d|n r ok|e|[info|err]|n i k|t cat];
    repeat split; cbn; try done; try (by apply prefix_app_r).
Qed.

Lemma record_all_extends (cs : list (Recording * string)) (P : ProvenanceLogger) :
  extends P (record_all cs P).
Proof.
  revert P. induction cs as [|[c now] cs IH]; intros P; [apply extends_refl|].
  cbn. eapply extends_trans; [apply record_extends|]. apply IH.
Qed.

(** C9, as the code has it.  Every recording call stamps what it records with
    the clock reading of the call.  The list-valued sections (workflow steps,
    transformations, quality checks, exports, notes) are append-only: after
    one recording call, and after any run of them, every earlier entry is
    still in place and in order, and the project name and creation timestamp
    are unchanged.  The dataset source, the curator and the environment
    snapshot are single slots: a call changes a slot only if it is the call
    that writes that slot, and then it replaces the slot's earlier value. *)
Theorem recording_is_stamped_and_lists_only_grow
  (c : Recording) (now : string) (P : ProvenanceLogger) :
  let P' := record c now P in
  extends P P'
  /\ (forall cs, extends P (record_all cs P))
  /\ ((forall s, c <> rec_dataset_source s) -> dataset_source P' = dataset_source P)
  /\ ((forall n i k, c <> rec_curator_info n i k) -> curator P' = curator P)
  /\ ((forall probe, c <> rec_system_environment probe) ->
      system_environment P' = system_environment P)
  /\ match c with
     | rec_dataset_source s =>
         dataset_source P' = <["logged_at" := JStr now]> s
         /\ dataset_source P' !! "logged_at" = Some (JStr now)
     | rec_workflow_step n d p st =>
         curation_workflow P' =
           curation_workflow P ++
           [{| step_name := n; description := d; step_timestamp := now; status := st;
               parameters := default ∅ p |}]
     | rec_transformation t d =>
         data_transformations P' =
           data_transformations P ++
           [{| type := t; transformation_timestamp := now; details := d |}]
     | rec_quality_check n r ok =>
         quality_checks P' =
           quality_checks P ++
           [{| check_name := n; check_timestamp := now; passed := ok; results := r |}]
     | rec_export e =>
         exports P' = exports P ++ [<["logged_at" := JStr now]> e]
     | rec_system_environment (Ok info) => system_environment P' = Some (now, info)
     | rec_system_environment (Raise _) => P' = P
     | rec_curator_info n i k =>
         curator P' = Some {| name := n; institution := i; contact := k; added_at := now |}
     | rec_notes t cat =>
         notes P' = Some (notes_list P ++ [{| note_timestamp := now; category := cat;
                                             text := t |}])
     end.
Proof.
  split; [apply record_extends|]. split; [intros cs; apply record_all_extends|].
  destruct c as [s|n d p st|t d|n r ok|e|[info|err]|n i k|t cat]; cbn;
    repeat split; try done;
    try (intros Hc; by exfalso; eapply Hc);
    try apply lookup_insert_eq.
Qed.

End ProvenanceFacts.

(** The claim as the design document words it, that what an earlier call
    recorded is still in the record after any later call, fails for the dataset
    source: a second [log_dataset_source] stores its own dictionary, and the
    title recorded by the first is gone. *)
Lemma later_source_call_drops_earlier_facts :
  let P1 := Provenance.log_dataset_source {["title" := Provenance.JStr "AI4I 2020"]} "t1"
              (Provenance.init "AI4I_2020_Curation" "t0") in
  let P2 := Provenance.log_dataset_source {["doi" := Provenance.JStr "10.24432/C5HS5C"]} "t2"
              P1 in
  Provenance.dataset_source P1 !! "title" = Some (Provenance.JStr "AI4I 2020")
  /\ Provenance.dataset_source P2 !! "title" = None
  /\ ~ (forall (c : Provenance.Recording) (now : string) (P : Provenance.ProvenanceLogger)
               (k : string) (v : Provenance.json),
           Provenance.dataset_source P !! k = Some v -> k <> "logged_at" ->
           Provenance.dataset_source (Provenance.record c now P) !! k = Some v).
Proof.
  cbn zeta.
  assert (Provenance.dataset_source
            (Provenance.log_dataset_source {["title" := Provenance.JStr "AI4I 2020"]} "t1"
               (Provenance.init "AI4I_2020_Curation" "t0")) !! "title"
          = Some (Provenance.JStr "AI4I 2020")) as H1.
  { cbn. rewrite lookup_insert_ne by discriminate. apply lookup_singleton_eq. }
  assert (Provenance.dataset_source
            (Provenance.log_dataset_source {["doi" := Provenance.JStr "10.24432/C5HS5C"]} "t2"
               (Provenance.log_dataset_source {["title" := Provenance.JStr "AI4I 2020"]} "t1"
                  (Provenance.init "AI4I_2020_Curation" "t0"))) !! "title" = None) as H2.
  { cbn. rewrite lookup_insert_ne by discriminate. by apply lookup_singleton_ne. }
  split; [exact H1|]. split; [exact H2|].
  intros Hclaim.
  specialize (Hclaim (Provenance.rec_dataset_source {["doi" := Provenance.JStr "10.24432/C5HS5C"]})
                "t2" _ "title" _ H1).
  cbn [Provenance.record] in Hclaim. rewrite H2 in Hclaim.
  discriminate Hclaim. discriminate.
Qed.

(** ** More on DataLoader *)

Section LoaderMoreFacts.
Import Frame Loader.

(** X1.  A loader validates only after a successful [load]: on a fresh loader
    [validate_structure] raises [ValueError] and stores nothing; a [load] that
    fails (the path does not exist, or [read_csv] raises) leaves the loader as
    it was, so validation still raises; after a [load] that returns,
    [validate_structure] returns a report, stores that same report, and gives
    it again when repeated. *)
Theorem load_then_validate (path : string) (path_exists : bool) (read_csv : result DataFrame) :
  let L0 := Loader.init path in
  let unloaded := Raise (ValueError "Dataset not loaded. Call load() first.") in
  validate_structure L0 = (L0, unloaded)
  /\ match load path_exists read_csv L0 with
     | (L1, Raise e) =>
         L1 = L0
         /\ (if path_exists then read_csv = Raise e else e = FileNotFoundError path)
         /\ validate_structure L1 = (L1, unloaded)
     | (L1, Ok d) =>
         path_exists = true /\ read_csv = Ok d /\ df L1 = Some d
         /\ exists report,
              let L2 := {| data_path := path; df := Some d; validation_results := report |} in
              validate_structure L1 = (L2, Ok report)
              /\ validate_structure L2 = (L2, Ok report)
     end.
Proof.
  cbn zeta. split; [reflexivity|].
  unfold load. destruct path_exists; cbn [negb].
  - destruct read_csv as [d|e]; cbn.
    + repeat split. eexists. split; reflexivity.
    + repeat split.
  - cbn. repeat split.
Qed.

Lemma dtype_mismatches_In (d : DataFrame) (m : Mismatch) :
  In m (dtype_mismatches d) <->
  exists s, In (column m, expected m) EXPECTED_DTYPES
            /\ assoc (column m) (columns d) = Some s
            /\ actual m = dtype s
            /\ dtype s <> expected m.
Proof.
  unfold dtype_mismatches. rewrite in_flat_map. split.
  - intros ([c t] & Hin & Hm).
    destruct (assoc c (columns d)) as [s|] eqn:Hs; [|done].
    destruct (String.eqb_spec (dtype s) t) as [Heq|Hne]; [done|].
    destruct Hm as [<-|[]]. cbn. exists s. by repeat split.
  - intros (s & Hin & Hs & Ha & Hne). exists (column m, expected m). split; [done|].
    rewrite Hs. destruct (String.eqb_spec (dtype s) (expected m)) as [Heq|_]; [done|].
    left. destruct m. cbn in *. by subst.
Qed.

(** X2.  The data-type check reports a mismatch exactly for an expected
    column that the dataset has under another dtype, with the expected and
    the actual dtype; an expected column that is absent is never reported
    here.  The reported columns come in schema order, at most once each. *)
Theorem dtype_mismatches_are_present_columns (d : DataFrame) :
  (forall m : Mismatch,
      In m (dtype_mismatches d) <->
      exists s, In (column m, expected m) EXPECTED_DTYPES
                /\ assoc (column m) (columns d) = Some s
                /\ actual m = dtype s
                /\ dtype s <> expected m)
  /\ (forall m, In m (dtype_mismatches d) -> In (column m) (column_names d))
  /\ sublist (map column (dtype_mismatches d)) EXPECTED_COLUMNS.
Proof.
  split; [apply dtype_mismatches_In|]. split.
  - intros m Hm. apply dtype_mismatches_In in Hm as (s & _ & Hs & _).
    destruct (in_dec string_dec (column m) (column_names d)) as [Hin|Hnin]; [done|].
    apply assoc_None_iff in Hnin. congruence.
  - change EXPECTED_COLUMNS with (map fst EXPECTED_DTYPES).
    unfold dtype_mismatches.
    set (f := fun ce : string * string => _).
    assert (forall l, sublist (map column (flat_map f l)) (map fst l)) as Hs; [|apply Hs].
    induction l as [|[c t] l IH]; [constructor|].
    cbn [flat_map map fst]. rewrite map_app. subst f. cbn beta iota.
    destruct (assoc c (columns d)) as [s|]; [|by apply sublist_cons].
    destruct (String.eqb (dtype s) t); [by apply sublist_cons|].
    cbn. by apply sublist_skip.
Qed.

Lemma count_true_zero (m : list bool) : count_true m = 0 <-> Forall (fun b => b = false) m.
Proof.
  unfold count_true. induction m as [|[] m IH]; cbn.
  - split; [constructor|done].
  - split; [lia|]. by inversion 1.
  - rewrite IH. split; [by constructor | by inversion 1].
Qed.

Lemma duplicated_from_lookup (seen rest : list (list cell)) (i : nat) (r : list cell) :
  rest !! i = Some r ->
  duplicated_from seen rest !! i =
  Some (existsb (row_eqb r) (rev (take i rest) ++ seen)).
Proof.
  revert seen i. induction rest as [|r0 rest IH]; intros seen i Hi; [done|].
  destruct i as [|i].
  - cbn in *. by injection Hi as ->.
  - cbn [duplicated_from]. change ((?x :: ?l) !! S i) with (l !! i).
    change ((r0 :: rest) !! S i) with (rest !! i) in Hi.
    rewrite (IH (r0 :: seen) i Hi). f_equal. f_equal.
    cbn [take rev]. by rewrite <- app_assoc.
Qed.

Lemma duplicated_from_length (seen rest : list (list cell)) :
  length (duplicated_from seen rest) = length rest.
Proof. revert seen. induction rest as [|r rest IH]; intros seen; cbn; [done|]. by rewrite IH. Qed.

Lemma rows_lookup (d : DataFrame) (i : nat) :
  i < index_len d -> rows d !! i = Some (row d i).
Proof.
  intros Hi. unfold rows. rewrite list_lookup_fmap, lookup_seq_lt by done. done.
Qed.

(** A row is flagged by [duplicated] exactly when an earlier row equals it. *)
Lemma duplicated_spec (d : DataFrame) (i : nat) :
  i < index_len d ->
  duplicated d !! i = Some true <->
  exists j, j < i /\ row_eqb (row d i) (row d j) = true.
Proof.
  intros Hi. unfold duplicated.
  rewrite (duplicated_from_lookup [] (rows d) i (row d i)) by (by apply rows_lookup).
  rewrite app_nil_r. split.
  - intros [= He]. apply existsb_exists in He as (r & Hr & He).
    apply in_rev, list_elem_of_In, list_elem_of_lookup in Hr as [j Hj].
    apply lookup_take_Some in Hj as [Hj Hlt].
    rewrite rows_lookup in Hj by lia. injection Hj as <-. by exists j.
  - intros (j & Hj & He). f_equal. apply existsb_exists. exists (row d j). split; [|done].
    apply in_rev, list_elem_of_In, list_elem_of_lookup. exists j.
    rewrite rev_involutive, lookup_take_lt by done. apply rows_lookup. lia.
Qed.

Lemma no_duplicates_iff (d : DataFrame) :
  count_true (duplicated d) = 0 <->
  forall i j, j < i -> i < index_len d -> row_eqb (row d i) (row d j) = false.
Proof.
  rewrite count_true_zero, Forall_lookup. split.
  - intros Hall i j Hj Hi.
    destruct (row_eqb (row d i) (row d j)) eqn:He; [|done].
    assert (duplicated d !! i = Some true) as Hd by (apply duplicated_spec; eauto).
    by apply Hall in Hd.
  - intros Hno i b Hb. destruct b; [|done].
    assert (i < index_len d) as Hi.
    { apply lookup_lt_Some in Hb. unfold duplicated in Hb.
      rewrite duplicated_from_length in Hb. unfold rows in Hb.
      by rewrite length_map, length_seq in Hb. }
    apply duplicated_spec in Hb as (j & Hj & He); [|done].
    rewrite Hno in He by done. done.
Qed.

Lemma no_nulls_iff (d : DataFrame) :
  isnull_sum_sum d = 0 <->
  forall c, In c (columns d) -> Forall (fun x => isnull x = false) (cells (snd c)).
Proof.
  unfold isnull_sum_sum. induction (columns d) as [|c l IH]; cbn.
  - split; [intros _ c []|done].
  - assert (length (List.filter isnull (cells (snd c))) = 0
            <-> Forall (fun x => isnull x = false) (cells (snd c))) as Hc.
    { induction (cells (snd c)) as [|x xs IHx]; cbn.
      - split; [constructor|done].
      - destruct (isnull x) eqn:Hx; cbn.
        + split; [lia|]. inversion 1; congruence.
        + rewrite IHx. split; [by constructor | by inversion 1]. }
    change (list_sum (?x :: ?l)) with (x + list_sum l).
    rewrite Nat.eq_add_0, Hc, IH. split.
    + intros [Ha Hb] c' [<-|Hin]; [done|by apply Hb].
    + intros Hall. split; [apply Hall; by left|]. intros c' Hin. apply Hall. by right.
Qed.

(** X3.  Every one of the five checks is [PASS] exactly for a dataset with
    the expected number of rows, every expected column, each expected column
    under its expected dtype, no missing cell, and no row equal to an earlier
    row. *)
Theorem validate_structure_all_pass_iff (path : string) (d : DataFrame) (old : Results) :
  let L := {| data_path := path; df := Some d; validation_results := old |} in
  (exists report, snd (validate_structure L) = Ok report
                  /\ Forall (fun kv => status (snd kv) = PASS) report)
  <->
  index_len d = EXPECTED_ROWS
  /\ (forall c, In c EXPECTED_COLUMNS -> In c (column_names d))
  /\ (forall c t s, In (c, t) EXPECTED_DTYPES -> assoc c (columns d) = Some s -> dtype s = t)
  /\ (forall c, In c (columns d) -> Forall (fun x => isnull x = false) (cells (snd c)))
  /\ (forall i j, j < i -> i < index_len d -> row_eqb (row d i) (row d j) = false).
Proof.
  cbn zeta. unfold validate_structure. cbn [df snd].
  rewrite <- missing_cols_empty_iff, <- no_nulls_iff, <- no_duplicates_iff.
  assert (dtype_mismatches d = [] <->
          (forall c t s, In (c, t) EXPECTED_DTYPES -> assoc c (columns d) = Some s ->
                         dtype s = t)) as Hdt.
  { split.
    - intros He c t s Hin Hs.
      destruct (string_dec (dtype s) t) as [|Hne]; [done|]. exfalso.
      assert (In {| column := c; expected := t; actual := dtype s |} (dtype_mismatches d))
        as Hm by (apply dtype_mismatches_In; exists s; by repeat split).
      by rewrite He in Hm.
    - intros Hall. destruct (dtype_mismatches d) as [|m l] eqn:He; [done|]. exfalso.
      assert (In m (dtype_mismatches d)) as Hm by (rewrite He; by left).
      apply dtype_mismatches_In in Hm as (s & Hin & Hs & _ & Hne).
      by apply Hne, (Hall (column m) (expected m) s). }
  rewrite <- Hdt. split.
  - intros (report & [= <-] & Hall).
    repeat (apply Forall_cons_1 in Hall as [? Hall]). cbn [snd status] in *.
    repeat split.
    + destruct (Nat.eqb_spec (index_len d) EXPECTED_ROWS); [done|discriminate].
    + by destruct (decide (missing_cols d = ∅)).
    + by destruct (dtype_mismatches d).
    + destruct (Nat.eqb_spec (isnull_sum_sum d) 0); [done|discriminate].
    + destruct (Nat.eqb_spec (count_true (duplicated d)) 0); [done|discriminate].
  - intros (H1 & H2 & H3 & H4 & H5). eexists. split; [reflexivity|].
    rewrite H1, H3, H4, H5, Nat.eqb_refl. cbn [Nat.eqb].
    destruct (decide (missing_cols d = ∅)); [|done].
    repeat constructor.
Qed.

End LoaderMoreFacts.

(** ** More on DataTransformer *)

Section TransformerMoreFacts.
Import Frame Transformer.
Context `{Engine}.

Lemma column_values_numeric (d : DataFrame) (s : Series) (col : list num) :
  numeric s = Some col -> column_values d s = Ok col.
Proof. unfold column_values. by intros ->. Qed.

Lemma column_values_rows (d : DataFrame) (s : Series) :
  index_len d <> 0 ->
  column_values d s = match numeric s with Some col => Ok col | None => Raise TypeError end.
Proof.
  intros Hrows. unfold column_values. destruct (numeric s); [done|].
  destruct (Nat.eqb_spec (index_len d) 0); [done|]. by rewrite andb_false_r.
Qed.

Lemma outlier_mask_supported (d : DataFrame) (m : string) (t : Q) (f : string) :
  m = "iqr" \/ m = "zscore" ->
  outlier_mask d m t f =
  match assoc f (columns d) with
  | None => Raise (KeyError f)
  | Some s =>
      match column_values d s with
      | Raise e => Raise e
      | Ok col => Ok (if String.eqb m "iqr" then iqr_mask col t else zscore_mask col t)
      end
  end.
Proof.
  unfold outlier_mask, getitem, mbind, result_bind.
  intros [->| ->]; cbn; destruct (assoc f (columns d)) as [s|]; try done;
    by destruct (column_values d s).
Qed.

Lemma outlier_loop_ok_iff (d : DataFrame) (m : string) (t : Q) (fs : list string) :
  m = "iqr" \/ m = "zscore" -> fs <> [] ->
  is_ok (outlier_loop d m t fs) = true <->
  Forall (fun f => is_Some (numeric_col d f)) fs /\ index_len d <> 0.
Proof.
  intros Hm. induction fs as [|f fs IH]; [done|]. intros _.
  cbn [outlier_loop]. rewrite (outlier_mask_supported d m t f Hm).
  unfold mbind, result_bind, numeric_col, outlier_entry.
  destruct (assoc f (columns d)) as [s|] eqn:Hs.
  2:{ split; [done|]. intros [Hall _]. apply Forall_cons_1 in Hall as [[? Hf] _].
      by rewrite Hs in Hf. }
  destruct (Nat.eqb_spec (index_len d) 0) as [Hz|Hnz].
  { destruct (column_values d s); (split; [done|tauto]). }
  rewrite (column_values_rows d s Hnz).
  destruct (numeric s) as [col|] eqn:Hn.
  2:{ split; [done|]. intros [Hall _]. apply Forall_cons_1 in Hall as [[? Hf] _].
      by rewrite Hs, Hn in Hf. }
  destruct fs as [|f' fs'].
  - cbn. split; [|done]. intros _. split; [|done].
    constructor; [|constructor]. rewrite Hs, Hn. by eexists.
  - specialize (IH ltac:(done)).
    destruct (outlier_loop d m t (f' :: fs')) as [tl|e]; cbn in *.
    + split; [|done]. intros _. split; [|done]. constructor; [|by apply IH].
      rewrite Hs, Hn. by eexists.
    + split; [done|]. intros [Hall _]. apply Forall_cons_1 in Hall as [_ Hall].
      by apply IH.
Qed.

Lemma outlier_loop_first_error (d : DataFrame) (m : string) (t : Q)
  (pre : list string) (f : string) (post : list string) :
  m = "iqr" \/ m = "zscore" ->
  Forall (fun g => is_Some (numeric_col d g)) pre -> index_len d <> 0 ->
  numeric_col d f = None ->
  outlier_loop d m t (pre ++ f :: post) =
  Raise (match assoc f (columns d) with None => KeyError f | Some _ => TypeError end).
Proof.
  intros Hm Hpre Hnz Hf. induction Hpre as [|g pre [col Hg] _ IH].
  - cbn [app outlier_loop]. rewrite (outlier_mask_supported d m t f Hm).
    unfold numeric_col in Hf. destruct (assoc f (columns d)) as [s|]; [|done].
    by rewrite (column_values_rows d s Hnz), Hf.
  - cbn [app outlier_loop]. rewrite (outlier_mask_supported d m t g Hm).
    unfold numeric_col in Hg. destruct (assoc g (columns d)) as [s|]; [|done].
    rewrite (column_values_numeric d s col Hg). unfold mbind, result_bind, outlier_entry.
    destruct (Nat.eqb_spec (index_len d) 0); [done|]. by rewrite IH.
Qed.

Lemma outlier_loop_empty (d : DataFrame) (m : string) (t : Q) (f : string)
  (fs : list string) :
  m = "iqr" \/ m = "zscore" ->
  Forall (fun g => is_Some (numeric_col d g)) (f :: fs) -> index_len d = 0 ->
  outlier_loop d m t (f :: fs) = Raise ZeroDivisionError.
Proof.
  intros Hm Hall Hz. apply Forall_cons_1 in Hall as [[col Hc] _].
  cbn [outlier_loop]. rewrite (outlier_mask_supported d m t f Hm).
  unfold numeric_col in Hc. destruct (assoc f (columns d)) as [s|]; [|done].
  rewrite (column_values_numeric d s col Hc).
  unfold mbind, result_bind, outlier_entry. by rewrite Hz.
Qed.

(** X4.  [detect_outliers] with a method other than [iqr] and [zscore] raises
    [UnboundLocalError] for [outliers], whatever the dataset.  With one of the
    two it returns exactly when every feature of the scale set is a numeric
    column and the dataset has at least one row; on an empty dataset with
    numeric features it raises [ZeroDivisionError]; otherwise it raises for
    the first feature, in the order of the scale set, that is not a numeric
    column: [KeyError] when the column is absent, [TypeError] when it is not
    numeric.  A call that raises leaves the transformer as it was. *)
Theorem detect_outliers_outcome (m : string) (t : Q) (now : string) (T : DataTransformer) :
  (m <> "iqr" -> m <> "zscore" ->
   detect_outliers m t now T = (T, Raise (UnboundLocalError "outliers")))
  /\ (m = "iqr" \/ m = "zscore" ->
      (is_ok (snd (detect_outliers m t now T)) = true <->
       Forall (fun f => is_Some (numeric_col (df T) f)) CONTINUOUS_FEATURES
       /\ index_len (df T) <> 0)
      /\ (Forall (fun f => is_Some (numeric_col (df T) f)) CONTINUOUS_FEATURES ->
          index_len (df T) = 0 ->
          detect_outliers m t now T = (T, Raise ZeroDivisionError))
      /\ (forall pre f post,
            CONTINUOUS_FEATURES = pre ++ f :: post ->
            Forall (fun g => is_Some (numeric_col (df T) g)) pre ->
            index_len (df T) <> 0 ->
            numeric_col (df T) f = None ->
            detect_outliers m t now T =
            (T, Raise (match assoc f (columns (df T)) with
                       | None => KeyError f
                       | Some _ => TypeError
                       end))))
  /\ (is_ok (snd (detect_outliers m t now T)) = false -> fst (detect_outliers m t now T) = T).
Proof.
  split; [|split].
  - intros H1 H2. unfold detect_outliers. cbn [CONTINUOUS_FEATURES outlier_loop].
    unfold outlier_mask.
    destruct (String.eqb_spec m "iqr"); [done|]. destruct (String.eqb_spec m "zscore"); [done|].
    reflexivity.
  - intros Hm. split; [|split].
    + rewrite <- (outlier_loop_ok_iff (df T) m t CONTINUOUS_FEATURES Hm) by done.
      unfold detect_outliers. by destruct (outlier_loop (df T) m t CONTINUOUS_FEATURES).
    + intros Hall Hz. unfold detect_outliers, CONTINUOUS_FEATURES in *.
      by rewrite (outlier_loop_empty (df T) m t _ _ Hm Hall Hz).
    + intros pre f post Hfs Hpre Hnz Hf. unfold detect_outliers. rewrite Hfs.
      by rewrite (outlier_loop_first_error (df T) m t pre f post Hm Hpre Hnz Hf).
  - unfold detect_outliers. by destruct (outlier_loop (df T) m t CONTINUOUS_FEATURES).
Qed.


Lemma flagged_from_In (mask : list bool) (i k : nat) :
  In k (flagged_from i mask) <-> i <= k /\ mask !! (k - i) = Some true.
Proof.
  revert i. induction mask as [|b mask IH]; intros i; cbn [flagged_from].
  - split; [done|]. by intros [_ ?].
  - assert (In k (flagged_from (S i) mask) <->
            i <= k /\ k <> i /\ mask !! (k - S i) = Some true) as IH'.
    { rewrite IH. split; [intros [? ?]; split; [lia|split; [lia|done]]|].
      intros (? & ? & ?). split; [lia|done]. }
    assert (forall b', i <= k -> k <> i ->
                       (b' :: mask) !! (k - i) = mask !! (k - S i)) as Hne.
    { intros b' Hle Hk. replace (k - i) with (S (k - S i)) by lia. done. }
    destruct b; cbn [In]; rewrite IH'.
    + split.
      * intros [->|(? & ? & ?)]; [by rewrite Nat.sub_diag|]. split; [done|].
        by rewrite Hne.
      * intros [Hle Hk]. destruct (decide (k = i)) as [->|Hki]; [by left|right].
        rewrite Hne in Hk by done. done.
    + split.
      * intros (? & ? & ?). split; [done|]. by rewrite Hne.
      * intros [Hle Hk]. destruct (decide (k = i)) as [->|Hki].
        { by rewrite Nat.sub_diag in Hk. }
        rewrite Hne in Hk by done. done.
Qed.

Lemma flagged_from_length (mask : list bool) (i : nat) :
  length (flagged_from i mask) = count_true mask.
Proof.
  unfold count_true. revert i. induction mask as [|[] mask IH]; intros i; cbn; [done| |];
    by rewrite IH.
Qed.

Lemma flagged_from_sorted (mask : list bool) (i : nat) :
  Sorted.StronglySorted lt (flagged_from i mask).
Proof.
  revert i. induction mask as [|b mask IH]; intros i; cbn [flagged_from]; [constructor|].
  destruct b; [|apply IH]. constructor; [apply IH|].
  apply List.Forall_forall. intros k Hk. apply flagged_from_In in Hk. lia.
Qed.

Lemma count_true_le_length (mask : list bool) : count_true mask <= length mask.
Proof. unfold count_true. apply List.filter_length_le. Qed.

Lemma percentage_range (n N : nat) :
  N <> 0 ->
  (0 <= inject_Z (Z.of_nat n) / inject_Z (Z.of_nat N) * 100)%Q
  /\ (n <= N -> (inject_Z (Z.of_nat n) / inject_Z (Z.of_nat N) * 100 <= 100)%Q).
Proof.
  intros HN.
  assert (0 < inject_Z (Z.of_nat N))%Q as HN'.
  { change 0%Q with (inject_Z 0). rewrite <- Zlt_Qlt. lia. }
  assert (0 <= inject_Z (Z.of_nat n))%Q as Hn'.
  { change 0%Q with (inject_Z 0). rewrite <- Zle_Qle. lia. }
  assert (0 <= inject_Z (Z.of_nat n) / inject_Z (Z.of_nat N))%Q as H0.
  { apply Qle_shift_div_l; [done|]. lra. }
  split; [lra|]. intros Hle.
  assert (inject_Z (Z.of_nat n) / inject_Z (Z.of_nat N) <= 1)%Q as H1.
  { apply Qle_shift_div_r; [done|]. rewrite Qmult_1_l, <- Zle_Qle. lia. }
  lra.
Qed.

Lemma outlier_loop_report (d : DataFrame) (m : string) (t : Q) (fs : list string)
  (info : list (string * OutlierInfo)) :
  outlier_loop d m t fs = Ok info ->
  Forall2
    (fun (f : string) (kv : string * OutlierInfo) =>
       fst kv = f
       /\ exists col mask,
            numeric_col d f = Some col
            /\ outlier_mask d m t f = Ok mask
            /\ length mask = length col
            /\ count (snd kv) = count_true mask
            /\ count (snd kv) <= length col
            /\ (0 <= percentage (snd kv))%Q
            /\ (length col = index_len d -> (percentage (snd kv) <= 100)%Q)
            /\ match indices (snd kv) with
               | IndexList l =>
                   count (snd kv) < 100
                   /\ length l = count (snd kv)
                   /\ Sorted.StronglySorted lt l
                   /\ forall k, In k l <-> mask !! k = Some true
               | too_many_to_list => 100 <= count (snd kv)
               end)
    fs info.
Proof.
  revert info. induction fs as [|f fs IH]; intros info; cbn [outlier_loop].
  { intros [= <-]. constructor. }
  destruct (outlier_mask d m t f) as [mask|e] eqn:Hmask; [|done].
  unfold mbind at 1, result_bind at 1.
  unfold outlier_entry. destruct (Nat.eqb_spec (index_len d) 0) as [|HN]; [done|].
  unfold mbind at 1, result_bind at 1.
  destruct (outlier_loop d m t fs) as [tl|e]; [|done]. cbn. intros [= <-].
  constructor; [|by apply IH]. split; [done|]. cbn [snd count percentage indices].
  assert (exists col, numeric_col d f = Some col /\ length mask = length col)
    as (col & Hcol & Hlen).
  { revert Hmask. unfold outlier_mask, getitem, numeric_col, mbind, result_bind.
    destruct (String.eqb m "iqr"); [|destruct (String.eqb m "zscore"); [|done]];
      (destruct (assoc f (columns d)) as [s|]; [|done]);
      rewrite (column_values_rows d s HN);
      (destruct (numeric s) as [col|]; [|done]); intros [= <-]; exists col;
      (split; [done|]).
    - unfold iqr_mask. by rewrite length_map.
    - unfold zscore_mask. by rewrite length_map. }
  exists col, mask. split; [done|]. split; [done|]. split; [done|]. split; [done|].
  pose proof (count_true_le_length mask) as Hle.
  split; [lia|]. destruct (percentage_range (count_true mask) (index_len d) HN) as [H0 H100].
  split; [done|]. split; [intros Hl; apply H100; lia|].
  destruct (Nat.leb_spec (count_true mask) 99) as [Hlt|Hge];
    cbn iota; [|lia].
  split; [lia|]. split; [apply flagged_from_length|].
  split; [apply flagged_from_sorted|].
  intros k. rewrite flagged_from_In, Nat.sub_0_r. split; [by intros [_ ?]|].
  intros ?. split; [lia|done].
Qed.

(** X5.  Every report that [detect_outliers] returns has one entry per
    feature of the scale set, in that order, and the entry of a feature is
    consistent with the mask computed for its column: [count] is the number
    of flagged rows and never exceeds the column length, [percentage] is
    non-negative and at most 100 when the column is as long as the index, and
    [indices] lists exactly the flagged positions in increasing order when
    fewer than 100 rows are flagged and is the marker ['too_many_to_list']
    from 100 flagged rows on.  The logged record carries the same counts. *)
Theorem detect_outliers_report (m : string) (t : Q) (now : string) (T : DataTransformer)
  (info : list (string * OutlierInfo)) :
  snd (detect_outliers m t now T) = Ok info ->
  Forall2
    (fun (f : string) (kv : string * OutlierInfo) =>
       fst kv = f
       /\ exists col mask,
            numeric_col (df T) f = Some col
            /\ outlier_mask (df T) m t f = Ok mask
            /\ length mask = length col
            /\ count (snd kv) = count_true mask
            /\ count (snd kv) <= length col
            /\ (0 <= percentage (snd kv))%Q
            /\ (length col = index_len (df T) -> (percentage (snd kv) <= 100)%Q)
            /\ match indices (snd kv) with
               | IndexList l =>
                   count (snd kv) < 100
                   /\ length l = count (snd kv)
                   /\ Sorted.StronglySorted lt l
                   /\ forall k, In k l <-> mask !! k = Some true
               | too_many_to_list => 100 <= count (snd kv)
               end)
    CONTINUOUS_FEATURES info
  /\ last (transformation_log (fst (detect_outliers m t now T))) =
     Some (outlier_detection now m t
             (map (fun kv : string * OutlierInfo => (fst kv, count (snd kv))) info)).
Proof.
  unfold detect_outliers.
  destruct (outlier_loop (df T) m t CONTINUOUS_FEATURES) as [info'|e] eqn:Hloop; [|done].
  cbn. intros [= <-]. split; [by apply outlier_loop_report|]. by rewrite last_snoc.
Qed.

(** *** The IQR rule *)

Lemma interp_between (v : list Q) (x0 h lo hi : Q) :
  (0 <= h)%Q -> Forall (fun x => lo <= x <= hi)%Q (x0 :: v) ->
  (lo <= interp v x0 h <= hi)%Q.
Proof.
  intros Hh Hall. unfold interp.
  assert (forall n, lo <= nth n v x0 <= hi)%Q as Hnth.
  { intros n. apply Forall_cons_1 in Hall as [H0 Hv].
    destruct (nth_in_or_default n v x0) as [Hin| ->]; [|done].
    rewrite List.Forall_forall in Hv. by apply Hv. }
  set (a := nth _ v x0). set (b := nth _ v x0).
  assert (lo <= a <= hi)%Q as Ha by apply Hnth.
  assert (lo <= b <= hi)%Q as Hb by apply Hnth.
  pose proof (Qfloor_le h) as Hf. pose proof (Qlt_floor h) as Hf'.
  assert (inject_Z (Qfloor h + 1) == inject_Z (Qfloor h) + 1)%Q as E
    by (rewrite inject_Z_plus; reflexivity).
  rewrite E in Hf'.
  set (fr := (h - inject_Z (Qfloor h))%Q).
  assert (0 <= fr <= 1)%Q as Hfr by (unfold fr; split; lra).
  split; nra.
Qed.

Lemma quantile_between (col : list num) (q lo hi : Q) (v : Q) :
  (0 <= q)%Q -> (forall x, In (Some x) col -> (lo <= x <= hi)%Q) ->
  quantile col q = Some v -> (lo <= v <= hi)%Q.
Proof.
  intros Hq Hall. unfold quantile.
  destruct (merge_sort Qle (omap id col)) as [|x0 s] eqn:Hs; [done|]. intros [= <-].
  assert (Forall (fun x => lo <= x <= hi)%Q (x0 :: s)) as Hb.
  { rewrite <- Hs. apply List.Forall_forall. intros x Hx.
    apply list_elem_of_In in Hx. rewrite merge_sort_Permutation in Hx.
    apply list_elem_of_omap in Hx as (o & Ho & Heq). cbn in Heq. subst o.
    apply Hall. by apply list_elem_of_In. }
  apply interp_between.
  - apply Qmult_le_0_compat; [|done]. change 0%Q with (inject_Z 0).
    rewrite <- Zle_Qle. lia.
  - constructor; [|done]. by apply Forall_cons_1 in Hb as [? _].
Qed.

Lemma lookup_map {A B} (f : A -> B) (l : list A) (i : nat) :
  map f l !! i = option_map f (l !! i).
Proof. exact (list_lookup_fmap f l i). Qed.

Lemma count_true_map_false {A} (f : A -> bool) (l : list A) :
  (forall x, In x l -> f x = false) -> count_true (map f l) = 0.
Proof.
  unfold count_true. induction l as [|y l IH]; [done|]. intros Hf. cbn [map List.filter].
  rewrite (Hf y) by (by left). cbn [id]. apply IH. intros x Hx. apply Hf. by right.
Qed.

(** X6.  What the IQR rule never flags.  A missing cell is flagged by no
    threshold.  With a non-negative threshold a value between the two
    quartiles is not flagged, and a column whose values all lie in an
    interval of width zero has no outlier at all. *)
Theorem iqr_mask_never_flags (col : list num) (t : Q) :
  length (iqr_mask col t) = length col
  /\ (forall i, col !! i = Some None -> iqr_mask col t !! i = Some false)
  /\ ((0 <= t)%Q ->
      (forall i x a b,
         col !! i = Some (Some x) ->
         quantile col 0.25 = Some a -> quantile col 0.75 = Some b ->
         (a <= x <= b)%Q -> iqr_mask col t !! i = Some false)
      /\ (forall c, (forall x, In (Some x) col -> (x == c)%Q) ->
          count_true (iqr_mask col t) = 0)).
Proof.
  unfold num in *.
  split; [unfold iqr_mask; by rewrite length_map|]. split.
  - intros i Hi. unfold iqr_mask. rewrite lookup_map. unfold num in *. rewrite Hi. cbn.
    by destruct (fsub _ _), (fadd _ _).
  - intros Ht. split.
    + intros i x a b Hi Ha Hb Hx. unfold iqr_mask. rewrite lookup_map. unfold num in *. rewrite Hi, Ha, Hb.
      cbn. f_equal. apply orb_false_iff. split; apply Qlt_bool_false_iff; nra.
    + intros c Hc.
      assert (forall q v, (0 <= q)%Q -> quantile col q = Some v -> (v == c)%Q) as Hq.
      { intros q v Hq Hv.
        assert (c <= v <= c)%Q as [? ?]; [|lra].
        eapply (quantile_between col q); [done| |done].
        intros x Hx. rewrite (Hc x Hx). split; lra. }
      unfold iqr_mask.
      assert (forall x : num,
                In x col ->
                flt x (fsub (quantile col 0.25)
                         (fmul (Some t) (fsub (quantile col 0.75) (quantile col 0.25))))
                || fgt x (fadd (quantile col 0.75)
                            (fmul (Some t) (fsub (quantile col 0.75) (quantile col 0.25))))
                = false) as Hno.
      { intros [x|] Hx.
        2:{ cbn. by destruct (fsub _ _), (fadd _ _). }
        destruct (quantile col 0.25) as [a|] eqn:Ha, (quantile col 0.75) as [b|] eqn:Hb;
          try done.
        assert (a == c)%Q as Ea by (apply (Hq 0.25%Q); [lra|done]).
        assert (b == c)%Q as Eb by (apply (Hq 0.75%Q); [lra|done]).
        pose proof (Hc x Hx) as Ex.
        cbn. apply orb_false_iff. split; apply Qlt_bool_false_iff; nra. }
      by apply count_true_map_false.
Qed.

(** *** The z-score rule *)

Lemma zscore_gt_antitone (x mean std : num) (t1 t2 : Q) :
  (t1 <= t2)%Q -> zscore_gt x mean std t2 = true -> zscore_gt x mean std t1 = true.
Proof.
  intros Ht. destruct x as [x|], mean as [m|], std as [s|]; cbn; try done.
  destruct (Qeq_bool s 0); [done|]. rewrite !Qlt_bool_iff. lra.
Qed.

Lemma zscore_count_antitone (col : list num) (t1 t2 : Q) :
  (t1 <= t2)%Q -> count_true (zscore_mask col t2) <= count_true (zscore_mask col t1).
Proof.
  intros Ht. apply count_true_mono. unfold zscore_mask.
  apply Forall2_fmap, Forall_Forall2_diag, Forall_forall. intros x _.
  by apply zscore_gt_antitone.
Qed.

Lemma outlier_loop_zscore_antitone (d : DataFrame) (t1 t2 : Q) (fs : list string) :
  (t1 <= t2)%Q ->
  match outlier_loop d "zscore" t1 fs, outlier_loop d "zscore" t2 fs with
  | Ok low, Ok high =>
      map fst low = fs /\ map fst high = fs /\
      Forall2 (fun a b : string * OutlierInfo => count (snd b) <= count (snd a)) low high
  | Raise e1, Raise e2 => e1 = e2
  | _, _ => False
  end.
Proof.
  intros Ht. induction fs as [|f fs IH]; [cbn; auto|].
  cbn [outlier_loop]. unfold outlier_mask. cbn [String.eqb Ascii.eqb Bool.eqb andb].
  unfold getitem. destruct (assoc f (columns d)) as [s|]; cbn; [|done].
  destruct (column_values d s) as [col|]; cbn; [|done].
  unfold outlier_entry. destruct (Nat.eqb (index_len d) 0); cbn; [done|].
  destruct (outlier_loop d "zscore" t1 fs) as [low|e1],
           (outlier_loop d "zscore" t2 fs) as [high|e2]; cbn; try done.
  destruct IH as (H1 & H2 & H3). repeat split; [by f_equal | by f_equal |].
  constructor; [|done]. cbn. by apply zscore_count_antitone.
Qed.

(** X7.  Under the z-score method, too, the flagged-row count of every
    feature is antitone in the threshold, whatever mean and standard
    deviation the column has: for [t1 <= t2] on the same dataset the two
    calls raise the same error or return reports over the scale set in which
    each count at [t2] is at most the count at [t1]. *)
Theorem zscore_flagged_count_antitone (T : DataTransformer) (now1 now2 : string)
  (t1 t2 : Q) :
  (t1 <= t2)%Q ->
  match snd (detect_outliers "zscore" t1 now1 T), snd (detect_outliers "zscore" t2 now2 T) with
  | Ok low, Ok high =>
      map fst low = CONTINUOUS_FEATURES /\ map fst high = CONTINUOUS_FEATURES /\
      Forall2 (fun a b : string * OutlierInfo => count (snd b) <= count (snd a)) low high
  | Raise e1, Raise e2 => e1 = e2
  | _, _ => False
  end.
Proof.
  intros Ht. unfold detect_outliers.
  pose proof (outlier_loop_zscore_antitone (df T) t1 t2 CONTINUOUS_FEATURES Ht) as Hl.
  destruct (outlier_loop (df T) "zscore" t1 CONTINUOUS_FEATURES),
           (outlier_loop (df T) "zscore" t2 CONTINUOUS_FEATURES); exact Hl.
Qed.

(** X8.  What the z-score rule flags.  A missing cell is never flagged, and
    nothing is flagged when the mean or the standard deviation of the column
    is NaN.  With a non-negative threshold a cell equal to the mean is not
    flagged.  When the standard deviation is zero, the threshold plays no
    role: exactly the cells that differ from the mean are flagged. *)
Theorem zscore_mask_flags (col : list num) (t : Q) :
  length (zscore_mask col t) = length col
  /\ (forall i, col !! i = Some None -> zscore_mask col t !! i = Some false)
  /\ (series_mean col = None \/ series_std col = None ->
      count_true (zscore_mask col t) = 0)
  /\ (forall i x m,
        (0 <= t)%Q -> col !! i = Some (Some x) -> series_mean col = Some m ->
        (x == m)%Q -> zscore_mask col t !! i = Some false)
  /\ (forall i x m s,
        col !! i = Some (Some x) -> series_mean col = Some m ->
        series_std col = Some s -> (s == 0)%Q ->
        zscore_mask col t !! i = Some (negb (Qeq_bool x m))).
Proof.
  unfold zscore_mask. split; [by rewrite length_map|]. split; [|split; [|split]].
  - intros i Hi. rewrite lookup_map. unfold num in *. by rewrite Hi.
  - intros Hnan. apply count_true_map_false. intros [x|] _; [|done].
    destruct Hnan as [-> | ->]; cbn; [done|]. by destruct (series_mean col).
  - intros i x m Ht Hi Hm Hx. rewrite lookup_map. unfold num in *. rewrite Hi, Hm. cbn.
    f_equal. destruct (series_std col) as [s|]; [|done].
    destruct (Qeq_bool s 0) eqn:Hs.
    + apply negb_false_iff, Qeq_bool_iff. lra.
    + apply Qlt_bool_false_iff.
      assert (Qabs ((x - m) / s) == 0)%Q as ->; [|done].
      assert ((x - m) / s == 0)%Q as ->; [|done].
      unfold Qdiv. assert (x - m == 0)%Q as -> by lra. lra.
  - intros i x m s Hi Hm Hs Hz. rewrite lookup_map. unfold num in *. rewrite Hi, Hm, Hs.
    cbn. f_equal. apply Qeq_bool_iff in Hz. rewrite Hz. f_equal.
    apply eq_true_iff_eq. rewrite !Qeq_bool_iff. split; lra.
Qed.

End TransformerMoreFacts.

(** ** More on normalize_features and compute_derived_features *)

Section DerivedMoreFacts.
Import Frame Transformer.
Context `{Engine}.



Lemma as_float_matrix_is_ok (cols : list Series) :
  is_ok (as_float_matrix cols) = true <-> Forall (fun s => is_Some (numeric s)) cols.
Proof.
  induction cols as [|s cols IH]; cbn [as_float_matrix]; [by split|].
  unfold mbind, result_bind. destruct (numeric s) as [c|] eqn:Hs.
  - destruct (as_float_matrix cols) as [tl|e]; cbn in *.
    + split; [|done]. intros _. constructor; [by eexists|by apply IH].
    + split; [done|]. intros Hall. apply Forall_cons_1 in Hall as [_ Hall]. by apply IH.
  - split; [done|]. intros Hall. apply Forall_cons_1 in Hall as [[? ?] _]. congruence.
Qed.


Lemma select_features_is_ok (est : string) (d : DataFrame) :
  is_ok (select_features est d) = true <->
  Forall (fun f => is_Some (numeric_col d f)) CONTINUOUS_FEATURES /\ index_len d <> 0.
Proof.
  split.
  - destruct (select_features est d) as [X|e] eqn:HX; [|done]. intros _.
    apply select_features_Ok in HX as [HX Hrows]. split; [|done].
    induction HX as [|f col fs X Hf _ IH]; constructor; [by eexists|done].
  - intros [Hall Hrows].
    assert (exists X, Forall2 (fun f col => numeric_col d f = Some col) CONTINUOUS_FEATURES X)
      as [X HX].
    { induction Hall as [|f fs [col Hf] _ [X IH]]; [by exists []|].
      exists (col :: X). by constructor. }
    by rewrite (proj2 (select_features_Ok est d X) (conj HX Hrows)).
Qed.





(** *** compute_derived_features *)

Lemma assoc_set_idem {A} (k : string) (v : A) (l : list (string * A)) :
  assoc k l = Some v -> assoc_set k v l = l.
Proof.
  induction l as [|[k' v'] l IH]; cbn; [done|].
  destruct (String.eqb k k'); [by intros [= ->]|]. intros Hl. by rewrite IH.
Qed.

Lemma setitem_idem (d : DataFrame) (k : string) (s : Series) :
  assoc k (columns d) = Some s -> setitem d k s = d.
Proof. intros Hk. unfold setitem. rewrite assoc_set_idem by done. by destruct d. Qed.

Lemma series_sub_is_ok (a b : Series) :
  is_ok (series_sub a b) = true <-> is_Some (operand a) /\ is_Some (operand b).
Proof.
  destruct a as [?|?|[|??]|?], b as [?|?|[|??]|?]; cbn; split; try done;
    try (by intros [[? ?] [? ?]]); intros _; split; by eexists.
Qed.

Lemma series_power_is_ok (a b : Series) :
  is_ok (series_power a b) = true <-> is_Some (operand a) /\ is_Some (operand b).
Proof.
  destruct a as [?|?|[|??]|?], b as [?|?|[|??]|?]; cbn; split; try done;
    try (by intros [[? ?] [? ?]]); intros _; split; by eexists.
Qed.

Lemma series_cut_is_ok (s : Series) :
  is_ok (series_cut s) = true <-> is_Some (operand s).
Proof.
  destruct s as [?|?|[|??]|?]; cbn; split; try done; try (by intros [? ?]);
    intros _; by eexists.
Qed.

Lemma operand_cases (s : Series) :
  is_Some (operand s) -> is_Some (numeric s) \/ cells s = [].
Proof. destruct s as [?|?|[|??]|?]; cbn; intros [? ?]; try done; eauto. Qed.

(** The three assignments of a successful call, in terms of the frame the
    call starts from. *)
Lemma derived_frame (d0 : DataFrame) (s1 s2 s3 : Series) :
  let d3 := setitem (setitem (setitem d0 "Temp_Difference" s1) "Power_Estimate" s2)
              "Tool_Wear_Category" s3 in
  index_len d3 = index_len d0
  /\ assoc "Temp_Difference" (columns d3) = Some s1
  /\ assoc "Power_Estimate" (columns d3) = Some s2
  /\ assoc "Tool_Wear_Category" (columns d3) = Some s3
  /\ (forall c, ~ In c derived_feature_names ->
      assoc c (columns d3) = assoc c (columns d0))
  /\ (Forall (fun c => ~ In c (column_names d0)) derived_feature_names ->
      column_names d3 = column_names d0 ++ derived_feature_names)
  /\ (Forall (fun c => In c (column_names d0)) derived_feature_names ->
      column_names d3 = column_names d0).
Proof.
  cbv zeta. unfold setitem, column_names. cbn [index_len columns].
  split; [done|]. split; [|split; [|split; [|split; [|split]]]].
  - rewrite !assoc_set_other by done. apply assoc_set_same.
  - rewrite assoc_set_other by done. apply assoc_set_same.
  - apply assoc_set_same.
  - intros c Hc. cbn in Hc.
    rewrite !assoc_set_other; [done|intros E; subst c; apply Hc; auto..].
  - intros Hall. apply Forall_cons_1 in Hall as [H1 Hall].
    apply Forall_cons_1 in Hall as [H2 Hall]. apply Forall_cons_1 in Hall as [H3 _].
    rewrite assoc_set_names_absent.
    2:{ rewrite !assoc_set_other by done. by apply assoc_None_iff. }
    rewrite assoc_set_names_absent.
    2:{ rewrite !assoc_set_other by done. by apply assoc_None_iff. }
    rewrite assoc_set_names_absent by (by apply assoc_None_iff).
    by rewrite <- !app_assoc.
  - intros Hall. apply Forall_cons_1 in Hall as [H1 Hall].
    apply Forall_cons_1 in Hall as [H2 Hall]. apply Forall_cons_1 in Hall as [H3 _].
    assert (forall c l, In c (map fst l) -> @assoc Series c l <> None) as Hin.
    { intros c l Hc Hn. by apply assoc_None_iff in Hn. }
    rewrite assoc_set_names_present.
    2:{ rewrite !assoc_set_other by done. by apply Hin. }
    rewrite assoc_set_names_present.
    2:{ rewrite !assoc_set_other by done. by apply Hin. }
    rewrite assoc_set_names_present by (by apply Hin). done.
Qed.

(** A call returns exactly when its three column computations do, and then
    assigns their results. *)
Lemma compute_derived_features_Ok (now : string) (T : DataTransformer)
  (temp power category : Series) :
  (p ← getitem (df T) "Process temperature [K]";
   a ← getitem (df T) "Air temperature [K]"; series_sub p a) = Ok temp ->
  (t ← getitem (df T) "Torque [Nm]";
   s ← getitem (df T) "Rotational speed [rpm]"; series_power t s) = Ok power ->
  (w ← getitem (df T) "Tool wear [min]"; series_cut w) = Ok category ->
  let d0 := match df_transformed T with None => copy (df T) | Some d => d end in
  let d3 := setitem (setitem (setitem d0 "Temp_Difference" temp) "Power_Estimate" power)
              "Tool_Wear_Category" category in
  compute_derived_features now T =
  (log_append (set_df_transformed T d3)
     (feature_engineering now derived_feature_names
        "Added temperature difference, power estimate, and tool wear category"),
   Ok d3).
Proof. unfold compute_derived_features. by intros -> -> ->. Qed.

Lemma compute_derived_features_inv (now : string) (T : DataTransformer) :
  is_ok (snd (compute_derived_features now T)) = true ->
  exists temp power category,
    (p ← getitem (df T) "Process temperature [K]";
     a ← getitem (df T) "Air temperature [K]"; series_sub p a) = Ok temp
    /\ (t ← getitem (df T) "Torque [Nm]";
        s ← getitem (df T) "Rotational speed [rpm]"; series_power t s) = Ok power
    /\ (w ← getitem (df T) "Tool wear [min]"; series_cut w) = Ok category.
Proof.
  unfold compute_derived_features.
  destruct (_ ← getitem (df T) "Process temperature [K]"; _) as [temp|e]; [|done].
  destruct (_ ← getitem (df T) "Torque [Nm]"; _) as [power|e]; [|done].
  destruct (_ ← getitem (df T) "Tool wear [min]"; _) as [category|e]; [|done].
  intros _. by exists temp, power, category.
Qed.

Lemma compute_derived_features_numeric (now : string) (T : DataTransformer) :
  Forall (fun f => is_Some (numeric_col (df T) f)) CONTINUOUS_FEATURES ->
  let d0 := match df_transformed T with None => copy (df T) | Some d => d end in
  exists temp power category,
    let d3 := setitem (setitem (setitem d0 "Temp_Difference" temp) "Power_Estimate" power)
                "Tool_Wear_Category" category in
    compute_derived_features now T =
    (log_append (set_df_transformed T d3)
       (feature_engineering now derived_feature_names
          "Added temperature difference, power estimate, and tool wear category"),
     Ok d3).
Proof.
  intros Hall. cbv zeta. unfold CONTINUOUS_FEATURES in Hall.
  apply Forall_cons_1 in Hall as [[a Ha] Hall].
  apply Forall_cons_1 in Hall as [[p Hp] Hall].
  apply Forall_cons_1 in Hall as [[s Hs] Hall].
  apply Forall_cons_1 in Hall as [[t Ht] Hall].
  apply Forall_cons_1 in Hall as [[w Hw] _].
  pose proof Ha as Ha'. pose proof Hp as Hp'. unfold numeric_col in Ha', Hp', Hs, Ht.
  destruct (assoc "Air temperature [K]" (columns (df T))) as [sa|] eqn:Hsa; [|done].
  destruct (assoc "Process temperature [K]" (columns (df T))) as [sp|] eqn:Hsp; [|done].
  destruct (assoc "Rotational speed [rpm]" (columns (df T))) as [ss|] eqn:Hss; [|done].
  destruct (assoc "Torque [Nm]" (columns (df T))) as [st|] eqn:Hst; [|done].
  destruct (series_sub sp sa) as [temp|e] eqn:Hsub.
  2:{ assert (is_ok (series_sub sp sa) = true) as Hok'.
      { apply series_sub_is_ok.
        split; [rewrite (proj1 (operand_numeric sp p Hp')) | rewrite (proj1 (operand_numeric sa a Ha'))];
          by eexists. }
      by rewrite Hsub in Hok'. }
  exists temp, (FloatCol (power_column st ss)), (CatCol (map tool_wear_category w)).
  by apply (compute_derived_features_ok now T sp sa st ss t s w temp).
Qed.

(** X10.  The outcome of [compute_derived_features].  It returns whenever the
    five source columns are numeric, and only when each of them is present
    and is numeric or has no cells.  Whether it returns or raises, the
    original dataset is untouched, [df_transformed] is set, has the row count
    of the frame the call started from (the previous [df_transformed], or a
    copy of the original), and agrees with that frame on every column other
    than the three derived ones.  When it returns, the three derived columns
    are present; they are appended in the order [Temp_Difference],
    [Power_Estimate], [Tool_Wear_Category] when none of them existed, and the
    column list is unchanged when all of them did. *)
Theorem compute_derived_features_outcome (now : string) (T : DataTransformer) :
  let d0 := match df_transformed T with None => copy (df T) | Some d => d end in
  let r := compute_derived_features now T in
  (Forall (fun f => is_Some (numeric_col (df T) f)) CONTINUOUS_FEATURES ->
   is_ok (snd r) = true)
  /\ (is_ok (snd r) = true ->
      Forall (fun f => exists s, assoc f (columns (df T)) = Some s
                                 /\ (is_Some (numeric s) \/ cells s = []))
             CONTINUOUS_FEATURES)
  /\ df (fst r) = df T
  /\ scaler (fst r) = scaler T
  /\ exists d,
       df_transformed (fst r) = Some d
       /\ index_len d = index_len d0
       /\ (forall c, ~ In c derived_feature_names ->
           assoc c (columns d) = assoc c (columns d0))
       /\ (is_ok (snd r) = true ->
           snd r = Ok d
           /\ Forall (fun c => is_Some (assoc c (columns d))) derived_feature_names
           /\ (Forall (fun c => ~ In c (column_names d0)) derived_feature_names ->
               column_names d = column_names d0 ++ derived_feature_names)
           /\ (Forall (fun c => In c (column_names d0)) derived_feature_names ->
               column_names d = column_names d0)).
Proof.
  cbv zeta. split; [|split].
  { intros Hall. destruct (compute_derived_features_numeric now T Hall) as (? & ? & ? & Heq).
    cbv zeta in Heq. by rewrite Heq. }
  { intros Hok. apply compute_derived_features_inv in Hok
      as (temp & power & category & Ha & Hb & Hc).
    revert Ha Hb Hc. unfold getitem, mbind, result_bind.
    destruct (assoc "Process temperature [K]" (columns (df T))) as [sp|] eqn:E1; [|done].
    destruct (assoc "Air temperature [K]" (columns (df T))) as [sa|] eqn:E2; [|done].
    destruct (assoc "Torque [Nm]" (columns (df T))) as [st|] eqn:E3; [|done].
    destruct (assoc "Rotational speed [rpm]" (columns (df T))) as [ss|] eqn:E4; [|done].
    destruct (assoc "Tool wear [min]" (columns (df T))) as [sw|] eqn:E5; [|done].
    intros Ha Hb Hc.
    assert (is_Some (operand sp) /\ is_Some (operand sa)) as [Hsp Hsa]
      by (apply series_sub_is_ok; by rewrite Ha).
    assert (is_Some (operand st) /\ is_Some (operand ss)) as [Hst Hss]
      by (apply series_power_is_ok; by rewrite Hb).
    assert (is_Some (operand sw)) as Hsw by (apply series_cut_is_ok; by rewrite Hc).
    unfold CONTINUOUS_FEATURES.
    repeat (apply Forall_cons; split;
            [eexists; split; [eassumption|by apply operand_cases]|]).
    apply Forall_nil_2. }
  unfold compute_derived_features.
  set (d0 := match df_transformed T with None => copy (df T) | Some d => d end).
  set (d1 := setitem d0 "Temp_Difference").
  assert (forall x c, ~ In c derived_feature_names ->
                      assoc c (columns (d1 x)) = assoc c (columns d0)) as Ho1.
  { intros x c Hc. unfold d1, setitem. cbn [columns]. rewrite assoc_set_other; [done|].
    intros <-. apply Hc. by left. }
  set (d2 := fun x => setitem (d1 x) "Power_Estimate").
  assert (forall x y c, ~ In c derived_feature_names ->
                        assoc c (columns (d2 x y)) = assoc c (columns d0)) as Ho2.
  { intros x y c Hc. unfold d2, setitem. cbn [columns].
    rewrite assoc_set_other; [by apply Ho1|]. intros <-. apply Hc. right. by left. }
  destruct (_ ← getitem (df T) "Process temperature [K]"; _) as [temp|e].
  2:{ cbn. split; [done|]. split; [done|]. exists d0. split; [done|]. split; [done|]. split; done. }
  fold (d1 temp).
  destruct (_ ← getitem (df T) "Torque [Nm]"; _) as [power|e].
  2:{ cbn. split; [done|]. split; [done|]. exists (d1 temp).
      split; [done|]. split; [done|]. split; [by apply Ho1|done]. }
  fold (d2 temp power).
  destruct (_ ← getitem (df T) "Tool wear [min]"; _) as [category|e].
  2:{ cbn. split; [done|]. split; [done|]. exists (d2 temp power).
      split; [done|]. split; [done|]. split; [by apply Ho2|done]. }
  cbn [fst snd is_ok df scaler df_transformed log_append set_df_transformed].
  split; [done|]. split; [done|]. eexists. split; [done|].
  destruct (derived_frame d0 temp power category) as (H1 & H2 & H3 & H4 & H5 & H6 & H7).
  split; [exact H1|]. split; [exact H5|]. intros _. split; [done|].
  split; [|split; [exact H6|exact H7]].
  repeat constructor; by eexists.
Qed.

(** X11.  A call of [compute_derived_features] that fails half-way keeps
    what it has already assigned: when the two temperature columns are
    numeric and the torque column is absent, the call raises [KeyError] for
    the torque column, yet [df_transformed] now carries a column
    [Temp_Difference], appended as last column if the name was new, while
    the transformation log has no record of the call.  For two float64
    temperature columns the new column is their difference, row by row. *)
Theorem compute_derived_features_partial (now : string) (T : DataTransformer)
  (sp sa : Series) :
  assoc "Process temperature [K]" (columns (df T)) = Some sp ->
  assoc "Air temperature [K]" (columns (df T)) = Some sa ->
  is_Some (numeric sp) -> is_Some (numeric sa) ->
  assoc "Torque [Nm]" (columns (df T)) = None ->
  let d0 := match df_transformed T with None => copy (df T) | Some d => d end in
  let r := compute_derived_features now T in
  snd r = Raise (KeyError "Torque [Nm]")
  /\ transformation_log (fst r) = transformation_log T
  /\ exists d temp,
       df_transformed (fst r) = Some d
       /\ assoc "Temp_Difference" (columns d) = Some temp
       /\ (forall p a, sp = FloatCol p -> sa = FloatCol a ->
           temp = FloatCol (zip_with fsub p a))
       /\ (forall c, c <> "Temp_Difference" -> assoc c (columns d) = assoc c (columns d0))
       /\ (~ In "Temp_Difference" (column_names d0) ->
           column_names d = column_names d0 ++ ["Temp_Difference"]).
Proof.
  intros Hp Ha [p Hnp] [a Hna] Ht. cbv zeta.
  destruct (series_sub sp sa) as [temp|e] eqn:Hsub.
  2:{ assert (is_ok (series_sub sp sa) = true) as Hok.
      { apply series_sub_is_ok.
        rewrite (proj1 (operand_numeric sp p Hnp)), (proj1 (operand_numeric sa a Hna)).
        split; by eexists. }
      by rewrite Hsub in Hok. }
  unfold compute_derived_features, getitem, mbind, result_bind.
  rewrite Hp, Ha, Hsub, Ht. cbn [fst snd transformation_log set_df_transformed df_transformed].
  split; [done|]. split; [done|]. eexists. exists temp.
  split; [reflexivity|].
  unfold setitem, column_names. cbn [columns]. split; [apply assoc_set_same|].
  split; [|split].
  - intros p' a' -> ->. cbn in Hsub. by injection Hsub as <-.
  - intros c Hc. by apply assoc_set_other.
  - intros Hn. apply assoc_set_names_absent. by apply assoc_None_iff.
Qed.

(** X12.  A second call of [compute_derived_features] right after a
    successful one recomputes the same three columns from the unchanged
    original: it returns the very same frame, and the only change to the
    transformer is one more [feature_engineering] record in the log. *)
Theorem compute_derived_features_twice (now1 now2 : string) (T : DataTransformer)
  (d1 : DataFrame) :
  snd (compute_derived_features now1 T) = Ok d1 ->
  let T1 := fst (compute_derived_features now1 T) in
  compute_derived_features now2 T1 =
  (log_append T1
     (feature_engineering now2 derived_feature_names
        "Added temperature difference, power estimate, and tool wear category"),
   Ok d1).
Proof.
  intros Hok. cbv zeta.
  assert (is_ok (snd (compute_derived_features now1 T)) = true) as Hall by (by rewrite Hok).
  apply compute_derived_features_inv in Hall as (temp & power & category & Ha & Hb & Hc).
  revert Hok. rewrite (compute_derived_features_Ok now1 T temp power category Ha Hb Hc).
  cbn [fst snd]. intros [= <-].
  set (d0 := match df_transformed T with None => copy (df T) | Some d => d end).
  set (d3 := setitem (setitem (setitem d0 "Temp_Difference" temp) "Power_Estimate" power)
               "Tool_Wear_Category" category).
  set (T1 := log_append (set_df_transformed T d3) _).
  destruct (derived_frame d0 temp power category) as (_ & H2 & H3 & H4 & _).
  fold d3 in H2, H3, H4.
  rewrite (compute_derived_features_Ok now2 T1 temp power category Ha Hb Hc).
  cbn [df_transformed T1 log_append set_df_transformed].
  rewrite (setitem_idem d3 "Temp_Difference" temp H2).
  rewrite (setitem_idem d3 "Power_Estimate" power H3).
  rewrite (setitem_idem d3 "Tool_Wear_Category" category H4).
  done.
Qed.

End DerivedMoreFacts.

(** ** More on DataExporter *)

Section ExporterMoreFacts.
Import Frame Exporter DataDictionary ExporterDocs.
Context `{Engine} `{IOEngine} `{DocEngine}.

(** X13.  [calculate_checksum] raises [FileNotFoundError] for a path without
    a file and otherwise returns a digest of the whole content.  The digest
    is SHA-256 only when the algorithm name is exactly ['sha256']; every
    other name, ['SHA256'] and ['sha512'] included, silently selects MD5. *)
Theorem calculate_checksum_outcome (fs : gmap string (list byte)) (file_path : string)
  (algorithm : string) :
  (fs !! file_path = None ->
   calculate_checksum fs file_path algorithm = Raise (FileNotFoundError file_path))
  /\ (forall bytes, fs !! file_path = Some bytes ->
      (algorithm = "sha256" ->
       calculate_checksum fs file_path algorithm = Ok (sha256 bytes))
      /\ (algorithm <> "sha256" ->
          calculate_checksum fs file_path algorithm = Ok (md5 bytes)))
  /\ calculate_checksum fs file_path "SHA256" = calculate_checksum fs file_path "md5"
  /\ calculate_checksum fs file_path "sha512" = calculate_checksum fs file_path "md5".
Proof.
  unfold calculate_checksum. split; [by intros ->|]. split.
  - intros bytes ->. rewrite hexdigest_read_chunks. split.
    + by intros ->.
    + intros Hne. by destruct (String.eqb_spec algorithm "sha256").
  - destruct (fs !! file_path) as [bytes|]; [|done].
    by rewrite !hexdigest_read_chunks.
Qed.

Lemma round2_spec (x : Q) :
  (exists k : Z, round2 x == inject_Z k / 100)%Q
  /\ (round2 x - x <= 1 # 200)%Q /\ (x - round2 x <= 1 # 200)%Q.
Proof.
  unfold round2. set (s := (x * 100)%Q). set (fl := Qfloor s).
  pose proof (Qfloor_le s) as Hlo. pose proof (Qlt_floor s) as Hhi. fold fl in Hlo, Hhi.
  assert (inject_Z (fl + 1) == inject_Z fl + 1)%Q as E
    by (rewrite inject_Z_plus; reflexivity).
  rewrite E in Hhi.
  assert (forall a, a / 100 * 100 == a)%Q as Hdiv by (intros; field).
  pose proof (Hdiv (inject_Z fl)) as Hd0. pose proof (Hdiv (inject_Z fl + 1)%Q) as Hd1.
  destruct (Qlt_bool (1 # 2) (s - inject_Z fl)) eqn:Hup.
  - apply Qlt_bool_iff in Hup. split; [by exists (fl + 1)%Z|].
    rewrite E. unfold s in *. set (y := (_ / 100)%Q) in *. split; lra.
  - apply Qlt_bool_false_iff in Hup.
    destruct (Qeq_bool (s - inject_Z fl) (1 # 2)) eqn:Htie.
    + apply Qeq_bool_iff in Htie. destruct (Z.odd fl).
      * split; [by exists (fl + 1)%Z|]. rewrite E. unfold s in *.
        set (y := ((inject_Z fl + 1) / 100)%Q) in *. split; lra.
      * split; [by exists fl|]. unfold s in *.
        set (y := (inject_Z fl / 100)%Q) in *. split; lra.
    + split; [by exists fl|]. unfold s in *.
      set (y := (inject_Z fl / 100)%Q) in *. split; lra.
Qed.

Lemma Qfloor_unit (s : Q) : (0 <= s)%Q -> (s < 1)%Q -> Qfloor s = 0%Z.
Proof.
  intros H0' H1'. pose proof (Qfloor_le s) as Hlo. pose proof (Qlt_floor s) as Hhi.
  assert (inject_Z (Qfloor s) < inject_Z 1)%Q as Ha by (change (inject_Z 1) with 1%Q; lra).
  assert (inject_Z 0 < inject_Z (Qfloor s + 1))%Q as Hb by (change (inject_Z 0) with 0%Q; lra).
  rewrite <- Zlt_Qlt in Ha, Hb. lia.
Qed.

Lemma round2_size_zero (bytes : list byte) :
  (Z.of_nat (length bytes) <= 5242)%Z <-> (round2 (file_size_mb bytes) == 0)%Q.
Proof.
  unfold file_size_mb. set (n := Z.of_nat (length bytes)).
  change (inject_Z (1024 ^ 2)) with 1048576%Q.
  set (x := (inject_Z n / 1048576)%Q).
  assert (x * 1048576 == inject_Z n)%Q as Hx by (unfold x; field).
  clearbody x.
  assert (0 <= inject_Z n)%Q as Hn.
  { change 0%Q with (inject_Z 0). rewrite <- Zle_Qle. lia. }
  split.
  - intros Hle.
    assert (inject_Z n <= 5242)%Q as Hle'.
    { change 5242%Q with (inject_Z 5242). by rewrite <- Zle_Qle. }
    unfold round2. rewrite (Qfloor_unit (x * 100)) by lra.
    change (inject_Z 0) with 0%Q.
    assert (Qlt_bool (1 # 2) (x * 100 - 0) = false) as ->
      by (apply Qlt_bool_false_iff; lra).
    assert (Qeq_bool (x * 100 - 0) (1 # 2) = false) as ->.
    { apply not_true_iff_false. rewrite Qeq_bool_iff. lra. }
    reflexivity.
  - intros Hz. destruct (round2_spec x) as (_ & _ & Hclose).
    rewrite Hz in Hclose.
    assert (inject_Z (n * 100) <= inject_Z 524288)%Q as Hm.
    { rewrite inject_Z_mult. change (inject_Z 100) with 100%Q.
      change (inject_Z 524288) with 524288%Q. lra. }
    rewrite <- Zle_Qle in Hm. lia.
Qed.

Lemma export_csv_eq (filename : string) (include_index : bool) (now : string)
  (fs : gmap string (list byte)) (X : DataExporter) :
  let path := path_join (output_dir X) filename in
  let bytes := to_csv (df X) include_index in
  export_csv filename include_index now fs X =
  (<[path := bytes]> fs,
   log_append X (CSV now filename path (index_len (df X)) (length (column_names (df X)))
                   (round2 (file_size_mb bytes)) (sha256 bytes)),
   Ok path).
Proof.
  cbv zeta. unfold export_csv. by rewrite calculate_checksum_written, lookup_insert_eq.
Qed.

Lemma export_json_eq (filename orient : string) (now : string)
  (fs : gmap string (list byte)) (X : DataExporter) :
  let path := path_join (output_dir X) filename in
  let bytes := to_json (df X) orient in
  export_json filename orient now fs X =
  (<[path := bytes]> fs,
   log_append X (JSON now filename path orient (index_len (df X))
                   (round2 (file_size_mb bytes)) (sha256 bytes)),
   Ok path).
Proof.
  cbv zeta. unfold export_json. by rewrite calculate_checksum_written, lookup_insert_eq.
Qed.

Lemma export_parquet_eq (filename compression : string) (now : string)
  (fs : gmap string (list byte)) (X : DataExporter) :
  let path := path_join (output_dir X) filename in
  export_parquet filename compression now fs X =
  match to_parquet (df X) compression with
  | Ok bytes =>
      (<[path := bytes]> fs,
       log_append X (Parquet now filename path compression (index_len (df X))
                       (round2 (file_size_mb bytes)) (sha256 bytes)),
       Ok (Some path))
  | Raise (ImportError _) => (fs, X, Ok None)
  | Raise e => (fs, X, Raise e)
  end.
Proof.
  cbv zeta. unfold export_parquet. destruct (to_parquet (df X) compression); [|done].
  by rewrite calculate_checksum_written, lookup_insert_eq.
Qed.

(** X14.  The size that an export record carries.  Each data export appends
    one record to the export log, and the record carries the size of the file
    the call has just written, in MiB and rounded to two decimals: a whole
    number of hundredths within 0.005 of the true size, and 0.0 for exactly
    the files of at most 5242 bytes.  The record also carries the row count
    of the exported frame. *)
Theorem export_entry_size :
  (forall bytes : list byte,
      (exists k : Z, round2 (file_size_mb bytes) == inject_Z k / 100)%Q
      /\ (Qabs (round2 (file_size_mb bytes) - file_size_mb bytes) <= 1 # 200)%Q
      /\ ((Z.of_nat (length bytes) <= 5242)%Z <-> (round2 (file_size_mb bytes) == 0)%Q))
  /\ (forall filename include_index now fs X,
      let r := export_csv filename include_index now fs X in
      exists e bytes,
        export_log (snd (fst r)) = export_log X ++ [e]
        /\ fst (fst r) !! entry_path e = Some bytes
        /\ bytes = to_csv (df X) include_index
        /\ entry_size_mb e = round2 (file_size_mb bytes)
        /\ entry_rows e = index_len (df X))
  /\ (forall filename orient now fs X,
      let r := export_json filename orient now fs X in
      exists e bytes,
        export_log (snd (fst r)) = export_log X ++ [e]
        /\ fst (fst r) !! entry_path e = Some bytes
        /\ bytes = to_json (df X) orient
        /\ entry_size_mb e = round2 (file_size_mb bytes)
        /\ entry_rows e = index_len (df X))
  /\ (forall filename compression now fs X bytes,
      to_parquet (df X) compression = Ok bytes ->
      let r := export_parquet filename compression now fs X in
      exists e,
        export_log (snd (fst r)) = export_log X ++ [e]
        /\ fst (fst r) !! entry_path e = Some bytes
        /\ entry_size_mb e = round2 (file_size_mb bytes)
        /\ entry_rows e = index_len (df X)).
Proof.
  split; [|split; [|split]].
  - intros bytes. destruct (round2_spec (file_size_mb bytes)) as (Hk & Hup & Hdown).
    split; [done|]. split; [|apply round2_size_zero].
    apply Qabs_Qle_condition. split; lra.
  - intros filename include_index now fs X. cbv zeta. rewrite export_csv_eq.
    cbn [fst snd export_log log_append]. do 2 eexists. split; [reflexivity|].
    cbn [entry_path entry_size_mb entry_rows]. by rewrite lookup_insert_eq.
  - intros filename orient now fs X. cbv zeta. rewrite export_json_eq.
    cbn [fst snd export_log log_append]. do 2 eexists. split; [reflexivity|].
    cbn [entry_path entry_size_mb entry_rows]. by rewrite lookup_insert_eq.
  - intros filename compression now fs X bytes Hp. cbv zeta.
    rewrite export_parquet_eq, Hp.
    cbn [fst snd export_log log_append]. eexists. split; [reflexivity|].
    cbn [entry_path entry_size_mb entry_rows]. by rewrite lookup_insert_eq.
Qed.

(** X15.  A record of the export log goes stale when its file is written
    again.  After two [export_csv] calls of one exporter under the same file
    name, the first with and the second without the index column (or the
    other way round), the log has two records for the one path and the file
    holds the bytes of the second call; with a log that was consistent
    before and named the path nowhere, every record is still recomputable
    from the files exactly when the two contents have the same digest. *)
Theorem export_twice_same_filename (filename : string) (i1 i2 : bool) (now1 now2 : string)
  (fs : gmap string (list byte)) (X : DataExporter) :
  log_consistent fs X ->
  Forall (fun e => entry_path e <> path_join (output_dir X) filename) (export_log X) ->
  let r1 := export_csv filename i1 now1 fs X in
  let r2 := export_csv filename i2 now2 (fst (fst r1)) (snd (fst r1)) in
  let path := path_join (output_dir X) filename in
  fst (fst r2) !! path = Some (to_csv (df X) i2)
  /\ (exists e1 e2,
        export_log (snd (fst r2)) = export_log X ++ [e1; e2]
        /\ entry_path e1 = path /\ entry_path e2 = path
        /\ entry_checksum e1 = sha256 (to_csv (df X) i1)
        /\ entry_checksum e2 = sha256 (to_csv (df X) i2))
  /\ (log_consistent (fst (fst r2)) (snd (fst r2)) <->
      sha256 (to_csv (df X) i1) = sha256 (to_csv (df X) i2)).
Proof.
  intros Hcons Hfresh. cbv zeta. unfold export_csv.
  rewrite ?calculate_checksum_written.
  cbn [fst snd df output_dir log_append export_log].
  rewrite ?calculate_checksum_written. cbn [fst snd df output_dir log_append export_log].
  set (path := path_join (output_dir X) filename).
  split; [by rewrite lookup_insert_eq|]. split.
  { eexists (CSV _ _ _ _ _ _ _), (CSV _ _ _ _ _ _ _).
    split; [symmetry; exact (List.app_assoc (export_log X) [_] [_])|].
    repeat split; reflexivity. }
  unfold log_consistent in Hcons |- *. cbn [export_log log_append].
  rewrite !Forall_app.
  rewrite !Forall_singleton. cbn [entry_path entry_checksum].
  rewrite !calculate_checksum_written.
  split.
  - intros ((_ & [= Heq]) & _). done.
  - intros Heq. split; [split; [|by rewrite Heq]|done].
    apply List.Forall_forall. intros e He.
    rewrite List.Forall_forall in Hcons, Hfresh.
    rewrite !calculate_checksum_other by (intros E; by apply (Hfresh e He)).
    by apply Hcons.
Qed.

(** *** The data dictionary *)

Lemma filter_partition_length {A} (p : A -> bool) (l : list A) :
  length (List.filter (fun x => negb (p x)) l) + length (List.filter p l) = length l.
Proof. induction l as [|x l IH]; [done|]. cbn. destruct (p x); cbn; lia. Qed.

Lemma nunique_from_le (seen cs : list cell) :
  nunique_from seen cs <= length (List.filter (fun c => negb (isnull c)) cs).
Proof.
  revert seen. induction cs as [|c cs IH]; intros seen; cbn; [done|].
  destruct (isnull c); cbn; [apply IH|].
  destruct (existsb (cell_eqb c) seen); [specialize (IH seen)|specialize (IH (c :: seen))];
    lia.
Qed.

Lemma nunique_zero_iff (cs : list cell) :
  nunique_from [] cs = 0 <-> length (List.filter (fun c => negb (isnull c)) cs) = 0.
Proof.
  induction cs as [|c cs IH]; cbn; [done|]. by destruct (isnull c); cbn.
Qed.

Lemma fold_min_spec (v : list Q) (a : Q) :
  let m := fold_left (fun a b => if Qle_bool b a then b else a) v a in
  In m (a :: v) /\ forall y, In y (a :: v) -> (m <= y)%Q.
Proof.
  revert a. induction v as [|b v IH]; intros a; cbn [fold_left].
  - cbv zeta. split; [by left|]. intros y [<-|[]]. lra.
  - cbv zeta. destruct (Qle_bool b a) eqn:Hba.
    + apply Qle_bool_iff in Hba. destruct (IH b) as [Hin Hle]. split.
      * right. exact Hin.
      * intros y [<-|Hy]; [|by apply Hle].
        specialize (Hle b (or_introl eq_refl)). lra.
    + assert (a < b)%Q as Hab.
      { apply Qnot_le_lt. intros Hle. apply Qle_bool_iff in Hle. congruence. }
      destruct (IH a) as [Hin Hle]. split.
      * destruct Hin as [<-|Hin]; [by left|by right; right].
      * intros y [<-|[<-|Hy]]; [by apply Hle; left| |by apply Hle; right].
        specialize (Hle a (or_introl eq_refl)). lra.
Qed.

Lemma fold_max_spec (v : list Q) (a : Q) :
  let m := fold_left (fun a b => if Qle_bool a b then b else a) v a in
  In m (a :: v) /\ forall y, In y (a :: v) -> (y <= m)%Q.
Proof.
  revert a. induction v as [|b v IH]; intros a; cbn [fold_left].
  - cbv zeta. split; [by left|]. intros y [<-|[]]. lra.
  - cbv zeta. destruct (Qle_bool a b) eqn:Hab.
    + apply Qle_bool_iff in Hab. destruct (IH b) as [Hin Hle]. split.
      * right. exact Hin.
      * intros y [<-|Hy]; [|by apply Hle].
        specialize (Hle b (or_introl eq_refl)). lra.
    + assert (b < a)%Q as Hba.
      { apply Qnot_le_lt. intros Hle. apply Qle_bool_iff in Hle. congruence. }
      destruct (IH a) as [Hin Hle]. split.
      * destruct Hin as [<-|Hin]; [by left|by right; right].
      * intros y [<-|[<-|Hy]]; [by apply Hle; left| |by apply Hle; right].
        specialize (Hle a (or_introl eq_refl)). lra.
Qed.

Lemma In_omap_id {A} (xs : list (option A)) (x : A) : In x (omap id xs) <-> In (Some x) xs.
Proof.
  rewrite <- !list_elem_of_In, list_elem_of_omap. split.
  - intros (o & Ho & Heq). cbn in Heq. by subst o.
  - intros Hx. by exists (Some x).
Qed.

(** The count of a numeric column is the number of values it has. *)
Lemma count_numeric (s : Series) (xs : list num) :
  numeric s = Some xs -> count s = length (omap id xs).
Proof.
  unfold count. destruct s as [zs|fs'|os|cs]; cbn; intros [= <-].
  - induction zs as [|z zs IH]; [done|]. cbn. by rewrite IH.
  - induction fs' as [|[q|] fs' IH]; [done| |]; cbn; by rewrite IH.
Qed.

Lemma quantile_None_values (xs : list num) (q : Q) :
  quantile xs q = None <-> omap id xs = [].
Proof.
  unfold quantile. pose proof (merge_sort_Permutation Qle (omap id xs)) as Hp.
  destruct (merge_sort Qle (omap id xs)) as [|x v].
  - split; [|done]. intros _. by apply Permutation_nil_l in Hp.
  - split; [done|]. intros Hnil. rewrite Hnil in Hp. by apply Permutation_nil_r in Hp.
Qed.

Lemma numeric_summary (xs : list num) :
  (omap id xs = [] -> series_min xs = None /\ series_max xs = None /\ median xs = None)
  /\ (omap id xs <> [] ->
      exists a b m,
        series_min xs = Some a /\ series_max xs = Some b /\ median xs = Some m
        /\ (a <= m <= b)%Q /\ In (Some a) xs /\ In (Some b) xs
        /\ forall x, In (Some x) xs -> (a <= x <= b)%Q).
Proof.
  unfold series_min, series_max, median. split.
  - intros Hv. rewrite Hv. split; [done|]. split; [done|].
    by apply quantile_None_values.
  - intros Hv. destruct (omap id xs) as [|x v] eqn:Hxs; [done|].
    destruct (fold_min_spec v x) as [Hmin_in Hmin]. destruct (fold_max_spec v x) as [Hmax_in Hmax].
    cbv zeta in *.
    set (a := fold_left (fun a b => if Qle_bool b a then b else a) v x) in *.
    set (b := fold_left (fun a b => if Qle_bool a b then b else a) v x) in *.
    assert (forall y, In (Some y) xs -> (a <= y <= b)%Q) as Hall.
    { intros y Hy. apply In_omap_id in Hy. rewrite Hxs in Hy. split; [by apply Hmin|by apply Hmax]. }
    destruct (quantile xs 0.5) as [m|] eqn:Hm.
    2:{ apply quantile_None_values in Hm. congruence. }
    exists a, b, m. repeat split; try done.
    + eapply (quantile_between xs 0.5 a b m); [lra|done|done].
    + eapply (quantile_between xs 0.5 a b m); [lra|done|done].
    + apply In_omap_id. by rewrite Hxs.
    + apply In_omap_id. by rewrite Hxs.
    + by apply Hall.
    + by apply Hall.
Qed.

(** X16.  The data dictionary has one entry per column, in column order.  In
    every entry the non-null and null counts add up to the column length and
    the number of unique values is at most the non-null count, and zero only
    with it.  An int64 or float64 column gets the five summary numbers: mean
    and standard deviation of the column, and a minimum, median and maximum
    that are all NaN for a column without values and otherwise satisfy
    [min <= median <= max], the minimum and the maximum being values of the
    column that bound all others.  An object or category column gets at most
    ten top values instead, the head of its value counts. *)
Theorem data_dictionary_entries (d : DataFrame) :
  map fst (data_dict d) = column_names d
  /\ Forall2
       (fun (c : string * Series) (e : string * ColumnDoc) =>
          let s := snd c in
          let doc := snd e in
          fst e = fst c
          /\ doc_dtype doc = dtype s
          /\ non_null_count doc + null_count doc = length (cells s)
          /\ unique_values doc <= non_null_count doc
          /\ (unique_values doc = 0 <-> non_null_count doc = 0)
          /\ match stats doc with
             | NumericStats mean std mn mx med =>
                 exists xs,
                   numeric s = Some xs
                   /\ mean = series_mean xs /\ std = series_std xs
                   /\ (non_null_count doc = 0 -> mn = None /\ mx = None /\ med = None)
                   /\ (non_null_count doc <> 0 ->
                       exists a b m,
                         mn = Some a /\ mx = Some b /\ med = Some m
                         /\ (a <= m <= b)%Q /\ In (Some a) xs /\ In (Some b) xs
                         /\ forall x, In (Some x) xs -> (a <= x <= b)%Q)
             | TopValues tv =>
                 exists xs,
                   (s = ObjCol xs \/ s = CatCol xs)
                   /\ tv = take 10 (value_counts xs) /\ length tv <= 10
             end)
       (columns d) (data_dict d).
Proof.
  unfold data_dict, column_names. split.
  { rewrite map_map. reflexivity. }
  apply Forall2_fmap_r, Forall_Forall2_diag, List.Forall_forall. intros [c s] _.
  cbv zeta. cbn [fst snd column_doc doc_dtype non_null_count null_count unique_values stats].
  split; [done|]. split; [done|]. split; [apply filter_partition_length|].
  split; [apply nunique_from_le|]. split; [apply nunique_zero_iff|].
  assert (forall xs, numeric s = Some xs ->
            exists xs',
              numeric s = Some xs'
              /\ series_mean xs = series_mean xs' /\ series_std xs = series_std xs'
              /\ (count s = 0 -> series_min xs = None /\ series_max xs = None
                                 /\ median xs = None)
              /\ (count s <> 0 ->
                  exists a b m,
                    series_min xs = Some a /\ series_max xs = Some b /\ median xs = Some m
                    /\ (a <= m <= b)%Q /\ In (Some a) xs' /\ In (Some b) xs'
                    /\ forall x, In (Some x) xs' -> (a <= x <= b)%Q)) as Hnum.
  { intros xs Hxs. exists xs. split; [done|]. split; [done|]. split; [done|].
    rewrite (count_numeric s xs Hxs). destruct (numeric_summary xs) as [Hnone Hsome].
    split.
    - intros Hz. apply Hnone. by apply nil_length_inv.
    - intros Hnz. apply Hsome. intros Hnil. by rewrite Hnil in Hnz. }
  destruct s as [zs|fs'|os|cs]; cbn [default numeric from_option id].
  - by apply Hnum.
  - by apply Hnum.
  - exists os. split; [by left|]. split; [done|]. rewrite length_take. lia.
  - exists cs. split; [by right|]. split; [done|]. rewrite length_take. lia.
Qed.

Lemma List_filter_sublist {A} (p : A -> bool) (l : list A) : sublist (List.filter p l) l.
Proof.
  induction l as [|x l IH]; [constructor|]. cbn. destruct (p x); by constructor.
Qed.

Lemma select_numeric_columns (d : DataFrame) :
  sublist (columns (select_numeric d)) (columns d)
  /\ (forall c s, In (c, s) (columns (select_numeric d)) <->
                  In (c, s) (columns d) /\ is_Some (numeric s)).
Proof.
  unfold select_numeric. cbn [columns]. split; [apply List_filter_sublist|].
  intros c s. rewrite filter_In. cbn [snd]. split.
  - intros [Hin Hn]. split; [done|]. by destruct (numeric s).
  - intros [Hin [xs Hn]]. split; [done|]. by rewrite Hn.
Qed.

(** X17.  [export_summary_statistics] describes the numeric columns only, in
    their original order, and raises [ValueError] exactly when the frame has
    no numeric column, in which case no file is written.  Like
    [export_data_dictionary], it writes its file without adding a record to
    the export log, so the documentation files carry no logged checksum. *)
Theorem documentation_exports (filename : string) (fs : gmap string (list byte))
  (X : DataExporter) :
  let path := path_join (output_dir X) filename in
  let r := export_summary_statistics filename fs X in
  (is_ok (snd r) = true <-> exists c s, In (c, s) (columns (df X)) /\ is_Some (numeric s))
  /\ (is_ok (snd r) = false ->
      r = (fs, X, Raise (ValueError "Cannot describe a DataFrame without columns")))
  /\ (is_ok (snd r) = true ->
      r = (<[path := describe_to_csv (select_numeric (df X))]> fs, X, Ok path)
      /\ sublist (columns (select_numeric (df X))) (columns (df X))
      /\ index_len (select_numeric (df X)) = index_len (df X))
  /\ export_data_dictionary filename fs X =
     (<[path := json_dump_data_dictionary (data_dict (df X))]> fs, X, Ok path)
  /\ length (data_dict (df X)) = length (column_names (df X)).
Proof.
  cbv zeta. unfold export_summary_statistics.
  destruct (select_numeric_columns (df X)) as [Hsub Hin].
  destruct (columns (select_numeric (df X))) as [|[c s] rest] eqn:Hcols.
  - cbn [fst snd is_ok]. split; [|split; [done|split; [done|]]].
    + split; [done|]. intros (c & s & Hcs). apply Hin in Hcs. destruct Hcs.
    + split; [done|]. unfold data_dict, column_names. by rewrite !length_map.
  - cbn [fst snd is_ok]. split; [|split; [done|split]].
    + split; [|done]. intros _. exists c, s. apply Hin. by left.
    + intros _. split; [done|]. split; [exact Hsub|done].
    + split; [done|]. unfold data_dict, column_names. by rewrite !length_map.
Qed.

End ExporterMoreFacts.

(** ** More on ProvenanceLogger *)

Section ProvenanceMoreFacts.
Import Provenance.

(** X18.  The sizes of the list-valued sections after a run of recording
    calls: each section grows by exactly the number of calls of its own
    method, whatever else is recorded in between, and the number of passed
    quality checks grows by the number of [log_quality_check] calls with
    [passed=True].  These are the numbers the provenance summary prints. *)
Theorem record_all_counts (cs : list (Recording * string)) (P : ProvenanceLogger) :
  let P' := record_all cs P in
  let calls (f : Recording -> bool) := length (List.filter (fun c => f (fst c)) cs) in
  length (curation_workflow P') =
    length (curation_workflow P)
    + calls (fun c => match c with rec_workflow_step _ _ _ _ => true | _ => false end)
  /\ length (data_transformations P') =
       length (data_transformations P)
       + calls (fun c => match c with rec_transformation _ _ => true | _ => false end)
  /\ length (quality_checks P') =
       length (quality_checks P)
       + calls (fun c => match c with rec_quality_check _ _ _ => true | _ => false end)
  /\ length (List.filter passed (quality_checks P')) =
       length (List.filter passed (quality_checks P))
       + calls (fun c => match c with rec_quality_check _ _ ok => ok | _ => false end)
  /\ length (exports P') =
       length (exports P)
       + calls (fun c => match c with rec_export _ => true | _ => false end)
  /\ length (notes_list P') =
       length (notes_list P)
       + calls (fun c => match c with rec_notes _ _ => true | _ => false end).
Proof.
  cbv zeta. revert P. induction cs as [|[c now] cs IH]; intros P.
  { cbn. repeat split; lia. }
  unfold record_all in *. cbn [fold_left fst snd List.filter].
  destruct (IH (record c now P)) as (H1 & H2 & H3 & H4 & H5 & H6).
  rewrite H1, H2, H3, H4, H5, H6. clear.
  destruct c as [s|n d p st|t d|n r ok|e|probe|n i c|t c]; cbn;
    unfold notes_list; cbn;
    rewrite ?length_app, ?List.filter_app, ?length_app; cbn;
    try (destruct probe; cbn); try (destruct ok; cbn);
    repeat split; lia.
Qed.

(** X19.  Who writes ['logged_at'], and what a later call replaces.
    [log_dataset_source] and [log_export] store the caller's dictionary with
    the key ['logged_at'] set to the logger's own clock reading, also when
    the caller supplied that key; every other key is the caller's.  The
    stored source is that of the last call alone.  [log_workflow_step]
    stores the empty dictionary for absent parameters, so passing none and
    passing an empty one give the same record.  [add_curator_info] keeps only
    the last curator, and the first [add_notes] creates the notes list. *)
Theorem recorded_dictionaries (info info' : gmap string json) (now now' : string)
  (P : ProvenanceLogger) :
  dataset_source (log_dataset_source info now P) !! "logged_at" = Some (JStr now)
  /\ (forall k, k <> "logged_at" ->
      dataset_source (log_dataset_source info now P) !! k = info !! k)
  /\ dataset_source (log_dataset_source info' now' (log_dataset_source info now P)) =
     dataset_source (log_dataset_source info' now' P)
  /\ (exists e,
        exports (log_export info now P) = exports P ++ [e]
        /\ e !! "logged_at" = Some (JStr now)
        /\ forall k, k <> "logged_at" -> e !! k = info !! k)
  /\ (forall step description st,
        log_workflow_step step description None st now P =
        log_workflow_step step description (Some ∅) st now P)
  /\ (forall n i c n' i' c',
        curator (add_curator_info n' i' c' now' (add_curator_info n i c now P)) =
        Some {| name := n'; institution := i'; contact := c'; added_at := now' |})
  /\ (forall t c,
        notes P = None ->
        notes (add_notes t c now P) =
        Some [{| note_timestamp := now; category := c; text := t |}]).
Proof.
  split; [apply lookup_insert_eq|]. split.
  { intros k Hk. cbn. by rewrite lookup_insert_ne. }
  split; [done|]. split.
  { eexists. split; [done|]. split; [apply lookup_insert_eq|].
    intros k Hk. by rewrite lookup_insert_ne. }
  split; [done|]. split; [done|].
  intros t c Hn. cbn. by rewrite Hn.
Qed.

End ProvenanceMoreFacts.

(** ** The whole workflow *)

Section PipelineFacts.
Import Frame Pipeline.
Context `{Engine} `{IOEngine} `{DocEngine}.

Lemma main_step1_outcome (path_exists : bool) (read_csv : result DataFrame) :
  match Orchestrator.main_step1 path_exists read_csv with
  | Orchestrator.Return code =>
      code = 1%Z
      /\ (path_exists = false
          \/ (path_exists = true /\ exists e, read_csv = Raise e)
          \/ (path_exists = true /\ exists d,
                read_csv = Ok d
                /\ exists c, In c Loader.EXPECTED_COLUMNS /\ ~ In c (column_names d)))
  | Orchestrator.Proceed d validation_results =>
      path_exists = true /\ read_csv = Ok d
      /\ (forall c, In c Loader.EXPECTED_COLUMNS -> In c (column_names d))
      /\ Orchestrator.all_passed validation_results = true
      /\ missing_values_total validation_results = Ok (isnull_sum_sum d)
      /\ snd (Loader.validate_structure
                (Loader.mkDataLoader "data/AI4I_2020.csv" (Some d) [])) =
         Ok validation_results
  end.
Proof.
  unfold Orchestrator.main_step1, Loader.load, Loader.init.
  cbn [Loader.data_path Loader.validation_results].
  destruct path_exists; cbn [negb]; [|by split; [|left]].
  destruct read_csv as [d|e]; [|split; [done|right; left; split; [done|by exists e]]].
  destruct (Loader.validate_structure _) as [L' [vr|e']] eqn:Hv.
  2:{ by cbn in Hv. }
  unfold Loader.validate_structure in Hv. cbn [Loader.df Loader.data_path] in Hv.
  injection Hv as _ Hvr.
  destruct (Orchestrator.all_passed vr) eqn:Hall; cbn [negb].
  - split; [done|]. split; [done|].
    destruct (decide (Loader.missing_cols d = ∅)) as [He|Hne].
    + split; [by apply missing_cols_empty_iff|]. split; [done|].
      subst vr. split; [reflexivity|].
      unfold Loader.validate_structure. cbn [Loader.df snd].
      by destruct (decide (Loader.missing_cols d = ∅)).
    + subst vr. cbn in Hall. by rewrite andb_false_r in Hall.
  - split; [done|]. right; right. split; [done|]. exists d. split; [done|].
    apply missing_cols_spec. intros He. subst vr. revert Hall.
    destruct (decide (Loader.missing_cols d = ∅)) as [_|Hne]; [|done].
    destruct (Nat.eqb (index_len d) Loader.EXPECTED_ROWS), (Loader.dtype_mismatches d),
      (Nat.eqb (isnull_sum_sum d) 0), (Nat.eqb (count_true (duplicated d)) 0); cbn; done.
Qed.

Lemma assoc_Some_In {A} (k : string) (v : A) (l : list (string * A)) :
  assoc k l = Some v -> In (k, v) l.
Proof.
  induction l as [|[k' v'] l IH]; cbn; [done|].
  destruct (String.eqb_spec k k') as [->|Hne]; [intros [= ->]; by left|].
  intros Hl. right. by apply IH.
Qed.

Lemma step2_outcome (clock : nat -> string) (d : DataFrame) :
  (is_ok (step2 clock d) = true <->
   Forall (fun f => is_Some (numeric_col d f)) Transformer.CONTINUOUS_FEATURES
   /\ index_len d <> 0)
  /\ forall T dfe,
       step2 clock d = Ok (T, dfe) ->
       Transformer.df T = d
       /\ Transformer.df_transformed T = Some dfe
       /\ map Transformer.operation (Transformer.transformation_log T) =
          ["outlier_detection"; "normalization"; "feature_engineering"]
       /\ index_len dfe = index_len d
       /\ (forall c, ~ In c Transformer.derived_feature_names ->
                     ~ In c Transformer.CONTINUOUS_FEATURES ->
                     assoc c (columns dfe) = assoc c (columns d))
       /\ exists xs, assoc "Air temperature [K]" (columns dfe) = Some (FloatCol xs).
Proof.
  unfold step2, Transformer.detect_outliers.
  change (Transformer.df (Transformer.init d)) with d.
  pose proof (outlier_loop_ok_iff d "iqr" 1.5 Transformer.CONTINUOUS_FEATURES
                (or_introl eq_refl) ltac:(done)) as Hloop.
  destruct (Transformer.outlier_loop d "iqr" 1.5 Transformer.CONTINUOUS_FEATURES)
    as [info|e].
  2:{ split; [|done]. split; [done|]. intros Hok. by apply Hloop in Hok. }
  destruct (proj1 Hloop eq_refl) as [Hnum Hrows]. clear Hloop.
  set (T1 := Transformer.log_append (Transformer.init d) _).
  assert (is_ok (Transformer.select_features "StandardScaler" (Transformer.df T1)) = true)
    as HX by (by apply select_features_is_ok).
  destruct (Transformer.select_features "StandardScaler" (Transformer.df T1))
    as [X|e] eqn:HX'; [|done].
  apply select_features_Ok in HX' as [HX' _].
  destruct (normalize_features_supported "standard" (clock 1) T1 StandardScaler MeanStd X
              eq_refl HX' Hrows) as (Hr2 & Hdf2 & Hdt2 & Hlog2).
  cbv zeta in Hr2, Hdf2, Hdt2, Hlog2.
  destruct (Transformer.normalize_features "standard" (clock 1) T1) as [T2 r2].
  cbn [fst snd] in Hr2, Hdf2, Hdt2, Hlog2. subst r2.
  assert (Forall (fun f => is_Some (numeric_col (Transformer.df T2) f))
            Transformer.CONTINUOUS_FEATURES) as Hnum2 by (by rewrite Hdf2).
  destruct (compute_derived_features_numeric (clock 2) T2 Hnum2)
    as (temp & power & category & Hr3).
  cbv zeta in Hr3. rewrite Hdt2 in Hr3. rewrite Hr3.
  split; [done|]. intros T dfe [= <- <-].
  cbn [Transformer.df Transformer.df_transformed Transformer.transformation_log
       Transformer.log_append Transformer.set_df_transformed].
  split; [by rewrite Hdf2|]. split; [done|]. split.
  { rewrite Hlog2. unfold T1. cbn. done. }
  change (Transformer.df T1) with d in *.
  set (dn := Transformer.assign_features _ _).
  destruct (derived_frame dn temp power category) as (H1' & _ & _ & _ & H5 & _).
  assert (Forall (fun f => assoc f (columns d) <> None) Transformer.CONTINUOUS_FEATURES)
    as Hpresent.
  { eapply Forall_impl; [exact Hnum|]. intros f [col Hf] Hn. unfold numeric_col in Hf.
    by rewrite Hn in Hf. }
  destruct (assign_cols_names Transformer.CONTINUOUS_FEATURES
              (snd (Transformer.fit_transform StandardScaler X)) d Hpresent) as [_ Hlen].
  change (index_len dn = index_len d) in Hlen.
  split; [by rewrite H1'|]. split.
  - intros c Hc1 Hc2. rewrite H5 by done.
    exact (assign_cols_other Transformer.CONTINUOUS_FEATURES
             (snd (Transformer.fit_transform StandardScaler X)) d c Hc2).
  - rewrite H5 by (cbn; intros [E|[E|[E|[]]]]; discriminate E).
    assert (length Transformer.CONTINUOUS_FEATURES = length X) as HlenX
      by (by eapply Forall2_length).
    pose proof (assign_cols_feature Transformer.CONTINUOUS_FEATURES X
                  (snd (Transformer.fit_transform StandardScaler X)) d
                  (fun col => map (transform StandardScaler (fit StandardScaler col)) col)
                  ltac:(compute_done) HlenX) as Hfeat.
    destruct X as [|x0 X]; [done|].
    specialize (Hfeat (fit_transform_columns StandardScaler (x0 :: X))).
    apply Forall2_cons_1 in Hfeat as [Hair _]. eexists. exact Hair.
Qed.

Lemma write_all_other (files : list (string * list byte)) (fs : gmap string (list byte))
  (p : string) :
  ~ In p (map fst files) -> write_all files fs !! p = fs !! p.
Proof.
  unfold write_all. revert fs. induction files as [|[q b] files IH]; intros fs Hp; [done|].
  cbn [fold_left fst snd]. rewrite IH by (intros Hin; apply Hp; by right).
  apply lookup_insert_ne. intros ->. apply Hp. by left.
Qed.

Lemma write_all_written (files : list (string * list byte)) (fs : gmap string (list byte))
  (p : string) :
  In p (map fst files) \/ is_Some (fs !! p) -> is_Some (write_all files fs !! p).
Proof.
  unfold write_all. revert fs. induction files as [|[q b] files IH]; intros fs Hp.
  { by destruct Hp as [[]|Hp]. }
  cbn [fold_left fst snd]. apply IH. destruct (decide (q = p)) as [->|Hne].
  - right. rewrite lookup_insert_eq. by eexists.
  - destruct Hp as [[Hq|Hp]|Hp]; [done|by left|]. right. by rewrite lookup_insert_ne.
Qed.

Lemma write_all_app (f1 f2 : list (string * list byte)) (fs : gmap string (list byte)) :
  write_all (f1 ++ f2) fs = write_all f2 (write_all f1 fs).
Proof. unfold write_all. apply fold_left_app. Qed.

(** What step 3 and the steps after it do, for a frame with a numeric column
    and a validation report with its missing-value total. *)
Lemma step3_run (clock : nat -> string) (probe : result Provenance.SystemInfo)
  (d : DataFrame) (validation_results : Loader.Results) (all_passed : bool)
  (T : Transformer.DataTransformer) (dfe : DataFrame) (fs : gmap string (list byte))
  (n : nat) :
  (exists c s, In (c, s) (columns dfe) /\ is_Some (numeric s)) ->
  missing_values_total validation_results = Ok n ->
  let csv_path := path_join "output" "AI4I_2020_curated.csv" in
  let json_path := path_join "output" "AI4I_2020_curated.json" in
  let parquet_path := path_join "output" "AI4I_2020_curated.parquet" in
  let csv_e := Exporter.CSV (clock 3) "AI4I_2020_curated.csv" csv_path (index_len dfe)
                 (length (column_names dfe))
                 (Exporter.round2 (Exporter.file_size_mb (to_csv dfe false)))
                 (sha256 (to_csv dfe false)) in
  let json_e := Exporter.JSON (clock 4) "AI4I_2020_curated.json" json_path "records"
                  (index_len dfe)
                  (Exporter.round2 (Exporter.file_size_mb (to_json dfe "records")))
                  (sha256 (to_json dfe "records")) in
  let parquet_e bytes :=
        Exporter.Parquet (clock 5) "AI4I_2020_curated.parquet" parquet_path "snappy"
          (index_len dfe) (Exporter.round2 (Exporter.file_size_mb bytes)) (sha256 bytes) in
  let data_files :=
        [ (path_join "metadata" "transformation_log.json",
           json_dump_transformation_log (Transformer.transformation_log T));
          (csv_path, to_csv dfe false);
          (json_path, to_json dfe "records") ] in
  let doc_files log P :=
        [ (path_join "output" "data_dictionary.json",
           json_dump_data_dictionary (ExporterDocs.data_dict dfe));
          (path_join "output" "summary_statistics.csv",
           describe_to_csv (ExporterDocs.select_numeric dfe));
          (path_join "output" "export_log.json", json_dump_export_log log);
          (path_join "metadata" "provenance_record.json", json_dump_provenance P);
          (path_join "docs" "provenance.txt", provenance_summary_text P) ] in
  exists P,
    step4 clock probe d validation_results all_passed = Ok P
    /\ step3 clock probe d validation_results all_passed T dfe fs =
       match to_parquet dfe "snappy" with
       | Ok bytes =>
           (write_all (data_files ++ (parquet_path, bytes)
                         :: doc_files [csv_e; json_e; parquet_e bytes] P) fs, 0%Z)
       | Raise (ImportError _) =>
           (write_all (data_files ++ doc_files [csv_e; json_e] P) fs, 0%Z)
       | Raise _ => (write_all data_files fs, 1%Z)
       end.
Proof.
  intros Hnum Hmv. cbv zeta.
  assert (columns (ExporterDocs.select_numeric dfe) <> []) as Hcols.
  { destruct Hnum as (c & s & Hcs). apply select_numeric_columns in Hcs.
    intros Hnil. by rewrite Hnil in Hcs. }
  unfold step4. rewrite Hmv. cbn [mbind result_bind].
  set (P := Provenance.record_all _ _).
  exists P. split; [reflexivity|].
  unfold step3, Saving.save_transformation_log.
  rewrite export_csv_eq. cbv zeta. rewrite export_json_eq. cbv zeta.
  rewrite export_parquet_eq. cbv zeta.
  cbn [Exporter.init Exporter.df Exporter.output_dir Exporter.log_append Exporter.export_log
       app].
  assert (forall log fs',
            finish clock probe d validation_results all_passed fs'
              {| Exporter.df := dfe; Exporter.output_dir := "output";
                 Exporter.export_log := log |} =
            (write_all
               [ (path_join "output" "data_dictionary.json",
                  json_dump_data_dictionary (ExporterDocs.data_dict dfe));
                 (path_join "output" "summary_statistics.csv",
                  describe_to_csv (ExporterDocs.select_numeric dfe));
                 (path_join "output" "export_log.json", json_dump_export_log log);
                 (path_join "metadata" "provenance_record.json", json_dump_provenance P);
                 (path_join "docs" "provenance.txt", provenance_summary_text P) ] fs',
             0%Z)) as Hfinish.
  { intros log fs'. unfold finish, ExporterDocs.export_data_dictionary,
      ExporterDocs.export_summary_statistics, ExporterDocs.save_export_log,
      Saving.save_provenance_record, Saving.save_provenance_text, step4.
    rewrite Hmv. cbn [mbind result_bind Exporter.df Exporter.output_dir Exporter.export_log].
    destruct (columns (ExporterDocs.select_numeric dfe)); [done|]. reflexivity. }
  destruct (to_parquet dfe "snappy") as [bytes|e].
  - unfold Exporter.log_append, Exporter.init.
    cbn [Exporter.df Exporter.output_dir Exporter.export_log app].
    rewrite Hfinish. reflexivity.
  - destruct e; try reflexivity.
    unfold Exporter.log_append, Exporter.init.
    cbn [Exporter.df Exporter.output_dir Exporter.export_log app].
    rewrite Hfinish. reflexivity.
Qed.

(** The two ways a run goes: it stops in step 1 or 2 with nothing written,
    or it reaches step 3 with the curated frame. *)
Lemma main_cases (path_exists : bool) (read_csv : result DataFrame) (clock : nat -> string)
  (probe : result Provenance.SystemInfo) (fs : gmap string (list byte)) :
  (main path_exists read_csv clock probe fs = (fs, 1%Z)
   /\ (path_exists = false \/ is_ok read_csv = false
       \/ exists d, read_csv = Ok d
            /\ ((exists c, In c Loader.EXPECTED_COLUMNS /\ ~ In c (column_names d))
                \/ ~ (Forall (fun f => is_Some (numeric_col d f))
                        Transformer.CONTINUOUS_FEATURES
                      /\ index_len d <> 0))))
  \/ (exists d vr T dfe,
        path_exists = true /\ read_csv = Ok d
        /\ Orchestrator.main_step1 path_exists read_csv = Orchestrator.Proceed d vr
        /\ (forall c, In c Loader.EXPECTED_COLUMNS -> In c (column_names d))
        /\ missing_values_total vr = Ok (isnull_sum_sum d)
        /\ Forall (fun f => is_Some (numeric_col d f)) Transformer.CONTINUOUS_FEATURES
        /\ index_len d <> 0
        /\ step2 clock d = Ok (T, dfe)
        /\ (exists c s, In (c, s) (columns dfe) /\ is_Some (numeric s))
        /\ main path_exists read_csv clock probe fs =
           step3 clock probe d vr true T dfe fs).
Proof.
  unfold main. pose proof (main_step1_outcome path_exists read_csv) as H1'.
  destruct (Orchestrator.main_step1 path_exists read_csv) as [code|d vr].
  - destruct H1' as [-> Hwhy]. left. split; [done|].
    destruct Hwhy as [Hp|[[_ [e ->]]|[_ (d & -> & Hc)]]]; [by left|by right; left|].
    right; right. exists d. split; [done|]. by left.
  - destruct H1' as (-> & -> & Hcols & Hall & Hmv & _). rewrite Hall.
    destruct (step2_outcome clock d) as [Hok Hres].
    destruct (step2 clock d) as [[T dfe]|e] eqn:H2.
    + right. exists d, vr, T, dfe.
      destruct (proj1 Hok eq_refl) as [Hnum Hrows].
      destruct (Hres T dfe eq_refl) as (_ & _ & _ & _ & _ & xs & Hair).
      do 8 (split; [done|]). split; [|done].
      exists "Air temperature [K]", (FloatCol xs). split; [by apply assoc_Some_In|].
      by eexists.
    + left. split; [done|]. right; right. exists d. split; [done|]. right.
      intros Hgood. by apply Hok in Hgood.
Qed.


(** X21.  The files of a run of [main].  Whatever the outcome, the run
    touches no path other than the nine it writes to, and it deletes
    nothing.  A run with exit code 0 leaves a file at each of the eight
    paths that do not depend on the Parquet encoder.  A run with exit code 1
    has written nothing, or, when the Parquet encoder raised an error other
    than [ImportError], exactly the transformation log, the CSV and the JSON
    export. *)
Theorem main_files (path_exists : bool) (read_csv : result DataFrame)
  (clock : nat -> string) (probe : result Provenance.SystemInfo)
  (fs : gmap string (list byte)) :
  let r := main path_exists read_csv clock probe fs in
  let parquet := path_join "output" "AI4I_2020_curated.parquet" in
  let core :=
    [ path_join "metadata" "transformation_log.json";
      path_join "output" "AI4I_2020_curated.csv";
      path_join "output" "AI4I_2020_curated.json";
      path_join "output" "data_dictionary.json";
      path_join "output" "summary_statistics.csv";
      path_join "output" "export_log.json";
      path_join "metadata" "provenance_record.json";
      path_join "docs" "provenance.txt" ] in
  (forall p, ~ In p (parquet :: core) -> fst r !! p = fs !! p)
  /\ (forall p, is_Some (fs !! p) -> is_Some (fst r !! p))
  /\ (snd r = 0%Z -> forall p, In p core -> is_Some (fst r !! p))
  /\ (snd r = 1%Z ->
      fst r = fs
      \/ exists d T dfe e,
           read_csv = Ok d /\ step2 clock d = Ok (T, dfe)
           /\ to_parquet dfe "snappy" = Raise e /\ (forall msg, e <> ImportError msg)
           /\ fst r =
              write_all
                [ (path_join "metadata" "transformation_log.json",
                   json_dump_transformation_log (Transformer.transformation_log T));
                  (path_join "output" "AI4I_2020_curated.csv", to_csv dfe false);
                  (path_join "output" "AI4I_2020_curated.json", to_json dfe "records") ]
                fs).
Proof.
  cbv zeta.
  destruct (main_cases path_exists read_csv clock probe fs)
    as [[Hr Hwhy]|(d & vr & T & dfe & -> & -> & _ & Hcols & Hmv & Hnum & Hrows & H2 & Hn & Hr)].
  { rewrite Hr. cbn [fst snd]. repeat split; try done. by left. }
  rewrite Hr.
  destruct (step3_run clock probe d vr true T dfe fs _ Hn Hmv) as (P & _ & Hrun).
  cbv zeta in Hrun. rewrite Hrun. clear Hrun Hr.
  destruct (to_parquet dfe "snappy") as [bytes|e] eqn:Hpq; [|destruct e];
    cbn [fst snd app]; (split; [|split; [|split]]);
    try (intros p Hp; apply write_all_other; cbn [map fst]; intros Hin; apply Hp;
         cbn [In] in *; tauto);
    try (intros p Hp; apply write_all_written; by right);
    try (intros _ p Hp; apply write_all_written; left; cbn [map fst In] in *; tauto);
    try done;
    intros _; right; exists d, T, dfe; eexists; (split; [done|]); (split; [done|]);
    (split; [done|]); (split; [done|]); reflexivity.
Qed.

Lemma Ok_inj {A} (a b : A) : Ok a = Ok b -> a = b.
Proof. by intros [= ->]. Qed.

Lemma step4_record (clock : nat -> string) (probe : result Provenance.SystemInfo)
  (d : DataFrame) (vr : Loader.Results) (all_passed : bool) (n : nat)
  (P : Provenance.ProvenanceLogger) :
  missing_values_total vr = Ok n ->
  step4 clock probe d vr all_passed = Ok P ->
  Provenance.project_name P = "AI4I_2020_Curation"
  /\ Provenance.creation_timestamp P = clock 6
  /\ Provenance.exports P = []
  /\ map Provenance.step_name (Provenance.curation_workflow P) =
     ["data_acquisition"; "quality_assessment"; "transformation"]
  /\ (exists s, Provenance.curation_workflow P !! 1 = Some s
                /\ Provenance.parameters s !! "missing_values" = Some (JNat n))
  /\ map (fun q => (Provenance.check_name q, Provenance.passed q))
       (Provenance.quality_checks P) =
     [("completeness_check", true); ("structural_validation", all_passed)]
  /\ (exists q, Provenance.quality_checks P !! 0 = Some q
                /\ Provenance.results q !! "missing_values" = Some (JNat 0)
                /\ Provenance.results q !! "total_records" = Some (JNat (index_len d)))
  /\ (exists q, Provenance.quality_checks P !! 1 = Some q
                /\ Provenance.results q = results_json vr)
  /\ Provenance.dataset_source P !! "logged_at" = Some (Provenance.JStr (clock 7))
  /\ Provenance.system_environment P =
     match probe with Ok info => Some (clock 9, info) | Raise _ => None end
  /\ length (Provenance.notes_list P) = 1.
Proof.
  intros Hmv. unfold step4. rewrite Hmv. cbn [mbind result_bind]. intros HP.
  apply Ok_inj in HP. subst P.
  unfold Provenance.record_all, recordings. cbn [fold_left fst snd].
  destruct probe as [info|e];
    lazy beta iota zeta delta
      [Provenance.record Provenance.log_dataset_source Provenance.add_curator_info
       Provenance.capture_system_environment Provenance.log_workflow_step
       Provenance.log_transformation Provenance.log_quality_check Provenance.add_notes
       Provenance.init Provenance.notes_list
       Provenance.project_name Provenance.creation_timestamp Provenance.dataset_source
       Provenance.curation_workflow Provenance.system_environment
       Provenance.data_transformations Provenance.quality_checks Provenance.exports
       Provenance.curator Provenance.notes app map length
       Provenance.step_name Provenance.check_name Provenance.passed
       Provenance.parameters Provenance.results];
    (split; [reflexivity|]); (split; [reflexivity|]); (split; [reflexivity|]);
    (split; [reflexivity|]);
    (split; [eexists; split; [reflexivity|];
             cbn [Provenance.parameters default from_option id list_to_map foldr fst snd];
             apply lookup_insert_eq|]);
    (split; [reflexivity|]);
    (split; [eexists; split; [reflexivity|];
             cbn [Provenance.results list_to_map foldr fst snd];
             split; [apply lookup_insert_eq|];
             rewrite lookup_insert_ne by done; apply lookup_insert_eq|]);
    (split; [eexists; split; reflexivity|]);
    (split; [apply lookup_insert_eq|]);
    split; reflexivity.
Qed.

(** X22.  The provenance record that a successful run saves.  It is the
    record of project [AI4I_2020_Curation], created at step 4, with the three
    workflow steps of the script and two quality checks.  Its [exports]
    section is empty although the run has exported two or three data files:
    the script never calls [log_export].  The completeness check is recorded
    as passed with zero missing values whatever the dataset contains, while
    the [quality_assessment] step carries the number of missing cells that
    validation counted; the structural validation is recorded as passed,
    since a run that reaches step 4 has passed the gate of step 1. *)
Theorem main_provenance_record (path_exists : bool) (read_csv : result DataFrame)
  (clock : nat -> string) (probe : result Provenance.SystemInfo)
  (fs : gmap string (list byte)) :
  snd (main path_exists read_csv clock probe fs) = 0%Z ->
  path_join "metadata" "provenance_record.json" <> path_join "docs" "provenance.txt" ->
  exists d P,
    read_csv = Ok d
    /\ fst (main path_exists read_csv clock probe fs)
         !! path_join "metadata" "provenance_record.json" = Some (json_dump_provenance P)
    /\ Provenance.project_name P = "AI4I_2020_Curation"
    /\ Provenance.exports P = []
    /\ map Provenance.step_name (Provenance.curation_workflow P) =
       ["data_acquisition"; "quality_assessment"; "transformation"]
    /\ (exists s, Provenance.curation_workflow P !! 1 = Some s
                  /\ Provenance.parameters s !! "missing_values" =
                     Some (JNat (isnull_sum_sum d)))
    /\ map (fun q => (Provenance.check_name q, Provenance.passed q))
         (Provenance.quality_checks P) =
       [("completeness_check", true); ("structural_validation", true)]
    /\ (exists q, Provenance.quality_checks P !! 0 = Some q
                  /\ Provenance.results q !! "missing_values" = Some (JNat 0)
                  /\ Provenance.results q !! "total_records" = Some (JNat (index_len d)))
    /\ Provenance.system_environment P =
       match probe with Ok info => Some (clock 9, info) | Raise _ => None end.
Proof.
  intros Hzero Hne.
  destruct (main_cases path_exists read_csv clock probe fs)
    as [[Hr Hwhy]|(d & vr & T & dfe & -> & -> & _ & Hcols & Hmv & Hnum & Hrows & H2 & Hn & Hr)].
  { by rewrite Hr in Hzero. }
  rewrite Hr in Hzero |- *.
  destruct (step3_run clock probe d vr true T dfe fs _ Hn Hmv) as (P & HP & Hrun).
  cbv zeta in Hrun. rewrite Hrun in Hzero |- *. clear Hrun Hr.
  destruct (step4_record clock probe d vr true _ P Hmv HP)
    as (E1 & _ & E3 & E4 & E5 & E6 & E7 & _ & _ & E10 & _).
  exists d, P. split; [done|]. split.
  { destruct (to_parquet dfe "snappy") as [bytes|e]; [|destruct e; try discriminate Hzero];
      cbn [fst app write_all fold_left snd];
      rewrite lookup_insert_ne by (intros E; by apply Hne);
      by rewrite lookup_insert_eq. }
  done.
Qed.

End PipelineFacts.

(** ** Worked examples *)

Section Examples.
Import Frame.

Example validate_structure_ai4i :
  Fixture.statuses
    (snd (Loader.validate_structure
            (Loader.mkDataLoader "data/AI4I_2020.csv" (Some Fixture.ai4i) []))) =
  [ ("row_count", Loader.WARN); ("columns", Loader.PASS); ("data_types", Loader.PASS);
    ("missing_values", Loader.PASS); ("duplicates", Loader.PASS) ].
Proof. vm_compute. reflexivity. Qed.

Example validate_structure_without_RNF :
  Fixture.statuses (snd (Loader.validate_structure
                   (Loader.mkDataLoader "data/AI4I_2020.csv"
                      (Some (Fixture.drop_column "RNF" Fixture.ai4i)) []))) =
  [ ("row_count", Loader.WARN); ("columns", Loader.FAIL); ("data_types", Loader.PASS);
    ("missing_values", Loader.PASS); ("duplicates", Loader.PASS) ]
  /\ Orchestrator.main_step1 true (Ok (Fixture.drop_column "RNF" Fixture.ai4i)) =
       Orchestrator.Return 1.
Proof. vm_compute. split; reflexivity. Qed.

Example minmax_10_20_30 :
  let col := [Some 10; Some 20; Some 30]%Q in
  map (transform Fixture.minmax (fit Fixture.minmax col)) col =
  [Some 0; Some (1 # 2); Some 1]%Q.
Proof. vm_compute. reflexivity. Qed.

Example iqr_counts_ai4i :
  let counts t :=
    match snd (Transformer.detect_outliers (H:=Fixture.engine) "iqr" t "t"
                 (Transformer.init Fixture.ai4i)) with
    | Ok info => map (fun kv => Transformer.count (snd kv)) info
    | Raise _ => []
    end in
  counts 1.5%Q = [0; 0; 1; 1; 0]%nat
  /\ counts 3%Q = [0; 0; 1; 1; 0]%nat
  /\ counts 30%Q = [0; 0; 0; 0; 0]%nat.
Proof. vm_compute. repeat split; reflexivity. Qed.

Example tool_wear_categories_ai4i :
  map Transformer.tool_wear_category (map of_Z [0; 3; 100; 200; 143; 201]%Z) =
  [None; Some "Low"; Some "Low"; Some "Medium"; Some "Medium"; Some "High"].
Proof. vm_compute. reflexivity. Qed.

(** A dataset without rows: the outlier percentage divides by zero, the
    scaler refuses the empty selection, and the derived columns are empty. *)
Example header_only_dataset :
  let T := Transformer.init (Fixture.header_only Fixture.ai4i) in
  snd (Transformer.detect_outliers (H:=Fixture.engine) "iqr" 1.5 "t" T) =
    Raise ZeroDivisionError
  /\ snd (Transformer.normalize_features (H:=Fixture.engine) "standard" "t" T) =
       Raise (ValueError "Found array with 0 sample(s) (shape=(0, 5)) while a minimum of 1 is required by StandardScaler.")
  /\ option_map (fun d => (assoc "Temp_Difference" (columns d),
                           assoc "Tool_Wear_Category" (columns d)))
       (match snd (Transformer.compute_derived_features "t" T) with
        | Ok d => Some d
        | Raise _ => None
        end) = Some (Some (ObjCol []), Some (CatCol [])).
Proof. vm_compute. repeat split; reflexivity. Qed.

(** A text column among the features: the scaler's input check reports the
    first string it cannot convert. *)
Example normalize_features_text_column :
  let d := setitem Fixture.ai4i "Torque [Nm]"
             (ObjCol [Some "high"; Some "low"; None; Some "low"; Some "low"]) in
  snd (Transformer.normalize_features (H:=Fixture.engine) "minmax" "t"
         (Transformer.init d)) =
  Raise (ValueError "could not convert string to float: 'high'").
Proof. vm_compute. reflexivity. Qed.

Example detect_outliers_unknown_method :
  Transformer.detect_outliers (H:=Fixture.engine) "mad" 1.5 "t"
    (Transformer.init Fixture.ai4i) =
  (Transformer.init Fixture.ai4i, Raise (UnboundLocalError "outliers")).
Proof. vm_compute. reflexivity. Qed.

End Examples.

(** ** The theorems at the example dataset *)

Lemma iqr_flagged_count_antitone_witness :
  (1.5 <= 3)%Q
  /\ match snd (Transformer.detect_outliers (H:=Fixture.engine) "iqr" 1.5 "t1"
                  (Transformer.init Fixture.ai4i)),
           snd (Transformer.detect_outliers (H:=Fixture.engine) "iqr" 3 "t2"
                  (Transformer.init Fixture.ai4i)) with
     | Ok low, Ok high =>
         map fst low = Transformer.CONTINUOUS_FEATURES
         /\ map fst high = Transformer.CONTINUOUS_FEATURES
         /\ Forall2 (fun a b : string * Transformer.OutlierInfo =>
                       Transformer.count (snd b) <= Transformer.count (snd a)) low high
     | Raise e1, Raise e2 => e1 = e2
     | _, _ => False
     end.
Proof.
  assert (1.5 <= 3)%Q as Hle by (unfold Qle; cbn; lia).
  split; [exact Hle|].
  exact (iqr_flagged_count_antitone (H:=Fixture.engine)
           (Transformer.init Fixture.ai4i) "t1" "t2" 1.5 3 Hle).
Defined.

Lemma normalize_features_restarts_from_original_witness :
  let T0 := Transformer.init Fixture.ai4i in
  let T := fst (Transformer.run_calls (H:=Fixture.engine)
                  [Transformer.call_compute_derived_features "t1"] T0) in
  option_map Frame.column_names (Transformer.df_transformed T) =
    Some (Frame.column_names Fixture.ai4i ++ Transformer.derived_feature_names)
  /\ exists d,
       snd (Transformer.normalize_features (H:=Fixture.engine) "minmax" "t2" T) = Ok d
       /\ Frame.column_names d = Frame.column_names Fixture.ai4i
       /\ ~ In "Power_Estimate" (Frame.column_names d).
Proof.
  intros T0 T. split; [vm_compute; reflexivity|].
  pose (X := match Transformer.select_features "MinMaxScaler" (Transformer.df T0) with
             | Ok X => X
             | Raise _ => []
             end).
  assert (Transformer.select_features "MinMaxScaler" (Transformer.df T0) = Ok X) as HX
    by (vm_compute; reflexivity).
  apply select_features_Ok in HX as [HF Hrows].
  destruct (proj1 (normalize_features_restarts_from_original (H:=Fixture.engine)
                     [Transformer.call_compute_derived_features "t1"] T0 "minmax" "t2"
                     Fixture.minmax MinMax eq_refl) X HF Hrows)
    as (H1 & _ & H4 & _ & _ & H7 & _).
  eexists. split; [exact H1|]. split; [exact H4|].
  apply H7.
  - right. left. reflexivity.
  - intros Hin. vm_compute in Hin.
    repeat (destruct Hin as [Hin|Hin]; [discriminate Hin|]). exact Hin.
Defined.

Lemma tool_wear_category_right_closed_witness :
  (exists d,
      snd (Transformer.compute_derived_features "t1" (Transformer.init Fixture.ai4i)) = Ok d
      /\ Frame.assoc "Tool_Wear_Category" (Frame.columns d) =
           Some (Frame.CatCol [None; Some "Low"; Some "Low"; Some "Medium"; Some "Medium"]))
  /\ (0 < 100)%Q
  /\ (Transformer.tool_wear_category (Some 100%Q) = Some "Low" <-> (100 <= 100)%Q).
Proof.
  destruct (tool_wear_category_right_closed
              "t1" (Transformer.init Fixture.ai4i)
              (Frame.FloatCol [Some 308.6; Some 308.7; Some 308.5; Some 308.6; Some 308.7]%Q)
              (Frame.FloatCol [Some 298.1; Some 298.2; Some 298.1; Some 298.2; Some 298.2]%Q)
              (Frame.FloatCol (zip_with fsub
                 [Some 308.6; Some 308.7; Some 308.5; Some 308.6; Some 308.7]%Q
                 [Some 298.1; Some 298.2; Some 298.1; Some 298.2; Some 298.2]%Q))
              [Some 42.8; Some 46.3; Some 49.4; Some 39.5; Some 4.6]%Q
              (map of_Z [1551; 1408; 1498; 1433; 2861]%Z)
              (map of_Z [0; 3; 100; 200; 143]%Z)
              ltac:(vm_compute; reflexivity) ltac:(vm_compute; reflexivity)
              ltac:(vm_compute; reflexivity) ltac:(vm_compute; reflexivity)
              ltac:(vm_compute; reflexivity) ltac:(vm_compute; reflexivity))
    as (Hd & Hx).
  assert (0 < 100)%Q as Hpos by reflexivity.
  split; [exact Hd|]. split; [exact Hpos|].
  exact (proj1 (Hx 100%Q Hpos)).
Defined.

(** ** The further theorems at the example dataset *)

Lemma detect_outliers_report_witness :
  exists info,
    snd (Transformer.detect_outliers (H:=Fixture.engine) "iqr" 1.5 "t"
           (Transformer.init Fixture.ai4i)) = Ok info
    /\ last (Transformer.transformation_log
               (fst (Transformer.detect_outliers (H:=Fixture.engine) "iqr" 1.5 "t"
                       (Transformer.init Fixture.ai4i)))) =
       Some (Transformer.outlier_detection "t" "iqr" 1.5
               (map (fun kv : string * Transformer.OutlierInfo =>
                       (fst kv, Transformer.count (snd kv))) info)).
Proof.
  pose (info := match snd (Transformer.detect_outliers (H:=Fixture.engine) "iqr" 1.5 "t"
                             (Transformer.init Fixture.ai4i)) with
                | Ok i => i
                | Raise _ => []
                end).
  assert (snd (Transformer.detect_outliers (H:=Fixture.engine) "iqr" 1.5 "t"
                 (Transformer.init Fixture.ai4i)) = Ok info) as Hinfo
    by (vm_compute; reflexivity).
  exists info. split; [exact Hinfo|].
  exact (proj2 (detect_outliers_report (H:=Fixture.engine) "iqr" 1.5 "t"
                  (Transformer.init Fixture.ai4i) info Hinfo)).
Defined.

Lemma zscore_flagged_count_antitone_witness :
  (2 <= 3)%Q
  /\ match snd (Transformer.detect_outliers (H:=Fixture.engine) "zscore" 2 "t1"
                  (Transformer.init Fixture.ai4i)),
           snd (Transformer.detect_outliers (H:=Fixture.engine) "zscore" 3 "t2"
                  (Transformer.init Fixture.ai4i)) with
     | Ok low, Ok high =>
         map fst low = Transformer.CONTINUOUS_FEATURES
         /\ map fst high = Transformer.CONTINUOUS_FEATURES
         /\ Forall2 (fun a b : string * Transformer.OutlierInfo =>
                       Transformer.count (snd b) <= Transformer.count (snd a)) low high
     | Raise e1, Raise e2 => e1 = e2
     | _, _ => False
     end.
Proof.
  assert (2 <= 3)%Q as Hle by (unfold Qle; cbn; lia).
  split; [exact Hle|].
  exact (zscore_flagged_count_antitone (H:=Fixture.engine)
           (Transformer.init Fixture.ai4i) "t1" "t2" 2 3 Hle).
Defined.

Lemma compute_derived_features_partial_witness :
  let T := Transformer.init (Fixture.drop_column "Torque [Nm]" Fixture.ai4i) in
  snd (Transformer.compute_derived_features "t" T) = Raise (KeyError "Torque [Nm]")
  /\ Transformer.transformation_log (fst (Transformer.compute_derived_features "t" T)) = []
  /\ exists d,
       Transformer.df_transformed (fst (Transformer.compute_derived_features "t" T)) = Some d
       /\ Frame.assoc "Temp_Difference" (Frame.columns d) =
            Some (Frame.FloatCol (zip_with fsub
                    [Some 308.6; Some 308.7; Some 308.5; Some 308.6; Some 308.7]%Q
                    [Some 298.1; Some 298.2; Some 298.1; Some 298.2; Some 298.2]%Q))
       /\ In "Temp_Difference" (Frame.column_names d).
Proof.
  intros T.
  destruct (compute_derived_features_partial "t" T
              (Frame.FloatCol [Some 308.6; Some 308.7; Some 308.5; Some 308.6; Some 308.7]%Q)
              (Frame.FloatCol [Some 298.1; Some 298.2; Some 298.1; Some 298.2; Some 298.2]%Q)
              ltac:(vm_compute; reflexivity) ltac:(vm_compute; reflexivity)
              ltac:(by eexists) ltac:(by eexists) ltac:(vm_compute; reflexivity))
    as (Hr & Hlog & d & temp & Hd & Hcol & Hfloat & _ & Hnames).
  split; [exact Hr|]. split; [exact Hlog|]. exists d. split; [exact Hd|].
  split; [by rewrite Hcol, (Hfloat _ _ eq_refl eq_refl)|].
  rewrite Hnames.
  - apply in_or_app. right. left. reflexivity.
  - intros Hin. vm_compute in Hin.
    repeat (destruct Hin as [Hin|Hin]; [discriminate Hin|]). exact Hin.
Defined.

Lemma compute_derived_features_twice_witness :
  let T0 := Transformer.init Fixture.ai4i in
  exists d1,
    snd (Transformer.compute_derived_features "t1" T0) = Ok d1
    /\ snd (Transformer.compute_derived_features "t2"
              (fst (Transformer.compute_derived_features "t1" T0))) = Ok d1.
Proof.
  intros T0.
  pose (d1 := match snd (Transformer.compute_derived_features "t1" T0) with
              | Ok d => d
              | Raise _ => Fixture.ai4i
              end).
  assert (snd (Transformer.compute_derived_features "t1" T0) = Ok d1) as Hd1
    by (vm_compute; reflexivity).
  exists d1. split; [exact Hd1|].
  exact (f_equal snd (compute_derived_features_twice "t1" "t2" T0 d1 Hd1)).
Defined.

Lemma export_twice_same_filename_witness :
  let X := Exporter.init Fixture.ai4i "output" in
  let r1 := Exporter.export_csv (H:=FixtureIO.io) "data.csv" true "t1" ∅ X in
  let r2 := Exporter.export_csv (H:=FixtureIO.io) "data.csv" false "t2"
              (fst (fst r1)) (snd (fst r1)) in
  ~ Exporter.log_consistent (H:=FixtureIO.io) (fst (fst r2)) (snd (fst r2)).
Proof.
  intros X r1 r2 Hcons.
  destruct (export_twice_same_filename (H0:=FixtureIO.io) "data.csv" true false "t1" "t2"
              ∅ X (List.Forall_nil _) (List.Forall_nil _)) as (_ & _ & Hiff).
  apply Hiff in Hcons. vm_compute in Hcons. discriminate Hcons.
Defined.

Lemma main_provenance_record_witness :
  exists P,
    fst (Pipeline.main (H:=Fixture.engine) (H0:=FixtureIO.io) (H1:=FixtureIO.docs)
           true (Ok Fixture.ai4i) FixtureIO.clock FixtureIO.probe ∅)
      !! "metadata/provenance_record.json" =
    Some (json_dump_provenance (DocEngine:=FixtureIO.docs) P)
    /\ Provenance.exports P = [].
Proof.
  assert (snd (Pipeline.main (H:=Fixture.engine) (H0:=FixtureIO.io) (H1:=FixtureIO.docs)
                 true (Ok Fixture.ai4i) FixtureIO.clock FixtureIO.probe ∅) = 0%Z) as Hzero
    by (vm_compute; reflexivity).
  assert (path_join (IOEngine:=FixtureIO.io) "metadata" "provenance_record.json" <>
          path_join (IOEngine:=FixtureIO.io) "docs" "provenance.txt") as Hne
    by (vm_compute; discriminate).
  pose proof (main_provenance_record (H:=Fixture.engine) (H0:=FixtureIO.io)
                (H1:=FixtureIO.docs) true (Ok Fixture.ai4i) FixtureIO.clock FixtureIO.probe ∅
                Hzero Hne) as Hrecord.
  destruct Hrecord as (d & P & _ & Hfile & _ & Hexp & _).
  exists P. split; [exact Hfile|exact Hexp].
Defined.
